(** * iFix Pro backup / restore: a shallow embedding of the orchestration core

    The development follows [server/backup_ifix.py] and
    [server/restore_ifix.py].  Python values are modelled as the code sees
    them: a [str] is a sequence of Unicode code points, a decoded JSON
    document is a tree of [json] values, and every interaction with the
    outside (the PocketBase HTTP API, the [rclone] subprocess, the local
    file system, the clock) is a [call] answered by a world. *)

From Stdlib Require Import ZArith NArith String Ascii Bool Lia Sorted.
From stdpp Require Import base tactics option list numbers.

Set Warnings "-register-all".
Local Open Scope Z_scope.

(** ** Python strings *)

(** A Python [str]: the sequence of its code points. *)
Abbreviation pystr := (list N).

(** String literals of the source (all of them ASCII). *)
Definition py (s : string) : pystr :=
  List.map N_of_ascii (list_ascii_of_string s).

Definition chr (a : ascii) : N := N_of_ascii a.

(** [str.isalnum], [str.isspace] and [int] belong to the interpreter.  The
    ASCII rows of the two character classes are written out below; the rows
    of the code points from 128 on, and the parser behind [int(s)], are
    taken as an interface. *)
Class Builtins := {
  uni_alnum : N -> bool;
  uni_space : N -> bool;
  py_int : pystr -> option Z
}.

Section Strings.
Context {B : Builtins}.

Definition between (lo hi c : N) : bool := ((lo <=? c) && (c <=? hi))%N.

Definition isalnum (c : N) : bool :=
  if (c <? 128)%N
  then between 48 57 c || between 65 90 c || between 97 122 c
  else uni_alnum c.

Definition isspace (c : N) : bool :=
  if (c <? 128)%N
  then between 9 13 c || between 28 32 c
  else uni_space c.

(** [c in "._- "] for a single character [c]. *)
Definition in_punct (c : N) : bool :=
  bool_decide (c ∈ py "._- ").

(** [c if c.isalnum() or c in "._- " else "_"] *)
Definition sanitize (c : N) : N :=
  if isalnum c || in_punct c then c else chr "_".

Fixpoint lstrip (s : pystr) : pystr :=
  match s with
  | c :: s' => if isspace c then lstrip s' else s
  | [] => []
  end.

Definition rstrip (s : pystr) : pystr := rev (lstrip (rev s)).

(** [s.strip()] *)
Definition strip (s : pystr) : pystr := rstrip (lstrip s).

(** [s.replace(a, b)] for one-character [a] and [b]. *)
Definition replace_char (a b : N) (s : pystr) : pystr :=
  List.map (fun c => if (c =? a)%N then b else c) s.

(** [safe] of [backup_tenant]:
    ["".join(c if c.isalnum() or c in "._- " else "_" for c in oname)
       .strip().replace(" ", "_")] *)
Definition safe (oname : pystr) : pystr :=
  replace_char (chr " ") (chr "_") (strip (List.map sanitize oname)).

(** [folder_key = f"{safe}_{oid[:8]}"] *)
Definition folder_key (oname oid : pystr) : pystr :=
  safe oname ++ py "_" ++ take 8 oid.

(** The derivation as the specification words it: keep alphanumerics, dot,
    underscore, hyphen and space, replace every other character with an
    underscore, then replace spaces with underscores, and append ["_"] and
    the first 8 characters of the identity. *)
Definition deriveFolderKey_spec (name id : pystr) : pystr :=
  replace_char (chr " ") (chr "_") (List.map sanitize name)
  ++ py "_" ++ take 8 id.

(** Removal of the leading and of the trailing space characters. *)
Fixpoint ltrim_spaces (s : pystr) : pystr :=
  match s with
  | c :: s' => if (c =? chr " ")%N then ltrim_spaces s' else s
  | [] => []
  end.

Definition trim_spaces (s : pystr) : pystr :=
  rev (ltrim_spaces (rev (ltrim_spaces s))).

End Strings.

(** An interpreter that knows no alphanumeric and no white space beyond
    ASCII, and parses plain decimal numerals: enough for the ASCII inputs of
    the examples. *)
Fixpoint decimal (acc : Z) (s : pystr) : option Z :=
  match s with
  | [] => Some acc
  | c :: s' =>
      if between 48 57 c then decimal (10 * acc + (Z.of_N c - 48)) s' else None
  end.

Definition ascii_builtins : Builtins := {|
  uni_alnum := fun _ => false;
  uni_space := fun _ => false;
  py_int := fun s => match s with [] => None | _ => decimal 0 s end
|}.

(** ** Decoded JSON documents *)

(** What [json.load] and [resp.json()] return.  A [dict] keeps its keys in
    insertion order; a float is kept as its IEEE-754 bit pattern. *)
Inductive json :=
| JNull
| JBool (b : bool)
| JInt (n : Z)
| JFloat (bits : Z)
| JStr (s : pystr)
| JList (l : list json)
| JDict (d : list (pystr * json)).

(** Truth value of a Python object ([if x:], [not x], [x or y]). *)
Definition truthy (v : json) : bool :=
  match v with
  | JNull => false
  | JBool b => b
  | JInt n => negb (n =? 0)
  | JFloat bits => negb (Z.land bits (2 ^ 63 - 1) =? 0)
  | JStr s => negb (bool_decide (s = []))
  | JList l => match l with [] => false | _ => true end
  | JDict d => match d with [] => false | _ => true end
  end.

(** [x or y] *)
Definition py_or (x y : json) : json := if truthy x then x else y.

Definition dict_lookup (k : pystr) (d : list (pystr * json)) : option json :=
  snd <$> List.find (fun kv => bool_decide (kv.1 = k)) d.

(** [d.get(k)] and [d.get(k, dflt)] on a [dict]. *)
Definition dict_get (k : pystr) (dflt : json) (d : list (pystr * json)) : json :=
  default dflt (dict_lookup k d).

(** [d[k] = v]: the value at an existing key is replaced in place, a new key
    goes to the end. *)
Fixpoint dict_set (k : pystr) (v : json) (d : list (pystr * json))
  : list (pystr * json) :=
  match d with
  | [] => [(k, v)]
  | (k', v') :: d' =>
      if bool_decide (k' = k) then (k, v) :: d' else (k', v') :: dict_set k v d'
  end.

(** The sequence [for x in v] runs through; [None] when [v] is not iterable.
    A [str] yields its characters, a [dict] its keys. *)
Definition py_iter (v : json) : option (list json) :=
  match v with
  | JList l => Some l
  | JStr s => Some ((fun c => JStr [c]) <$> s)
  | JDict d => Some ((fun kv => JStr kv.1) <$> d)
  | _ => None
  end.

(** ** Outcomes of a Python computation *)

Inductive exn :=
| KeyError | TypeError | AttributeError | ValueError | JSONDecodeError
| OverflowError | OSError | FileNotFoundError | BadZipFile
| RequestException | HTTPError (status : Z)
| TimeoutExpired.

(** A computation returns, raises an exception (every [exn] is an
    [Exception], so [except Exception] catches it), or leaves the model:
    [Stuck] marks a loop that ran out of fuel or a value outside the typed
    fragment that is modelled; no handler catches it. *)
Inductive outcome (A : Type) :=
| Ok (a : A)
| Raise (e : exn)
| Stuck.
Arguments Ok {A} a.
Arguments Raise {A} e.
Arguments Stuck {A}.

(** ** The outside world *)

(** [requests.get/post/patch] either raises (connection refused, time-out)
    or returns a response; [body] is what [resp.json()] decodes to, [None]
    when decoding raises. *)
Inductive http_reply :=
| TransportError
| Response (status : Z) (body : option json).

(** [subprocess.run(..., capture_output=True, text=True)] either raises or
    returns a completed process. *)
Inductive proc_reply :=
| ProcRaised (e : exn)
| Completed (returncode : Z) (stdout stderr : pystr).

(** A local path, as the components handed to [os.path.join]. *)
Abbreviation path := (list pystr).

(** An extracted directory tree.  A regular file carries what [json.load]
    makes of it ([None] when it is not a JSON document). *)
Inductive node :=
| File (doc : option json)
| Dir (entries : list (pystr * node)).

(** Outcome of a file-system operation that can fail with [OSError]. *)
Inductive fs_reply := FsDone | FsError.

Inductive webhook_format := Discord | Slack | Generic.

(** What the clock does with a wait that is not negative: the wait elapses,
    or the platform refuses a length it cannot take ([OverflowError] from
    the interpreter, [OSError] from the system call). *)
Inductive sleep_reply :=
| Slept
| SleepRaised (e : exn).

(** Every request the scripts make to the outside. *)
Inductive call : Type -> Type :=
(* PocketBase *)
| AdminLogin (email pass : pystr) : call http_reply
| ListRecords (collection : pystr) (filter : option pystr) (page perPage : Z)
  : call http_reply
| GetRecord (collection : pystr) (record_id : json) : call http_reply
| PatchRecord (collection : pystr) (record_id : json) (data : json)
  : call http_reply
| PostRecord (collection : pystr) (data : json) : call http_reply
| GetFile (collection_id : json) (record_id filename : pystr)
  : call http_reply
| CreateBackup (name : pystr) : call http_reply
| GetBackup (name : pystr) : call http_reply
| UploadBackup (name : pystr) (file : path) : call http_reply
| PostWebhook (format : webhook_format) (is_error : bool) : call http_reply
(* rclone *)
| Subprocess (argv : list pystr) : call proc_reply
(* clock *)
| Sleep (secs : Z) : call sleep_reply
| Now (format : pystr) : call pystr
(* terminal *)
| Input (prompt : pystr) : call pystr
(* local files *)
| Makedirs (p : path) : call fs_reply
| WriteJson (p : path) (doc : json) : call fs_reply
| WriteFile (p : path) : call fs_reply
| ZipCreate (zip_path : path) : call fs_reply
| ZipWrite (zip_path src arc : path) : call fs_reply
| ZipTree (zip_path root arc : path) : call fs_reply
| ExtractZip (zip_path : path) (dest : path) : call (option node)
| PathExists (p : path) : call bool
| RemoveTree (p : path) : call unit
| CleanupOld (tmp_dir : path) (keep_days : Z) : call unit.

(** A world answers every call and moves on. *)
Class World (W : Type) := handle : forall T, call T -> W -> T * W.
Arguments handle {W _ T} c w.

Inductive event :=
| Event (T : Type) (c : call T) (reply : T).
Arguments Event {T} c reply.

Inductive level := INFO | WARN | ERROR.

(** The lines the scripts print through [log] that carry a decision or a
    result.  Progress lines at level [INFO] that only echo their arguments
    are not recorded. *)
Inductive message :=
(* backup_ifix.py *)
| MsgCollectionMissing (collection : pystr)
| MsgFetchError (collection : pystr) (page : Z)
| MsgUploadOk (dest : pystr)
| MsgUploadAttemptFailed (attempt max_retries : Z) (stderr : pystr)
| MsgUploadAttemptTimeout (attempt max_retries : Z)
| MsgUploadAttemptError (attempt max_retries : Z)
| MsgRetryIn (wait : Z)
| MsgUploadGaveUp (max_retries : Z) (dest : pystr)
| MsgDownloadFileError (filename : pystr)
| MsgBackupTriggerStatus (status : Z)
| MsgBackupDownloadFailed (status : Z)
| MsgBackupError
| MsgRcloneRemoteMissing
| MsgRcloneNotInstalled
| MsgLoginFailed
| MsgVerifyFailed (oname : json)
| MsgTenantError (oname : json) (e : exn)
| MsgTraceback (e : exn)
| MsgErrorCount (n : nat)
| MsgWebhookSent
| MsgWebhookFailed
(* restore_ifix.py *)
| MsgListDirsError
| MsgListFilesError
| MsgNoSummary
| MsgUpdateError (collection : pystr) (record_id : json) (status : Z)
| MsgCreateError (collection : pystr) (record_id : json) (status : Z)
| MsgRestoreException (collection : pystr) (record_id : json)
| MsgCollectionTotals (created updated skipped errors : Z)
| MsgWouldUpload (collection record_id fname : pystr)
| MsgFilesFound (count : Z)
| MsgRestoreDone (created updated skipped errors : Z)
| MsgTenantNotFound (tenant_filter : pystr)
| MsgNoZip (tdir : pystr)
| MsgLatest (tdir name : pystr)
| MsgDownloadFailed (tdir : pystr)
| MsgFileMissingAfterDownload (tdir : pystr)
| MsgNoFullDb
| MsgWouldRestoreFullDb
| MsgCancelled
| MsgFullDbDownloadFailed
| MsgFullDbFileMissing
| MsgFullDbUploaded (backup_name : pystr)
| MsgFullDbUploadFailed (status : Z).

(** ** The monad of the scripts *)

Record state (W : Type) := State {
  world : W;
  trace : list event;            (* the calls made so far, oldest first *)
  output : list (level * message) (* the lines logged so far, oldest first *)
}.
Arguments State {W}.
Arguments world {W}.
Arguments trace {W}.
Arguments output {W}.

Definition M (W A : Type) : Type := state W -> outcome A * state W.

Section Monad.
Context {W : Type} {HW : World W}.

Definition ret {A} (a : A) : M W A := fun st => (Ok a, st).

Definition bind {A B} (m : M W A) (k : A -> M W B) : M W B :=
  fun st =>
    match m st with
    | (Ok a, st') => k a st'
    | (Raise e, st') => (Raise e, st')
    | (Stuck, st') => (Stuck, st')
    end.

Definition raise {A} (e : exn) : M W A := fun st => (Raise e, st).

Definition stuck {A} : M W A := fun st => (Stuck, st).

(** [try: m  except Exception as e: handler e] *)
Definition try_except {A} (m : M W A) (handler : exn -> M W A) : M W A :=
  fun st =>
    match m st with
    | (Raise e, st') => handler e st'
    | r => r
    end.

(** [try: m  finally: cleanup] *)
Definition try_finally {A} (m : M W A) (cleanup : M W unit) : M W A :=
  fun st =>
    match m st with
    | (Stuck, st') => (Stuck, st')
    | (r, st') =>
        match cleanup st' with
        | (Ok _, st'') => (r, st'')
        | (Raise e, st'') => (Raise e, st'')
        | (Stuck, st'') => (Stuck, st'')
        end
    end.

(** A request to the outside: the world answers, the trace grows. *)
Definition do_call {T} (c : call T) : M W T :=
  fun st =>
    let (r, w') := handle c (world st) in
    (Ok r, State w' (trace st ++ [Event c r]) (output st)).

(** [log(msg, level)] *)
Definition log (lvl : level) (msg : message) : M W unit :=
  fun st => (Ok tt, State (world st) (trace st) (output st ++ [(lvl, msg)])).

End Monad.

Notation "x <- m ;; k" := (bind m (fun x => k))
  (at level 60, m at next level, right associativity).
Notation "m ;;; k" := (bind m (fun _ => k))
  (at level 60, right associativity).
Notation "f <$$> m" := (bind m (fun x => ret (f x)))
  (at level 59, left associativity).

Section Loops.
Context {W : Type} {HW : World W}.

(** [for x in l: s = f(s, x)] *)
Fixpoint for_each {A S} (f : S -> A -> M W S) (s : S) (l : list A) : M W S :=
  match l with
  | [] => ret s
  | x :: l' => s' <- f s x ;; for_each f s' l'
  end.

End Loops.

(** Where a run starts: nothing requested, nothing printed. *)
Definition initial {W} (w : W) : state W := State w [] [].

(** ** More of Python's [str] and [range] *)

Fixpoint startswith (pre s : pystr) : bool :=
  match pre, s with
  | [], _ => true
  | p :: pre', c :: s' => (p =? c)%N && startswith pre' s'
  | _ :: _, [] => false
  end.

Definition endswith (suf s : pystr) : bool := startswith (rev suf) (rev s).

(** [needle in hay] for two strings. *)
Fixpoint contains (needle hay : pystr) : bool :=
  startswith needle hay ||
  match hay with
  | [] => false
  | _ :: hay' => contains needle hay'
  end.

(** [range(lo, hi)] *)
Definition py_range (lo hi : Z) : list Z :=
  (fun i => lo + Z.of_nat i) <$> seq 0 (Z.to_nat (hi - lo)).

(** [os.path.join] of the components, as handed to a subprocess. *)
Fixpoint path_str (p : path) : pystr :=
  match p with
  | [] => []
  | [c] => c
  | c :: p' => c ++ py "/" ++ path_str p'
  end.

Definition quote : pystr := [34%N].

(** ** backup_ifix.py *)

(** The configuration document, after [{**DEFAULT_CONFIG, **json.load(f)}]. *)
Record config := Config {
  pb_url : pystr;
  pb_admin_email : pystr;
  pb_admin_pass : pystr;
  rclone_remote : pystr;
  gdrive_root : pystr;
  backup_tmp_dir : pystr;
  keep_local_days : Z;
  include_pb_backup : bool;
  include_files : bool;
  max_retries : Z;
  retry_delay_sec : Z;
  webhook_url : pystr;
  webhook_on_success : bool;
  webhook_on_failure : bool;
  log_file : pystr
}.

Definition DEFAULT_CONFIG : config := {|
  pb_url := py "http://localhost:8090";
  pb_admin_email := [];
  pb_admin_pass := [];
  rclone_remote := py "gdrive";
  gdrive_root := py "iFix-Pro-Backups";
  backup_tmp_dir := py "/tmp/ifix_backup";
  keep_local_days := 7;
  include_pb_backup := true;
  include_files := true;
  max_retries := 3;
  retry_delay_sec := 10;
  webhook_url := [];
  webhook_on_success := false;
  webhook_on_failure := true;
  log_file := py "/tmp/ifix_backup.log"
|}.

Definition TENANT_COLLECTIONS : list pystr := py <$> [
  "users"; "stores"; "inventory"; "customers";
  "services"; "transactions"; "sales";
  "suppliers"; "brands"; "cash_accounts"; "cash_flow";
  "debts"; "attendance"; "leaves"; "shifts";
  "payroll"; "salarySettings"; "purchases";
  "return_purchases"; "return_sales";
  "kelengkapan_items"; "master_kelengkapan_items";
  "master_qc_functional_items"; "qc_functional_items";
  "monthlyBudgets"
]%string.

Definition GLOBAL_COLLECTIONS : list pystr := py <$> [
  "owners"; "Product"; "Transaction"; "plan_configs"; "subscription_config"
]%string.

(** [FILE_FIELDS.get(collection, [])] *)
Definition FILE_FIELDS (collection : pystr) : list pystr :=
  if bool_decide (collection = py "users") then [py "avatar"] else [].

(** [summary] of [backup_tenant]. *)
Record summary := Summary {
  tenant : json;
  owner_id : json;
  date : pystr;
  collections : list (pystr * Z);
  files_count : Z
}.

Inductive upload_status := UploadOK | UploadFAILED | UploadERROR.

(** An entry of [results]: a summary with its ["upload"] key, or the entry
    written for a tenant whose backup raised. *)
Record tenant_result := TenantResult {
  result_tenant : json;
  result_owner_id : json;
  upload : upload_status;
  result_collections : list (pystr * Z);
  result_files_count : option Z;
  error : option exn
}.

(** The entry of [results] for a tenant whose backup raised [e]. *)
Definition error_result (oname oid : json) (e : exn) : tenant_result :=
  TenantResult oname oid UploadERROR [] None (Some e).

(** The entry of [results] for a tenant whose archive was built:
    [{**summary, "upload": "OK" if ok else "FAILED"}]. *)
Definition summary_result (s : summary) (ok : bool) : tenant_result :=
  TenantResult (tenant s) (owner_id s) (if ok then UploadOK else UploadFAILED)
    (collections s) (Some (files_count s)) None.

(** An entry of [errors]. *)
Inductive run_error :=
| ErrFullDbUpload            (* "Upload full DB backup gagal" *)
| ErrFullDbCreate            (* "Pembuatan full DB backup gagal" *)
| ErrGlobalUpload            (* "Upload global backup gagal" *)
| ErrTenantUpload (oname : json)
| ErrTenantBackup (oname : json) (e : exn).

(** [if filter_str: params["filter"] = filter_str] *)
Definition filter_param (filter_str : pystr) : option pystr :=
  if bool_decide (filter_str = []) then None else Some filter_str.

(** The document [backup_tenant] writes for one collection. *)
Definition tenant_envelope (col : pystr) (oid : json) (exported_at : pystr)
    (records : list json) : json :=
  JDict [(py "collection", JStr col);
         (py "owner_id", oid);
         (py "exported_at", JStr exported_at);
         (py "count", JInt (Z.of_nat (length records)));
         (py "records", JList records)].

(** [data.get("records", [])] on a decoded document, as a sequence. *)
Definition envelope_records (doc : json) : option (list json) :=
  match doc with
  | JDict data => py_iter (dict_get (py "records") (JList []) data)
  | _ => None
  end.

Section Backup.
Context {W : Type} {HW : World W} {B : Builtins}.

(** [resp.raise_for_status()] raises for 4xx and 5xx. *)
Definition raises_for_status (status : Z) : bool :=
  (400 <=? status) && (status <? 600).

(** [pb_get_all]: the [while True] loop, entered with [page] and [records].
    [fuel] bounds the number of pages requested; a run that needs more is
    [Stuck]. *)
Fixpoint pb_get_all_from (fuel : nat) (collection : pystr)
    (filter : option pystr) (batch page : Z) (records : list json)
  : M W (list json) :=
  match fuel with
  | O => stuck
  | S fuel' =>
      resp <- do_call (ListRecords collection filter page batch) ;;
      match resp with
      | TransportError =>
          log ERROR (MsgFetchError collection page) ;;; ret records
      | Response status body =>
          if status =? 404 then
            log WARN (MsgCollectionMissing collection) ;;; ret []
          else if raises_for_status status then
            log ERROR (MsgFetchError collection page) ;;; ret records
          else
            match body with
            | Some (JDict d) =>
                match py_iter (dict_get (py "items") (JList []) d) with
                | Some items =>
                    let records := records ++ items in
                    if Z.of_nat (length items) <? batch then ret records
                    else pb_get_all_from fuel' collection filter batch
                           (page + 1) records
                | None =>
                    log ERROR (MsgFetchError collection page) ;;; ret records
                end
            | _ => log ERROR (MsgFetchError collection page) ;;; ret records
            end
      end
  end.

(** [pb_get_all(cfg, token, collection, filter_str, batch)] *)
Definition pb_get_all (fuel : nat) (cfg : config) (token collection : pystr)
    (filter_str : pystr) (batch : Z) : M W (list json) :=
  pb_get_all_from fuel collection (filter_param filter_str) batch 1 [].

(** The arguments of the [rclone copy] that [upload_gdrive] runs. *)
Definition rclone_copy_argv (local_path dest : pystr) : list pystr :=
  [py "rclone"; py "copy"; local_path; dest;
   py "--log-level"; py "NOTICE"; py "--retries"; py "3";
   py "--timeout"; py "120s"; py "--low-level-retries"; py "5"].

(** [time.sleep(secs)]: a negative length is refused with [ValueError]
    before any waiting; any other length is handed to the clock. *)
Definition time_sleep (secs : Z) : M W unit :=
  if secs <? 0 then raise ValueError
  else
    r <- do_call (Sleep secs) ;;
    match r with
    | Slept => ret tt
    | SleepRaised e => raise e
    end.

(** The body of [for attempt in range(1, max_retries + 1)] and what follows
    the loop.  The wait between two attempts is outside the [try]: what
    [time.sleep] raises leaves the function. *)
Fixpoint upload_attempts (attempts : list Z) (max_retries delay : Z)
    (local_path dest : pystr) : M W bool :=
  match attempts with
  | [] => log ERROR (MsgUploadGaveUp max_retries dest) ;;; ret false
  | attempt :: rest =>
      r <- do_call (Subprocess (rclone_copy_argv local_path dest)) ;;
      match r with
      | Completed 0 _ _ => log INFO (MsgUploadOk dest) ;;; ret true
      | _ =>
          match r with
          | Completed _ _ stderr =>
              log WARN (MsgUploadAttemptFailed attempt max_retries (take 300 stderr))
          | ProcRaised TimeoutExpired =>
              log WARN (MsgUploadAttemptTimeout attempt max_retries)
          | ProcRaised _ =>
              log WARN (MsgUploadAttemptError attempt max_retries)
          end ;;;
          (if attempt <? max_retries then
             let wait := delay * attempt in
             log INFO (MsgRetryIn wait) ;;; time_sleep wait
           else ret tt) ;;;
          upload_attempts rest max_retries delay local_path dest
      end
  end.

Definition upload_gdrive (cfg : config) (local_path gdrive_folder : pystr)
  : M W bool :=
  let dest := rclone_remote cfg ++ py ":" ++ gdrive_folder in
  let max_retries := max_retries cfg in
  let delay := retry_delay_sec cfg in
  upload_attempts (py_range 1 (max_retries + 1)) max_retries delay
    local_path dest.

Definition verify_upload (cfg : config) (gdrive_folder expected_file : pystr)
  : M W bool :=
  let dest := rclone_remote cfg ++ py ":" ++ gdrive_folder in
  r <- do_call (Subprocess [py "rclone"; py "ls"; dest]) ;;
  match r with
  | Completed returncode stdout _ =>
      ret ((returncode =? 0) && contains expected_file stdout)
  | ProcRaised _ => ret false
  end.

(** An [OSError] from a file-system operation propagates. *)
Definition fs (c : call fs_reply) : M W unit :=
  r <- do_call c ;;
  match r with
  | FsDone => ret tt
  | FsError => raise OSError
  end.

Definition pb_admin_login (cfg : config) : M W pystr :=
  r <- do_call (AdminLogin (pb_admin_email cfg) (pb_admin_pass cfg)) ;;
  match r with
  | TransportError => raise RequestException
  | Response status body =>
      if raises_for_status status then raise (HTTPError status)
      else
        match body with
        | None => raise JSONDecodeError
        | Some (JDict d) =>
            match dict_lookup (py "token") d with
            | Some (JStr token) => ret token
            | Some _ => stuck          (* a token that is not a string *)
            | None => raise KeyError
            end
        | Some _ => raise TypeError
        end
  end.

Definition pb_download_file (cfg : config) (token : pystr)
    (collection_id : json) (record_id filename : pystr) (dest_path : path)
  : M W bool :=
  r <- do_call (GetFile collection_id record_id filename) ;;
  match r with
  | TransportError => log WARN (MsgDownloadFileError filename) ;;; ret false
  | Response status _ =>
      if negb (status =? 200) then ret false
      else
        w <- do_call (WriteFile dest_path) ;;
        match w with
        | FsDone => ret true
        | FsError => log WARN (MsgDownloadFileError filename) ;;; ret false
        end
  end.

Definition pb_create_backup (cfg : config) (token : pystr) (out_dir : path)
  : M W (option path) :=
  now <- do_call (Now (py "%Y%m%d_%H%M")) ;;
  let backup_name := py "auto_" ++ now ++ py ".zip" in
  r <- do_call (CreateBackup backup_name) ;;
  match r with
  | TransportError => log WARN MsgBackupError ;;; ret None
  | Response status _ =>
      if negb ((status =? 200) || (status =? 204)) then
        log WARN (MsgBackupTriggerStatus status) ;;; ret None
      else
        r2 <- do_call (GetBackup backup_name) ;;
        match r2 with
        | TransportError => log WARN MsgBackupError ;;; ret None
        | Response status2 _ =>
            if negb (status2 =? 200) then
              log WARN (MsgBackupDownloadFailed status2) ;;; ret None
            else
              let local_path := out_dir ++ [backup_name] in
              try_except
                (fs (Makedirs out_dir) ;;; fs (WriteFile local_path) ;;;
                 ret (Some local_path))
                (fun _ => log WARN MsgBackupError ;;; ret None)
        end
  end.

(** The file names of one field value: [value if isinstance(value, list)
    else [value]], without what is falsy or not a [str]. *)
Definition file_names (value : json) : list pystr :=
  omap (fun v => match v with
                 | JStr (c :: s) => Some (c :: s)
                 | _ => None
                 end)
       (match value with JList l => l | v => [v] end).

(** The body of [for record in records] of [backup_files_for_records]. *)
Definition backup_files_for_record (cfg : config) (token collection : pystr)
    (fields : list pystr) (files_dir : path) (count : Z) (record : json)
  : M W Z :=
  match record with
  | JDict d =>
      let record_id := dict_get (py "id") (JStr []) d in
      let coll_id := dict_get (py "collectionId") (JStr collection) d in
      for_each (fun count field =>
        let value := dict_get field JNull d in
        if negb (truthy value) then ret count
        else
          for_each (fun count fname =>
            match record_id with
            | JStr rid =>
                ok <- pb_download_file cfg token coll_id rid fname
                        (files_dir ++ [rid; fname]) ;;
                ret (if ok : bool then count + 1 else count)
            | _ => raise TypeError       (* os.path.join of a non-str *)
            end) count (file_names value)) count fields
  | _ => raise AttributeError
  end.

Definition backup_files_for_records (cfg : config) (token collection : pystr)
    (records : list json) (dest_dir : path) : M W Z :=
  match FILE_FIELDS collection with
  | [] => ret 0
  | fields =>
      let files_dir := dest_dir ++ [py "_files"; collection] in
      for_each (backup_files_for_record cfg token collection fields files_dir)
        0 records
  end.

(** [owner.get("name") or owner.get("storeName") or owner["id"]] on the
    fields of an owner. *)
Definition owner_name (fields : list (pystr * json)) : M W json :=
  let named := py_or (dict_get (py "name") JNull fields)
                     (dict_get (py "storeName") JNull fields) in
  if truthy named then ret named
  else match dict_lookup (py "id") fields with
       | Some oid => ret oid
       | None => raise KeyError
       end.

(** The body of [for col in TENANT_COLLECTIONS] of [backup_tenant], on the
    collection counts and the number of files. *)
Definition backup_collection (fuel : nat) (cfg : config) (token : pystr)
    (oid : pystr) (tenant_dir : path) (acc : list (pystr * Z) * Z)
    (col : pystr) : M W (list (pystr * Z) * Z) :=
  records <- pb_get_all fuel cfg token col
               (py "ownerId = " ++ quote ++ oid ++ quote) 200 ;;
  exported_at <- do_call (Now (py "isoformat")) ;;
  fs (WriteJson (tenant_dir ++ [col ++ py ".json"])
        (tenant_envelope col (JStr oid) exported_at records)) ;;;
  let counts := acc.1 ++ [(col, Z.of_nat (length records))] in
  if include_files cfg && negb (bool_decide (records = [])) then
    fc <- backup_files_for_records cfg token col records tenant_dir ;;
    ret (counts, acc.2 + fc)
  else ret (counts, acc.2).

Definition summary_doc (s : summary) : json :=
  JDict [(py "tenant", tenant s);
         (py "owner_id", owner_id s);
         (py "date", JStr (date s));
         (py "collections",
          JDict ((fun kv => (kv.1, JInt kv.2)) <$> collections s));
         (py "files_count", JInt (files_count s));
         (py "backup_version", JStr (py "2.0"))].

(** [backup_tenant(cfg, token, owner, date_str)].  The names and identities
    of owners are strings; an owner whose name is a number raises as in the
    source, other shapes are outside the model. *)
Definition backup_tenant (fuel : nat) (cfg : config) (token : pystr)
    (owner : json) (date_str : pystr)
  : M W (pystr * path * pystr * summary) :=
  match owner with
  | JDict fields =>
      match dict_lookup (py "id") fields with
      | None => raise KeyError
      | Some oid_value =>
          oname <- owner_name fields ;;
          match oname, oid_value with
          | JStr name_str, JStr oid =>
              let folder_key := folder_key name_str oid in
              let tenant_dir := [backup_tmp_dir cfg; folder_key; date_str] in
              fs (Makedirs tenant_dir) ;;;
              acc <- for_each (backup_collection fuel cfg token oid tenant_dir)
                       ([], 0) TENANT_COLLECTIONS ;;
              let summary := Summary oname oid_value date_str acc.1 acc.2 in
              fs (WriteJson (tenant_dir ++ [py "summary.json"])
                    (summary_doc summary)) ;;;
              let zip_name := py "backup_" ++ date_str ++ py ".zip" in
              let zip_path := [backup_tmp_dir cfg; folder_key; zip_name] in
              fs (ZipTree zip_path tenant_dir [date_str]) ;;;
              ret (folder_key, zip_path, zip_name, summary)
          | (JNull | JBool _ | JInt _ | JFloat _), _ => raise TypeError
          | _, _ => stuck
          end
      end
  | _ => raise TypeError
  end.

Definition check_rclone (cfg : config) : M W bool :=
  r <- do_call (Subprocess [py "rclone"; py "listremotes"]) ;;
  match r with
  | ProcRaised FileNotFoundError => log ERROR MsgRcloneNotInstalled ;;; ret false
  | ProcRaised e => raise e
  | Completed _ stdout _ =>
      if contains (rclone_remote cfg ++ py ":") stdout then ret true
      else log ERROR MsgRcloneRemoteMissing ;;; ret false
  end.

(** [send_webhook(cfg, title, message, is_error)]; the texts are left out. *)
Definition send_webhook (cfg : config) (is_error : bool) : M W unit :=
  if bool_decide (strip (webhook_url cfg) = []) then ret tt
  else if negb is_error && negb (webhook_on_success cfg) then ret tt
  else if is_error && negb (webhook_on_failure cfg) then ret tt
  else
    let accepted r :=
      match r with
      | Response status _ => (status =? 200) || (status =? 204)
      | TransportError => false
      end in
    r1 <- do_call (PostWebhook Discord is_error) ;;
    if accepted r1 then log INFO MsgWebhookSent
    else
      r2 <- do_call (PostWebhook Slack is_error) ;;
      if accepted r2 then log INFO MsgWebhookSent
      else
        r3 <- do_call (PostWebhook Generic is_error) ;;
        match r3 with
        | TransportError => log WARN MsgWebhookFailed
        | Response _ _ => ret tt
        end.

(** What the [try] block of the tenant loop does for one owner. *)
Definition backup_and_upload (fuel : nat) (cfg : config) (token : pystr)
    (date_str : pystr) (owner oname : json)
    (acc : list run_error * list tenant_result)
  : M W (list run_error * list tenant_result) :=
  b <- backup_tenant fuel cfg token owner date_str ;;
  let folder_key := b.1.1.1 in
  let zip_path := b.1.1.2 in
  let zip_name := b.1.2 in
  let summary := b.2 in
  let gdrive_dest := gdrive_root cfg ++ py "/" ++ folder_key in
  ok <- upload_gdrive cfg (path_str zip_path) gdrive_dest ;;
  (if ok : bool then
     verified <- verify_upload cfg gdrive_dest zip_name ;;
     if verified : bool then ret tt else log WARN (MsgVerifyFailed oname)
   else ret tt) ;;;
  let results := acc.2 ++ [summary_result summary ok] in
  if ok then ret (acc.1, results)
  else ret (acc.1 ++ [ErrTenantUpload oname], results).

(** The body of [for owner in owners] of [main], on [errors] and
    [results]. *)
Definition backup_owner (fuel : nat) (cfg : config) (token : pystr)
    (date_str : pystr) (acc : list run_error * list tenant_result)
    (owner : json) : M W (list run_error * list tenant_result) :=
  match owner with
  | JDict fields =>
      oname <- owner_name fields ;;
      try_except
        (backup_and_upload fuel cfg token date_str owner oname acc)
        (fun e =>
           log ERROR (MsgTenantError oname e) ;;;
           log ERROR (MsgTraceback e) ;;;
           match dict_lookup (py "id") fields with
           | Some oid =>
               ret (acc.1 ++ [ErrTenantBackup oname e],
                    acc.2 ++ [error_result oname oid e])
           | None => raise KeyError
           end)
  | _ => raise AttributeError
  end.

(** Stage 1 of [main], on [errors]. *)
Definition full_db_stage (cfg : config) (token : pystr)
  : M W (list run_error) :=
  if include_pb_backup cfg then
    pb_zip <- pb_create_backup cfg token [backup_tmp_dir cfg; py "_fulldb"] ;;
    match pb_zip with
    | Some p =>
        ok <- upload_gdrive cfg (path_str p) (gdrive_root cfg ++ py "/_fulldb") ;;
        ret (if ok : bool then [] else [ErrFullDbUpload])
    | None => ret [ErrFullDbCreate]
    end
  else ret [].

(** Stage 2 of [main], on [errors]. *)
Definition global_stage (fuel : nat) (cfg : config) (token date_str : pystr)
    (errors : list run_error) : M W (list run_error) :=
  let global_dir := [backup_tmp_dir cfg; py "_global"; date_str] in
  let global_zip_path :=
    [backup_tmp_dir cfg; py "_global"; py "backup_" ++ date_str ++ py ".zip"] in
  fs (Makedirs global_dir) ;;;
  fs (ZipCreate global_zip_path) ;;;
  for_each (fun _ col =>
    records <- pb_get_all fuel cfg token col [] 200 ;;
    exported_at <- do_call (Now (py "isoformat")) ;;
    let fpath := global_dir ++ [col ++ py ".json"] in
    fs (WriteJson fpath
          (JDict [(py "collection", JStr col);
                  (py "count", JInt (Z.of_nat (length records)));
                  (py "exported_at", JStr exported_at);
                  (py "records", JList records)])) ;;;
    fs (ZipWrite global_zip_path fpath [date_str; col ++ py ".json"]) ;;;
    if include_files cfg && negb (bool_decide (records = [])) then
      fc <- backup_files_for_records cfg token col records global_dir ;;
      if negb (fc =? 0) then
        fs (ZipTree global_zip_path (global_dir ++ [py "_files"])
              [date_str; py "_files"])
      else ret tt
    else ret tt) tt GLOBAL_COLLECTIONS ;;;
  ok <- upload_gdrive cfg (path_str global_zip_path)
          (gdrive_root cfg ++ py "/_global") ;;
  ret (if ok : bool then errors else errors ++ [ErrGlobalUpload]).

(** Stage 3 of [main]. *)
Definition tenant_stage (fuel : nat) (cfg : config) (token date_str : pystr)
    (errors : list run_error)
  : M W (list run_error * list tenant_result) :=
  owners <- pb_get_all fuel cfg token (py "owners") [] 200 ;;
  for_each (backup_owner fuel cfg token date_str) (errors, []) owners.

(** The exit status [main] ends with: [sys.exit(2)] when [errors] is not
    empty, else the end of the script. *)
Definition exit_status (errors : list run_error) : Z :=
  match errors with [] => 0 | _ => 2 end.

(** Stages 1 to 3 of [main]: what they leave in [errors] and [results]. *)
Definition stages (fuel : nat) (cfg : config) (token : pystr)
  : M W (list run_error * list tenant_result) :=
  date_str <- do_call (Now (py "%Y-%m-%d_%H%M")) ;;
  fs (Makedirs [backup_tmp_dir cfg]) ;;;
  errors <- full_db_stage cfg token ;;
  errors <- global_stage fuel cfg token date_str errors ;;
  tenant_stage fuel cfg token date_str errors.

(** Stages 4 to 6 of [main]: clean-up, the summary table and the webhook.
    A line of the table formats the tenant with [{tenant:30s}], which raises
    for a tenant that is not a string. *)
Definition report (cfg : config) (errors : list run_error)
    (results : list tenant_result) : M W unit :=
  do_call (CleanupOld [backup_tmp_dir cfg] (keep_local_days cfg)) ;;;
  for_each (fun _ r =>
    match result_tenant r with
    | JStr _ => ret tt
    | JBool _ | JInt _ | JFloat _ => raise ValueError
    | JNull | JList _ | JDict _ => raise TypeError
    end) tt results ;;;
  log INFO (MsgErrorCount (length errors)) ;;;
  send_webhook cfg (negb (bool_decide (errors = []))).

(** [main()], from the configuration document ([None] when the file does
    not exist yet) to the exit status of the process. *)
Definition main (fuel : nat) (config_file : option config) : M W Z :=
  match config_file with
  | None => ret 0                         (* load_config writes the defaults *)
  | Some cfg =>
      if bool_decide (pb_admin_email cfg = [])
         || bool_decide (pb_admin_pass cfg = [])
      then ret 1
      else
        rclone_ok <- check_rclone cfg ;;
        if negb rclone_ok then send_webhook cfg true ;;; ret 1
        else
          login <- try_except (Some <$$> pb_admin_login cfg)
                     (fun _ => log ERROR MsgLoginFailed ;;;
                               send_webhook cfg true ;;; ret None) ;;
          match login with
          | None => ret 1
          | Some token =>
              run <- stages fuel cfg token ;;
              report cfg run.1 run.2 ;;;
              ret (exit_status run.1)
          end
  end.

End Backup.

(** ** restore_ifix.py *)

(** The four counters of a restore. *)
Record counts := Counts {
  created : Z;
  updated : Z;
  skipped : Z;
  errors_count : Z
}.

Definition no_counts : counts := Counts 0 0 0 0.

Definition add_counts (a b : counts) : counts :=
  Counts (created a + created b) (updated a + updated b)
         (skipped a + skipped b) (errors_count a + errors_count b).

(** The fields PocketBase manages itself. *)
Definition SYSTEM_FIELDS : list pystr := py <$> [
  "id"; "created"; "updated"; "collectionId"; "collectionName"; "expand"
]%string.

(** [{k: v for k, v in record.items() if k not in (...)}] *)
Definition strip_system_fields (fields : list (pystr * json))
  : list (pystr * json) :=
  List.filter (fun kv => negb (bool_decide (kv.1 ∈ SYSTEM_FIELDS))) fields.

(** [s.replace(pat, "")]: the occurrences of a non-empty [pat] are removed
    from left to right; [skip] counts the characters of a match still to
    drop. *)
Fixpoint remove_all_from (pat : pystr) (skip : nat) (s : pystr) : pystr :=
  match s with
  | [] => []
  | c :: s' =>
      match skip with
      | S n => remove_all_from pat n s'
      | O =>
          if startswith pat s then remove_all_from pat (length pat - 1) s'
          else c :: remove_all_from pat 0 s'
      end
  end.

Definition remove_all (pat s : pystr) : pystr := remove_all_from pat 0 s.

(** Comparison of two strings, code point by code point. *)
Fixpoint str_compare (a b : pystr) : comparison :=
  match a, b with
  | [], [] => Eq
  | [], _ :: _ => Lt
  | _ :: _, [] => Gt
  | x :: a', y :: b' =>
      match (x ?= y)%N with
      | Eq => str_compare a' b'
      | c => c
      end
  end.

Definition str_ltb (a b : pystr) : bool :=
  match str_compare a b with Lt => true | _ => false end.

(** [sorted(l, key=key)] and [sorted(l, key=key, reverse=True)]: both keep
    the elements with equal keys in their original order. *)
Fixpoint insert_sorted {A} (key : A -> pystr) (reverse : bool) (x : A)
    (l : list A) : list A :=
  match l with
  | [] => [x]
  | y :: l' =>
      if (if reverse then str_ltb (key x) (key y) else str_ltb (key y) (key x))
      then y :: insert_sorted key reverse x l'
      else x :: l
  end.

Definition sorted {A} (key : A -> pystr) (reverse : bool) (l : list A)
  : list A :=
  foldr (insert_sorted key reverse) [] l.

Section Splitting.
Context {B : Builtins}.

(** [s.split(sep)] for a one-character [sep]: [cur] collects, reversed, the
    piece being read. *)
Fixpoint split_from (sep : N) (cur : pystr) (s : pystr) : list pystr :=
  match s with
  | [] => [rev cur]
  | c :: s' =>
      if (c =? sep)%N then rev cur :: split_from sep [] s'
      else split_from sep (c :: cur) s'
  end.

Definition split_on (sep : N) (s : pystr) : list pystr := split_from sep [] s.

(** [s.split()]: the maximal runs of characters that are not white space. *)
Fixpoint words_from (cur : pystr) (s : pystr) : list pystr :=
  match s with
  | [] => match cur with [] => [] | _ => [rev cur] end
  | c :: s' =>
      if isspace c
      then match cur with
           | [] => words_from [] s'
           | _ => rev cur :: words_from [] s'
           end
      else words_from (c :: cur) s'
  end.

Definition split_ws (s : pystr) : list pystr := words_from [] s.

(** The first run of characters that are not white space, and what follows
    it. *)
Fixpoint first_word (cur : pystr) (s : pystr) : pystr * pystr :=
  match s with
  | [] => (rev cur, [])
  | c :: s' => if isspace c then (rev cur, s) else first_word (c :: cur) s'
  end.

(** [s.split(maxsplit=1)] *)
Definition split_ws_once (s : pystr) : list pystr :=
  match lstrip s with
  | [] => []
  | s1 =>
      let (w, rest) := first_word [] s1 in
      match lstrip rest with
      | [] => [w]
      | rest' => [w; rest']
      end
  end.

End Splitting.

(** Directory trees: [os.listdir], [os.path.isdir], [os.path.exists]. *)
Definition is_dir (n : node) : bool :=
  match n with Dir _ => true | File _ => false end.

Definition entry (name : pystr) (entries : list (pystr * node)) : option node :=
  snd <$> List.find (fun kv => bool_decide (kv.1 = name)) entries.

(** [for root, dirs, files in os.walk(top): if "summary.json" in files: ...
    break].  The walk is top-down and visits the sub-directories in the
    order of the listing; the result is the first directory (its path under
    the top and its listing) that holds a regular file [summary.json]. *)
Fixpoint find_summary (n : node) : option (path * list (pystr * node)) :=
  match n with
  | File _ => None
  | Dir entries =>
      if existsb (fun kv => bool_decide (kv.1 = py "summary.json")
                            && negb (is_dir kv.2)) entries
      then Some ([], entries)
      else
        (fix walk (es : list (pystr * node)) :=
           match es with
           | [] => None
           | (name, child) :: es' =>
               match find_summary child with
               | Some (p, found) => Some (name :: p, found)
               | None => walk es'
               end
           end) entries
  end.

Section Restore.
Context {W : Type} {HW : World W} {B : Builtins}.

(** What [requests] hands back, or the exception it raises. *)
Definition response (r : http_reply) : M W (Z * option json) :=
  match r with
  | TransportError => raise RequestException
  | Response status body => ret (status, body)
  end.

(** The body of the loop of [restore_collection_data], on the counters. *)
Definition restore_record (cfg : config) (token collection : pystr)
    (dry_run : bool) (c : counts) (record : json) : M W counts :=
  match record with
  | JDict fields =>
      let record_id := dict_get (py "id") JNull fields in
      if negb (truthy record_id) then
        ret (Counts (created c) (updated c) (skipped c + 1) (errors_count c))
      else if dry_run then
        ret (Counts (created c + 1) (updated c) (skipped c) (errors_count c))
      else
        try_except
          (check <- (r <- do_call (GetRecord collection record_id) ;; response r) ;;
           let data := strip_system_fields fields in
           if check.1 =? 200 then
             resp <- (r <- do_call (PatchRecord collection record_id (JDict data)) ;;
                      response r) ;;
             if resp.1 =? 200 then
               ret (Counts (created c) (updated c + 1) (skipped c) (errors_count c))
             else
               log WARN (MsgUpdateError collection record_id resp.1) ;;;
               ret (Counts (created c) (updated c) (skipped c) (errors_count c + 1))
           else
             let data := dict_set (py "id") record_id data in
             resp <- (r <- do_call (PostRecord collection (JDict data)) ;;
                      response r) ;;
             if resp.1 =? 200 then
               ret (Counts (created c + 1) (updated c) (skipped c) (errors_count c))
             else
               log WARN (MsgCreateError collection record_id resp.1) ;;;
               ret (Counts (created c) (updated c) (skipped c) (errors_count c + 1)))
          (fun e =>
             log ERROR (MsgRestoreException collection record_id) ;;;
             ret (Counts (created c) (updated c) (skipped c) (errors_count c + 1)))
  | _ => raise AttributeError   (* record.get on something else than a dict *)
  end.

Definition restore_collection_data (cfg : config) (token collection : pystr)
    (records : list json) (dry_run : bool) : M W counts :=
  for_each (restore_record cfg token collection dry_run) no_counts records.

(** [os.listdir(p)] of a node: [NotADirectoryError] on a regular file. *)
Definition listdir (n : node) : M W (list (pystr * node)) :=
  match n with
  | Dir entries => ret entries
  | File _ => raise OSError
  end.

(** [restore_files], on the listing of [extract_dir]. *)
Definition restore_files (cfg : config) (token : pystr)
    (extract_dir : list (pystr * node)) (dry_run : bool) : M W Z :=
  match entry (py "_files") extract_dir with
  | None => ret 0
  | Some files_dir =>
      collections <- listdir files_dir ;;
      count <- for_each (fun count col =>
        match col.2 with
        | File _ => ret count
        | Dir record_dirs =>
            for_each (fun count rec =>
              match rec.2 with
              | File _ => ret count
              | Dir files =>
                  for_each (fun count f =>
                    if dry_run then
                      log INFO (MsgWouldUpload col.1 rec.1 f.1) ;;;
                      ret (count + 1)
                    else ret (count + 1)) count files
              end) count record_dirs
        end) 0 collections ;;
      (if negb (count =? 0) then log INFO (MsgFilesFound count) else ret tt) ;;;
      ret count
  end.

(** [len(x)]: [TypeError] on a value that has no length. *)
Definition py_sized (v : json) : M W (list json) :=
  match py_iter v with
  | Some l => ret l
  | None => raise TypeError
  end.

(** The body of [for fname in os.listdir(data_dir)] of [restore_from_zip],
    on the totals. *)
Definition restore_file (cfg : config) (token : pystr) (dry_run : bool)
    (total : counts) (f : pystr * node) : M W counts :=
  let (fname, content) := f in
  if negb (endswith (py ".json") fname) || bool_decide (fname = py "summary.json")
  then ret total
  else
    let collection := remove_all (py ".json") fname in
    match content with
    | Dir _ => raise OSError                   (* open() of a directory *)
    | File None => raise JSONDecodeError
    | File (Some (JDict data)) =>
        let records := dict_get (py "records") (JList []) data in
        if negb (truthy records) then ret total
        else
          records <- py_sized records ;;
          c <- restore_collection_data cfg token collection records dry_run ;;
          log INFO (MsgCollectionTotals (created c) (updated c) (skipped c)
                      (errors_count c)) ;;;
          ret (add_counts total c)
    | File (Some _) => raise AttributeError    (* data.get on a non-dict *)
    end.

(** What [restore_from_zip] does between [try:] and [finally:]. *)
Definition restore_extracted (cfg : config) (zip_path : path) (token : pystr)
    (dry_run : bool) (extract_dir : path) : M W unit :=
  extracted <- do_call (ExtractZip zip_path extract_dir) ;;
  match extracted with
  | None => raise BadZipFile
  | Some (File _) => stuck             (* extractall fills a directory *)
  | Some (Dir top) =>
      data_dir <-
        match find_summary (Dir top) with
        | Some (_, found) =>
            match entry (py "summary.json") found with
            | Some (File (Some (JDict _))) => ret found
            | Some (File (Some _)) => raise AttributeError
            | Some (File None) => raise JSONDecodeError
            | _ => raise OSError
            end
        | None => log WARN MsgNoSummary ;;; ret top
        end ;;
      total <- for_each (restore_file cfg token dry_run) no_counts data_dir ;;
      restore_files cfg token data_dir dry_run ;;;
      log INFO (MsgRestoreDone (created total) (updated total) (skipped total)
                  (errors_count total))
  end.

Definition restore_from_zip (cfg : config) (zip_path : path) (token : pystr)
    (dry_run : bool) : M W unit :=
  now <- do_call (Now (py "%Y%m%d_%H%M%S")) ;;
  let extract_dir := [py "/tmp/ifix_restore_" ++ now] in
  made <- do_call (Makedirs extract_dir) ;;
  match made with
  | FsError => raise OSError
  | FsDone =>
      try_finally (restore_extracted cfg zip_path token dry_run extract_dir)
        (do_call (RemoveTree extract_dir))
  end.

(** One line of [rclone ls]: its size and its name. *)
Record remote_file := RemoteFile { size : Z; name : pystr }.

(** [f["name"].endswith(".zip")] *)
Definition is_zip (f : remote_file) : bool := endswith (py ".zip") (name f).

(** [rclone_list_dirs(cfg, path)] *)
Definition rclone_list_dirs (cfg : config) (path : pystr) : M W (list pystr) :=
  let remote_path :=
    rclone_remote cfg ++ py ":" ++ gdrive_root cfg
    ++ (if bool_decide (path = []) then [] else py "/" ++ path) in
  r <- do_call (Subprocess [py "rclone"; py "lsd"; remote_path]) ;;
  match r with
  | ProcRaised _ => log ERROR MsgListDirsError ;;; ret []
  | Completed returncode stdout _ =>
      if negb (returncode =? 0) then ret []
      else
        ret (omap (fun line =>
                     match strip line with
                     | [] => None
                     | stripped =>
                         let parts := split_ws stripped in
                         if (5 <=? length parts)%nat
                         then Some (List.last parts [])
                         else None
                     end)
                  (split_on 10 (strip stdout)))
  end.

(** The loop of [rclone_list_files]: [None] when [int(parts[0])] raises. *)
Fixpoint parse_files (lines : list pystr) : option (list remote_file) :=
  match lines with
  | [] => Some []
  | line :: lines' =>
      match split_ws_once (strip line) with
      | [sz; nm] =>
          match py_int sz with
          | Some n => cons (RemoteFile n nm) <$> parse_files lines'
          | None => None
          end
      | _ => parse_files lines'
      end
  end.

(** [rclone_list_files(cfg, path)] *)
Definition rclone_list_files (cfg : config) (path : pystr)
  : M W (list remote_file) :=
  let remote_path :=
    rclone_remote cfg ++ py ":" ++ gdrive_root cfg ++ py "/" ++ path in
  r <- do_call (Subprocess [py "rclone"; py "ls"; remote_path]) ;;
  match r with
  | ProcRaised _ => log ERROR MsgListFilesError ;;; ret []
  | Completed returncode stdout _ =>
      if negb (returncode =? 0) then ret []
      else
        match parse_files (split_on 10 (strip stdout)) with
        | Some files => ret (sorted name true files)
        | None => log ERROR MsgListFilesError ;;; ret []
        end
  end.

Definition download_dir : pystr := py "/tmp/ifix_restore_dl".

(** The body of [for tdir in sorted(tenant_dirs)] of [restore_latest]. *)
Definition restore_latest_dir (cfg : config) (token : pystr) (dry_run : bool)
    (tdir : pystr) : M W unit :=
  files <- rclone_list_files cfg tdir ;;
  match List.filter is_zip files with
  | [] => log WARN (MsgNoZip tdir)
  | latest :: _ =>
      log INFO (MsgLatest tdir (name latest)) ;;;
      made <- do_call (Makedirs [download_dir]) ;;
      match made with
      | FsError => raise OSError
      | FsDone =>
          let local_file := [download_dir; name latest] in
          let src :=
            rclone_remote cfg ++ py ":" ++ gdrive_root cfg ++ py "/" ++ tdir in
          r <- do_call (Subprocess [py "rclone"; py "copy"; src; download_dir;
                                    py "--include"; name latest]) ;;
          match r with
          | ProcRaised e => raise e
          | Completed returncode _ _ =>
              if negb (returncode =? 0) then log ERROR (MsgDownloadFailed tdir)
              else
                present <- do_call (PathExists local_file) ;;
                if present : bool
                then restore_from_zip cfg local_file token dry_run
                else log ERROR (MsgFileMissingAfterDownload tdir)
          end
      end
  end.

(** [restore_latest(cfg, token, tenant_filter, dry_run)]; [tenant_filter] is
    [None] or the string given on the command line. *)
Definition restore_latest (cfg : config) (token : pystr)
    (tenant_filter : option pystr) (dry_run : bool) : M W unit :=
  tenant_dirs <- rclone_list_dirs cfg [] ;;
  let filtering :=
    match tenant_filter with
    | Some f => negb (bool_decide (f = []))
    | None => false
    end in
  let filtered :=
    if filtering
    then List.filter (fun d => contains (default [] tenant_filter) d) tenant_dirs
    else tenant_dirs in
  if filtering && bool_decide (filtered = []) then
    log ERROR (MsgTenantNotFound (default [] tenant_filter))
  else
    let tenant_dirs :=
      List.filter (fun d => negb (startswith (py "_") d)) filtered in
    for_each (fun _ tdir => restore_latest_dir cfg token dry_run tdir) tt
      (sorted id false tenant_dirs) ;;;
    do_call (RemoveTree [download_dir]).

Definition fulldb_dir : pystr := py "/tmp/ifix_restore_fulldb".

(** [restore_fulldb(cfg, token, dry_run)] *)
Definition restore_fulldb (cfg : config) (token : pystr) (dry_run : bool)
  : M W unit :=
  files <- rclone_list_files cfg (py "_fulldb") ;;
  match List.filter is_zip files with
  | [] => log ERROR MsgNoFullDb
  | latest :: _ =>
      if dry_run then log INFO MsgWouldRestoreFullDb
      else
        confirm <- do_call (Input (py "Ketik 'RESTORE' untuk melanjutkan: ")) ;;
        if negb (bool_decide (confirm = py "RESTORE")) then log INFO MsgCancelled
        else
          made <- do_call (Makedirs [fulldb_dir]) ;;
          match made with
          | FsError => raise OSError
          | FsDone =>
              let src :=
                rclone_remote cfg ++ py ":" ++ gdrive_root cfg ++ py "/_fulldb" in
              r <- do_call (Subprocess [py "rclone"; py "copy"; src; fulldb_dir;
                                        py "--include"; name latest]) ;;
              match r with
              | ProcRaised e => raise e
              | Completed returncode _ _ =>
                  if negb (returncode =? 0) then log ERROR MsgFullDbDownloadFailed
                  else
                    let local_file := [fulldb_dir; name latest] in
                    present <- do_call (PathExists local_file) ;;
                    if negb present then log ERROR MsgFullDbFileMissing
                    else
                      resp <- (u <- do_call (UploadBackup (name latest) local_file) ;;
                               response u) ;;
                      (if (resp.1 =? 200) || (resp.1 =? 204)
                       then log INFO (MsgFullDbUploaded (name latest))
                       else log ERROR (MsgFullDbUploadFailed resp.1)) ;;;
                      do_call (RemoveTree [fulldb_dir])
              end
          end
  end.

End Restore.

(** ** Vocabulary of the properties *)

Definition is_list_request (e : event) : bool :=
  match e with
  | Event c _ => match c with ListRecords _ _ _ _ => true | _ => false end
  end.

(** Number of page requests in a trace. *)
Definition page_requests (tr : list event) : nat :=
  length (List.filter is_list_request tr).

(** Page [page] (from 1) of the listing [L], [batch] records to a page. *)
Definition page_slice (L : list json) (batch page : Z) : list json :=
  take (Z.to_nat batch) (drop (Z.to_nat ((page - 1) * batch)) L).

(** A store that lists [L] for [collection] under [filter], page by page,
    in every state that satisfies [Inv]. *)
Definition serves {W} `{World W} (Inv : W -> Prop)
    (collection : pystr) (filter : option pystr) (batch : Z) (L : list json)
  : Prop :=
  forall w page, Inv w -> 1 <= page ->
    exists d,
      (handle (ListRecords collection filter page batch) w).1
        = Response 200 (Some (JDict d))
      /\ dict_lookup (py "items") d = Some (JList (page_slice L batch page))
      /\ Inv (handle (ListRecords collection filter page batch) w).2.

(** The store answers the requests for pages [page], [page + 1], ... with
    the full pages [Ps] (each holds at least [batch] items), going from world
    [w] to world [w']. *)
Inductive full_pages {W} `{World W} (collection : pystr)
    (filter : option pystr) (batch : Z)
  : W -> Z -> list (list json) -> W -> Prop :=
| full_pages_nil w page :
    full_pages collection filter batch w page [] w
| full_pages_cons w page status d P Ps w' :
    (handle (ListRecords collection filter page batch) w).1
      = Response status (Some (JDict d)) ->
    status <> 404 ->
    ~ (400 <= status < 600) ->
    py_iter (dict_get (py "items") (JList []) d) = Some P ->
    batch <= Z.of_nat (length P) ->
    full_pages collection filter batch
      (handle (ListRecords collection filter page batch) w).2 (page + 1) Ps w' ->
    full_pages collection filter batch w page (P :: Ps) w'.

(** A reply to a page request that is an error other than 404: the request
    raised, the status is 4xx or 5xx, or the body is not a JSON object with
    an iterable under ["items"]. *)
Inductive fetch_error : http_reply -> Prop :=
| fetch_error_transport : fetch_error TransportError
| fetch_error_status status body :
    400 <= status < 600 -> status <> 404 ->
    fetch_error (Response status body)
| fetch_error_undecodable status :
    status <> 404 -> fetch_error (Response status None)
| fetch_error_not_object status v :
    status <> 404 -> (forall d, v <> JDict d) ->
    fetch_error (Response status (Some v))
| fetch_error_items status d :
    status <> 404 ->
    py_iter (dict_get (py "items") (JList []) d) = None ->
    fetch_error (Response status (Some (JDict d))).

(** The waits of a trace that elapsed, oldest first, and the replies it got
    from subprocesses. *)
Definition sleep_of (e : event) : option Z :=
  match e with
  | Event c r =>
      match c in call T return T -> option Z with
      | Sleep secs =>
          fun r => match r with Slept => Some secs | SleepRaised _ => None end
      | _ => fun _ => None
      end r
  end.

Definition slept (tr : list event) : list Z := omap sleep_of tr.

Definition total_slept (tr : list event) : Z := foldr Z.add 0 (slept tr).

Definition process_of (e : event) : option proc_reply :=
  match e with
  | Event c r =>
      match c in call T return T -> option proc_reply with
      | Subprocess _ => fun r => Some r
      | _ => fun _ => None
      end r
  end.

Definition processes (tr : list event) : list proc_reply := omap process_of tr.

(** A subprocess that ran and exited with status 0. *)
Definition succeeded (r : proc_reply) : bool :=
  match r with
  | Completed returncode _ _ => returncode =? 0
  | ProcRaised _ => false
  end.

(** The command [argv] fails the next [k] times it is run, however long the
    caller waits in between, and then succeeds. *)
Fixpoint fails_then_succeeds {W} `{World W} (argv : list pystr) (k : nat)
    (w : W) : Prop :=
  match k with
  | O => succeeded (handle (Subprocess argv) w).1 = true
  | S k' =>
      succeeded (handle (Subprocess argv) w).1 = false
      /\ forall secs,
           fails_then_succeeds argv k'
             (handle (Sleep secs) (handle (Subprocess argv) w).2).2
  end.

(** The clock takes every wait from 0 to [bound] seconds, whenever it is
    asked. *)
Definition clock_takes (W : Type) `{World W} (bound : Z) : Prop :=
  forall secs (w : W),
    0 <= secs <= bound -> (handle (Sleep secs) w).1 = Slept.

(** Requests that change the record store. *)
Definition is_store_mutation (e : event) : bool :=
  match e with
  | Event c _ =>
      match c with
      | PatchRecord _ _ _ | PostRecord _ _ | CreateBackup _
      | UploadBackup _ _ => true
      | _ => false
      end
  end.

(** Requests to the record store, reads included. *)
Definition is_store_request (e : event) : bool :=
  match e with
  | Event c _ =>
      match c with
      | AdminLogin _ _ | ListRecords _ _ _ _ | GetRecord _ _
      | PatchRecord _ _ _ | PostRecord _ _ | GetFile _ _ _
      | CreateBackup _ | GetBackup _ | UploadBackup _ _ => true
      | _ => false
      end
  end.

(** The identity of a record: its ["id"] field. *)
Definition id_of (record : json) : json :=
  match record with
  | JDict d => dict_get (py "id") JNull d
  | _ => JNull
  end.

(** A record that carries an identity: a [dict] whose ["id"] is truthy. *)
Definition has_identity (record : json) : bool :=
  match record with
  | JDict fields => truthy (dict_get (py "id") JNull fields)
  | _ => false
  end.

Definition is_dict (v : json) : bool :=
  match v with JDict _ => true | _ => false end.

(** The error counts of the totals lines among the logged lines. *)
Definition reported_errors (line : level * message) : option Z :=
  match line.2 with
  | MsgCollectionTotals _ _ _ e | MsgRestoreDone _ _ _ e => Some e
  | _ => None
  end.

(** What a dry run counts for [records], on top of the counters [c]. *)
Definition dry_counts (records : list json) (c : counts) : counts :=
  Counts (created c + Z.of_nat (length (List.filter has_identity records)))
         (updated c)
         (skipped c
          + Z.of_nat (length (List.filter (fun r => negb (has_identity r)) records)))
         (errors_count c).

(** A call that is no request to the record store; a logged line whose
    error count, when it is a totals line, is zero. *)
Definition quiet (e : event) : Prop := is_store_request e = false.
Definition clean (line : level * message) : Prop :=
  forall e, reported_errors line = Some e -> e = 0.

(** The identity of an owner record, when it is a [dict] with an ["id"]. *)
Definition owner_id_of (owner : json) : option json :=
  match owner with
  | JDict fields => dict_lookup (py "id") fields
  | _ => None
  end.

(** The name under which an owner of identity [oid] is reported. *)
Definition display_name (fields : list (pystr * json)) (oid : json) : json :=
  py_or (dict_get (py "name") JNull fields)
        (py_or (dict_get (py "storeName") JNull fields) oid).



(** The folder and the archive of each "latest" line of the output. *)
Definition latest_of (line : level * message) : option (pystr * pystr) :=
  match line.2 with
  | MsgLatest tdir nm => Some (tdir, nm)
  | _ => None
  end.

(** The call [rclone ls ...], with which [verify_upload] looks for the
    archive it has just uploaded. *)
Definition is_remote_listing {T} (c : call T) : bool :=
  match c with
  | Subprocess (_ :: verb :: _) => bool_decide (verb = py "ls")
  | _ => false
  end.

(** Two worlds related by [R] answer every call but [rclone ls] alike, and
    stay related whatever the call. *)
Definition agree_but_listing {W} `{World W} (R : W -> W -> Prop) : Prop :=
  forall T (c : call T) w1 w2, R w1 w2 ->
    R (handle c w1).2 (handle c w2).2
    /\ (is_remote_listing c = false -> (handle c w1).1 = (handle c w2).1).

(** Outcomes that are both results related by [Q], or the same exception,
    or both stuck. *)
Definition same_outcome {A} (Q : A -> A -> Prop) (o1 o2 : outcome A) : Prop :=
  match o1, o2 with
  | Ok a1, Ok a2 => Q a1 a2
  | Raise e1, Raise e2 => e1 = e2
  | Stuck, Stuck => True
  | _, _ => False
  end.

(** Run from related worlds, [m1] and [m2] end alike, in related worlds. *)
Definition related {W A} (R : W -> W -> Prop) (Q : A -> A -> Prop)
    (m1 m2 : M W A) : Prop :=
  forall st1 st2, R (world st1) (world st2) ->
    same_outcome Q (m1 st1).1 (m2 st2).1
    /\ R (world (m1 st1).2) (world (m2 st2).2).

(** A computation whose result, whenever it returns, satisfies [Q]. *)
Definition returns {W A} (Q : A -> Prop) (m : M W A) : Prop :=
  forall st a, (m st).1 = Ok a -> Q a.

(** A computation that returns, from any state. *)
Definition total {W A} (m : M W A) : Prop :=
  forall st, exists a st', m st = (Ok a, st').

(** A computation that raises no exception, from any state. *)
Definition no_raise {W A} (m : M W A) : Prop :=
  forall st e, (m st).1 <> Raise e.

(** A computation that, from any state, only adds calls satisfying [P] to
    the trace and lines satisfying [Pl] to the output, and whose result,
    when it returns, satisfies [Q]. *)
Definition emits {W A} (P : event -> Prop) (Pl : level * message -> Prop)
    (Q : A -> Prop) (m : M W A) : Prop :=
  forall st,
    (exists tr', trace (m st).2 = trace st ++ tr' /\ Forall P tr')
    /\ (exists out', output (m st).2 = output st ++ out' /\ Forall Pl out')
    /\ (forall a, (m st).1 = Ok a -> Q a).

(** A record store as the restore expects it, for one collection:
    [present w x] says that world [w] holds a record of identity [x].  A
    lookup answers 200 exactly for the identities that are present; a create
    of an absent identity succeeds and adds it; an update of a present
    record that leaves the identity alone succeeds.  [Inv] is what the
    worlds of the run have in common. *)
Record store_laws {W} `{World W} (present : W -> json -> Prop)
    (Inv : W -> Prop) (collection : pystr) : Prop := {
  law_get : forall w x, Inv w ->
    Inv (handle (GetRecord collection x) w).2
    /\ (forall y, present (handle (GetRecord collection x) w).2 y <-> present w y)
    /\ exists status body,
         (handle (GetRecord collection x) w).1 = Response status body
         /\ (status = 200 <-> present w x);
  law_post : forall w data x, Inv w ->
    dict_lookup (py "id") data = Some x ->
    ~ present w x ->
    Inv (handle (PostRecord collection (JDict data)) w).2
    /\ (forall y, present (handle (PostRecord collection (JDict data)) w).2 y
                  <-> y = x \/ present w y)
    /\ exists body,
         (handle (PostRecord collection (JDict data)) w).1 = Response 200 body;
  law_patch : forall w data x, Inv w ->
    dict_lookup (py "id") data = None ->
    present w x ->
    Inv (handle (PatchRecord collection x (JDict data)) w).2
    /\ (forall y, present (handle (PatchRecord collection x (JDict data)) w).2 y
                  <-> present w y)
    /\ exists body,
         (handle (PatchRecord collection x (JDict data)) w).1 = Response 200 body
}.

(** ** A reference world

    A small simulation of the collaborators, used to run the scripts on
    concrete inputs: a PocketBase store that keeps the records of each
    collection in a list, an [rclone] whose copies fail a given number of
    times before they succeed, and a disk holding archives. *)

Fixpoint json_eqb (a b : json) : bool :=
  match a, b with
  | JNull, JNull => true
  | JBool x, JBool y => Bool.eqb x y
  | JInt x, JInt y => x =? y
  | JFloat x, JFloat y => x =? y
  | JStr x, JStr y => bool_decide (x = y)
  | JList xs, JList ys =>
      (fix go (xs ys : list json) : bool :=
         match xs, ys with
         | [], [] => true
         | x :: xs', y :: ys' => json_eqb x y && go xs' ys'
         | _, _ => false
         end) xs ys
  | JDict xs, JDict ys =>
      (fix go (xs ys : list (pystr * json)) : bool :=
         match xs, ys with
         | [], [] => true
         | (k, x) :: xs', (k', y) :: ys' =>
             bool_decide (k = k') && json_eqb x y && go xs' ys'
         | _, _ => false
         end) xs ys
  | _, _ => false
  end.

Record sim := Sim {
  db : list (pystr * list json);      (* collection, records *)
  broken_page : option Z;             (* the page whose request times out *)
  copy_failures : nat;                (* failing [rclone copy] runs left *)
  remote_dirs : pystr;                (* what [rclone lsd] prints *)
  remote_files : pystr;               (* what [rclone ls] prints *)
  rclone_missing : bool;              (* [rclone] is not installed *)
  login_refused : bool;               (* the admin login is rejected *)
  archives : list (pystr * node);     (* zip file, its content *)
  read_only : list pystr              (* directories that cannot be written *)
}.

Definition sim_records (collection : pystr) (w : sim) : option (list json) :=
  snd <$> List.find (fun kv => bool_decide (kv.1 = collection)) (db w).

Definition sim_has (collection : pystr) (record_id : json) (w : sim) : bool :=
  match sim_records collection w with
  | Some recs => existsb (fun r => json_eqb (id_of r) record_id) recs
  | None => false
  end.

Fixpoint db_update (collection : pystr) (f : list json -> list json)
    (d : list (pystr * list json)) : list (pystr * list json) :=
  match d with
  | [] => [(collection, f [])]
  | (c, recs) :: d' =>
      if bool_decide (c = collection) then (c, f recs) :: d'
      else (c, recs) :: db_update collection f d'
  end.

Definition with_db (w : sim) (d : list (pystr * list json)) : sim :=
  Sim d (broken_page w) (copy_failures w) (remote_dirs w) (remote_files w)
    (rclone_missing w) (login_refused w) (archives w) (read_only w).

Definition with_copy_failures (w : sim) (n : nat) : sim :=
  Sim (db w) (broken_page w) n (remote_dirs w) (remote_files w)
    (rclone_missing w) (login_refused w) (archives w) (read_only w).

(** [PATCH]: the fields of [data] overwrite those of the stored record. *)
Definition patch_record (data record : json) : json :=
  match data, record with
  | JDict new, JDict old =>
      JDict (fold_left (fun acc kv => dict_set kv.1 kv.2 acc) new old)
  | _, _ => record
  end.

(** A write fails when a component of the path is a read-only directory. *)
Definition sim_fs (w : sim) (p : path) : fs_reply :=
  if existsb (fun c => bool_decide (c ∈ read_only w)) p then FsError
  else FsDone.

Definition sim_handle (T : Type) (c : call T) (w : sim) : T * sim :=
  match c in call T return T * sim with
  | AdminLogin _ _ =>
      (if login_refused w then Response 400 None
       else Response 200 (Some (JDict [(py "token", JStr (py "t0k3n"))])), w)
  | ListRecords collection _ page perPage =>
      (if bool_decide (broken_page w = Some page) then TransportError
       else match sim_records collection w with
            | None => Response 404 None
            | Some recs =>
                Response 200 (Some (JDict [
                  (py "page", JInt page); (py "perPage", JInt perPage);
                  (py "items", JList (page_slice recs perPage page))]))
            end, w)
  | GetRecord collection record_id =>
      (if sim_has collection record_id w then Response 200 None
       else Response 404 None, w)
  | PatchRecord collection record_id data =>
      if sim_has collection record_id w then
        (Response 200 None,
         with_db w (db_update collection
           (List.map (fun r => if json_eqb (id_of r) record_id
                               then patch_record data r else r)) (db w)))
      else (Response 404 None, w)
  | PostRecord collection data =>
      if sim_has collection (id_of data) w then (Response 400 None, w)
      else (Response 200 None,
            with_db w (db_update collection (fun recs => recs ++ [data]) (db w)))
  | GetFile _ _ _ => (Response 200 None, w)
  | CreateBackup _ => (Response 204 None, w)
  | GetBackup _ => (Response 200 None, w)
  | UploadBackup _ _ => (Response 204 None, w)
  | PostWebhook _ _ => (Response 204 None, w)
  | Subprocess argv =>
      if rclone_missing w then (ProcRaised FileNotFoundError, w)
      else match argv with
      | _ :: verb :: _ =>
          if bool_decide (verb = py "copy") then
            match copy_failures w with
            | O => (Completed 0 [] [], w)
            | S n => (Completed 1 [] (py "quota exceeded"),
                      with_copy_failures w n)
            end
          else if bool_decide (verb = py "lsd") then
            (Completed 0 (remote_dirs w) [], w)
          else if bool_decide (verb = py "ls") then
            (Completed 0 (remote_files w) [], w)
          else (Completed 0 (py "gdrive:") [], w)
      | _ => (Completed 2 [] [], w)
      end
  | Sleep _ => (Slept, w)
  | Now _ => (py "2024-05-01_0300", w)
  | Input _ => (py "RESTORE", w)
  | Makedirs p => (sim_fs w p, w)
  | WriteJson p _ => (sim_fs w p, w)
  | WriteFile p => (sim_fs w p, w)
  | ZipCreate p => (sim_fs w p, w)
  | ZipWrite p _ _ => (sim_fs w p, w)
  | ZipTree p _ _ => (sim_fs w p, w)
  | ExtractZip zip_path _ =>
      (snd <$> List.find (fun kv => bool_decide (kv.1 = path_str zip_path))
                 (archives w), w)
  | PathExists p =>
      (bool_decide (path_str p ∈ (archives w).*1), w)
  | RemoveTree _ => (tt, w)
  | CleanupOld _ _ => (tt, w)
  end.

#[export] Instance sim_world : World sim := sim_handle.

(** A store with the given collections and nothing else going on. *)
Definition sim_store (d : list (pystr * list json)) : sim :=
  Sim d None 0 [] [] false false [] [].

(** A record that only has an identity. *)
Definition rec_id (s : string) : json := JDict [(py "id", JStr (py s))].

(** Sample data. *)
Definition four_users : list json :=
  [rec_id "a"; rec_id "b"; rec_id "c"; rec_id "d"].
Definition users : pystr := py "users".

(** The reference store holds a record of identity [x] in [collection]. *)
Definition sim_present (collection : pystr) (w : sim) (x : json) : Prop :=
  sim_has collection x w = true.

(** A configuration with its credentials filled in. *)
Definition sample_config : config :=
  Config (pb_url DEFAULT_CONFIG) (py "admin@ifix.test") (py "s3cret")
    (rclone_remote DEFAULT_CONFIG) (gdrive_root DEFAULT_CONFIG)
    (backup_tmp_dir DEFAULT_CONFIG) (keep_local_days DEFAULT_CONFIG)
    (include_pb_backup DEFAULT_CONFIG) (include_files DEFAULT_CONFIG)
    (max_retries DEFAULT_CONFIG) (retry_delay_sec DEFAULT_CONFIG)
    (webhook_url DEFAULT_CONFIG) (webhook_on_success DEFAULT_CONFIG)
    (webhook_on_failure DEFAULT_CONFIG) (log_file DEFAULT_CONFIG).

(** A machine without [rclone]. *)
Definition no_rclone : sim :=
  Sim [] None 0 [] [] true false [] [].

Definition owner (id name : string) : json :=
  JDict [(py "id", JStr (py id)); (py "name", JStr (py name))].

(** Two tenants; the working directory of the second cannot be written. *)
Definition two_tenants : sim :=
  Sim [(py "owners", [owner "o1abcdefgh" "Toko A"; owner "o2abcdefgh" "Toko B"])]
    None 0 [] [] false false [] [py "Toko_B_o2abcdef"].

Definition newline : pystr := [10%N].

(** The archive of a tenant as [backup_tenant] lays it out, with one user,
    and the same archive without its [summary.json]. *)
Definition users_doc : json :=
  tenant_envelope users (JStr (py "o1abcdefgh")) (py "2024-05-02T03:00:00")
    [rec_id "a"].

Definition archive_with_summary : node :=
  Dir [(py "2024-05-02_0300",
        Dir [(py "users.json", File (Some users_doc));
             (py "summary.json",
              File (Some (JDict [(py "tenant", JStr (py "Toko A"));
                                 (py "date", JStr (py "2024-05-02_0300"))])))])].

Definition archive_without_summary : node :=
  Dir [(py "2024-05-02_0300",
        Dir [(py "users.json", File (Some users_doc))])].

(** A disk that holds the two archives, next to an empty store. *)
Definition two_archives : sim :=
  Sim [] None 0 [] [] false false
    [(py "/tmp/with.zip", archive_with_summary);
     (py "/tmp/without.zip", archive_without_summary)] [].

(** A remote with the folders of two tenants and a system folder, each
    holding two archives; the newer archive is on the local disk once it has
    been downloaded. *)
Definition remote_backups : sim :=
  Sim [] None 0
    (py "          -1 2024-05-02 03:00:10        -1 Toko_A_o1abcdef" ++ newline
     ++ py "          -1 2024-05-02 03:00:20        -1 _global" ++ newline
     ++ py "          -1 2024-05-02 03:00:30        -1 Toko_B_o2abcdef" ++ newline)
    (py "     1024 backup_2024-05-01_0300.zip" ++ newline
     ++ py "     2048 backup_2024-05-02_0300.zip" ++ newline)
    false false
    [(py "/tmp/ifix_restore_dl/backup_2024-05-02_0300.zip", archive_with_summary)]
    [].

(** An [rclone] whose next two copies fail. *)
Definition two_failures : sim :=
  Sim [] None 2 [] [] false false [] [].

(** The request for the second page of [users] times out. *)
Definition flaky_store : sim :=
  Sim [(users, four_users)] (Some 2) 0 [] [] false false [] [].

(** A store with one tenant, next to a remote whose listing prints
    [files]. *)
Definition one_tenant (files : pystr) : sim :=
  Sim [(py "owners", [owner "o1abcdefgh" "Toko A"])]
    None 0 [] files false false [] [].

(** Two reference worlds that are the same but for what [rclone ls]
    prints. *)
Definition same_but_remote_files (w1 w2 : sim) : Prop :=
  w2 = Sim (db w1) (broken_page w1) (copy_failures w1) (remote_dirs w1)
         (remote_files w2) (rclone_missing w1) (login_refused w1)
         (archives w1) (read_only w1).

(** ** backup_ifix.py: the clean-up of the working directory *)

(** The tree under [tmp_dir] as [cleanup_old] meets it: regular files with
    their modification time, and directories.  [removable] is [false] for an
    entry on which the operating system refuses the removal: [os.remove],
    respectively [os.rmdir], raises, and [cleanup_old] swallows the
    exception.  Times are only compared; they are counted in a unit that
    tells them apart. *)
Inductive disk :=
| OnDisk (mtime : Z) (removable : bool)
| Folder (removable : bool) (entries : list (pystr * disk)).

(** A file the first loop of the body removes: older than [cutoff]. *)
Definition expired (cutoff : Z) (t : disk) : bool :=
  match t with
  | OnDisk mtime removable => (mtime <? cutoff) && removable
  | Folder _ _ => false
  end.

(** A directory the second loop of the body removes: [os.listdir] finds it
    empty. *)
Definition deserted (t : disk) : bool :=
  match t with
  | Folder removable [] => removable
  | _ => false
  end.

(** [cleanup_old(tmp_dir, keep_days)] on the tree at [tmp_dir], with
    [cutoff] for [time.time() - keep_days * 86400]: the tree it leaves and
    the number [n] of files it has removed.  [os.walk(topdown=False)] goes
    through the sub-directories before it comes to the directory itself,
    where the old files are removed and then the sub-directories that are
    empty by now; the directory at the top stays. *)
Fixpoint cleanup_old (cutoff : Z) (tmp_dir : disk) : disk * Z :=
  match tmp_dir with
  | OnDisk _ _ => (tmp_dir, 0)
  | Folder removable entries =>
      let walked :=
        List.map (fun e => (e.1, cleanup_old cutoff e.2)) entries in
      let below := foldr Z.add 0 (List.map (fun e => e.2.2) walked) in
      let listing := List.map (fun e => (e.1, e.2.1)) walked in
      let n :=
        Z.of_nat (length (List.filter (fun e => expired cutoff e.2) listing)) in
      (Folder removable
         (List.filter
            (fun e => negb (expired cutoff e.2) && negb (deserted e.2))
            listing),
       below + n)
  end.

(** ** restore_ifix.py: the listing and the command line *)

(** The options of the command line, as [argparse] hands them over. *)
Record args := Args {
  arg_list : bool;                       (* --list *)
  arg_restore_latest : bool;             (* --restore-latest *)
  arg_restore_tenant : option pystr;     (* --restore-tenant NAME *)
  arg_restore_file : option pystr;       (* --restore-file PATH *)
  arg_restore_db : bool;                 (* --restore-db *)
  arg_dry_run : bool                     (* --dry-run *)
}.

(** The lines [list_backups] prints; a file is shown by its name and its
    size in bytes. *)
Inductive printed :=
| PrintHeader
| PrintDir (tdir : pystr)
| PrintEmpty
| PrintFile (fname : pystr) (bytes : Z)
| PrintMore (n : Z)
| PrintFooter.

Section RestoreMain.
Context {W : Type} {HW : World W} {B : Builtins}.

(** [list_backups(cfg)]; the result is what it prints, in order. *)
Definition list_backups (cfg : config) : M W (list printed) :=
  tenant_dirs <- rclone_list_dirs cfg [] ;;
  lines <- for_each (fun lines tdir =>
      files <- rclone_list_files cfg tdir ;;
      ret (lines ++ [PrintDir tdir]
           ++ match files with [] => [PrintEmpty] | _ => [] end
           ++ ((fun f => PrintFile (name f) (size f)) <$> take 5 files)
           ++ (if (5 <? length files)%nat
               then [PrintMore (Z.of_nat (length files) - 5)]
               else [])))
    [PrintHeader] (sorted id false tenant_dirs) ;;
  ret (lines ++ [PrintFooter]).

(** [main()] of [restore_ifix.py], from the options and the configuration
    document ([None] when the file does not exist) to the exit status of
    the process.  The login is that of [backup_ifix.py]; of the lines [main]
    logs before it exits with status 1, the failed login is recorded. *)
Definition restore_main (a : args) (config_file : option config) : M W Z :=
  match config_file with
  | None => ret 1
  | Some cfg =>
      if arg_list a then list_backups cfg ;;; ret 0
      else if bool_decide (pb_admin_email cfg = [])
              || bool_decide (pb_admin_pass cfg = [])
      then ret 1
      else
        login <- try_except (Some <$$> pb_admin_login cfg)
                   (fun _ => log ERROR MsgLoginFailed ;;; ret None) ;;
        match login with
        | None => ret 1
        | Some token =>
            match arg_restore_file a with
            | Some (c :: f) =>
                present <- do_call (PathExists [c :: f]) ;;
                if present : bool
                then restore_from_zip cfg [c :: f] token (arg_dry_run a) ;;;
                     ret 0
                else ret 1
            | _ =>
                if arg_restore_db a
                then restore_fulldb cfg token (arg_dry_run a) ;;; ret 0
                else
                  match arg_restore_tenant a with
                  | Some (c :: t) =>
                      restore_latest cfg token (Some (c :: t)) (arg_dry_run a) ;;;
                      ret 0
                  | _ =>
                      if arg_restore_latest a
                      then restore_latest cfg token None (arg_dry_run a) ;;;
                           ret 0
                      else ret 0             (* parser.print_help() *)
                  end
            end
        end
  end.

End RestoreMain.

(** ** Vocabulary of the further properties *)

(** The characters the name part of a folder key is made of: alphanumerics,
    dot, underscore and hyphen. *)
Definition key_char {B : Builtins} (c : N) : Prop :=
  isalnum c = true \/ c ∈ py "._-".

(** A word as [str.split()] cuts it: not empty, free of white space. *)
Definition is_word {B : Builtins} (s : pystr) : Prop :=
  s <> [] /\ Forall (fun c => isspace c = false) s.

(** A line of [rclone lsd] that names a directory: it has at least five
    fields, the pieces [str.split()] cuts it into. *)
Definition dir_line {B : Builtins} (line : pystr) : bool :=
  (5 <=? length (split_ws line))%nat.

(** [d] is the last field of [line]. *)
Definition last_field {B : Builtins} (line d : pystr) : Prop :=
  exists before, split_ws line = before ++ [d].


(** The number of records a restore has gone through. *)
Definition tally (c : counts) : Z :=
  created c + updated c + skipped c + errors_count c.

(** No counter of [c] is above its counterpart of [c']. *)
Definition counts_le (c c' : counts) : Prop :=
  created c <= created c' /\ updated c <= updated c'
  /\ skipped c <= skipped c' /\ errors_count c <= errors_count c'.

(** A request of [restore_collection_data] for one of [records]: the look-up
    of its identity, the update of that identity with the fields of the
    record that PocketBase does not manage itself, or the creation of a
    record with those fields and the identity. *)
Definition restore_request (collection : pystr) (records : list json)
    (e : event) : Prop :=
  match e with
  | Event c _ =>
      match c with
      | GetRecord col rid =>
          col = collection
          /\ exists fields,
               JDict fields ∈ records /\ rid = dict_get (py "id") JNull fields
      | PatchRecord col rid body =>
          col = collection
          /\ exists fields,
               JDict fields ∈ records /\ rid = dict_get (py "id") JNull fields
               /\ body = JDict (strip_system_fields fields)
      | PostRecord col body =>
          col = collection
          /\ exists fields,
               JDict fields ∈ records
               /\ body = JDict (dict_set (py "id")
                                  (dict_get (py "id") JNull fields)
                                  (strip_system_fields fields))
      | _ => False
      end
  end.

(** A computation that returns a result satisfying [Q] without any call:
    the world and the trace stay as they are. *)
Definition inert {W A} (Q : A -> Prop) (m : M W A) : Prop :=
  forall st, exists a st',
    m st = (Ok a, st') /\ world st' = world st /\ trace st' = trace st /\ Q a.

(** The reference world in front of an operator who types [answer] at every
    prompt. *)
Record operator := Operator { answer : pystr; machine : sim }.

Definition operator_handle (T : Type) (c : call T) (w : operator)
  : T * operator :=
  match c in call T return T * operator with
  | Input _ => (answer w, w)
  | c' => let rw := sim_handle _ c' (machine w) in
          (rw.1, Operator (answer w) rw.2)
  end.

#[export] Instance operator_world : World operator := operator_handle.

(** A remote that holds one full database backup. *)
Definition fulldb_remote : sim :=
  Sim [] None 0 []
    (py "  4096 auto_20240502_0300.zip" ++ newline)
    false false
    [(py "/tmp/ifix_restore_fulldb/auto_20240502_0300.zip", Dir [])] [].

(** An archive whose [users.json] is not a JSON document. *)
Definition broken_archive : sim :=
  Sim [] None 0 [] [] false false
    [(py "/tmp/broken.zip",
      Dir [(py "users.json", File None)])] [].

(** A computation that never leaves the model: from any state it adds calls
    satisfying [P] to the trace and then returns a result satisfying [Q] or
    raises an exception satisfying [E]. *)
Definition ends {W A} (E : exn -> Prop) (P : event -> Prop) (Q : A -> Prop)
    (m : M W A) : Prop :=
  forall st, exists tr,
    trace (m st).2 = trace st ++ tr /\ Forall P tr
    /\ match (m st).1 with
       | Ok a => Q a
       | Raise e => E e
       | Stuck => False
       end.




(** The webhook posts of a trace: their format and their error flag. *)
Definition webhook_of (e : event) : option (webhook_format * bool) :=
  match e with
  | Event c _ =>
      match c with
      | PostWebhook format is_error => Some (format, is_error)
      | _ => None
      end
  end.

(** [send_webhook] has nothing to send: no URL is configured, or the kind of
    notification is switched off. *)
Definition muted {B : Builtins} (cfg : config) (is_error : bool) : bool :=
  bool_decide (strip (webhook_url cfg) = [])
  || (negb is_error && negb (webhook_on_success cfg))
  || (is_error && negb (webhook_on_failure cfg)).

(** A webhook post that the endpoint answered with 200 or 204. *)
Definition accepted_post (e : event) : bool :=
  match e with
  | Event c r =>
      match c in call T return T -> bool with
      | PostWebhook _ _ => fun r =>
          match r with
          | Response status _ => (status =? 200) || (status =? 204)
          | TransportError => false
          end
      | _ => fun _ => false
      end r
  end.

(** A call that, when it lists records, lists those of owner [oid] only, 200
    to a page. *)
Definition scoped_to (oid : pystr) (e : event) : Prop :=
  match e with
  | Event c _ =>
      match c with
      | ListRecords _ filter _ perPage =>
          filter = Some (py "ownerId = " ++ quote ++ oid ++ quote)
          /\ perPage = 200
      | _ => True
      end
  end.

(** A trace of webhook posts and nothing else. *)
Definition only_webhooks (tr : list event) : Prop :=
  Forall (fun e => is_Some (webhook_of e)) tr.

(** A PocketBase that refuses the admin login, and one whose every first
    page times out. *)
Definition login_refusing : sim :=
  Sim [] None 0 [] [] false true [] [].

Definition owners_unreachable : sim :=
  Sim [(py "owners", [owner "o1abcdefgh" "Toko A"])]
    (Some 1) 0 [] [] false false [] [].

(** A disk on which the folder [_global] cannot be written. *)
Definition global_read_only : sim :=
  Sim [(py "owners", [owner "o1abcdefgh" "Toko A"])]
    None 0 [] [] false false [] [py "_global"].


(** [--restore-file PATH]: the path, when the option is given and not
    empty. *)
Definition restore_file_of (a : args) : option pystr :=
  match arg_restore_file a with
  | Some (c :: f) => Some (c :: f)
  | _ => None
  end.

(** The regular files of a tree, each with its path and its modification
    time. *)
Fixpoint files_of (t : disk) : list (path * Z) :=
  match t with
  | OnDisk mtime _ => [([], mtime)]
  | Folder _ entries =>
      flat_map (fun e => List.map (fun pm => (e.1 :: pm.1, pm.2))
                           (files_of e.2)) entries
  end.

(** The operating system refuses no removal in the tree. *)
Fixpoint all_removable (t : disk) : bool :=
  match t with
  | OnDisk _ removable => removable
  | Folder removable entries =>
      removable && forallb (fun e => all_removable e.2) entries
  end.

(** An empty directory. *)
Definition empty_folder (t : disk) : bool :=
  match t with
  | Folder _ [] => true
  | _ => false
  end.

(** No directory below the top of the tree is empty. *)
Fixpoint tidy (t : disk) : bool :=
  match t with
  | OnDisk _ _ => true
  | Folder _ entries =>
      forallb (fun e => negb (empty_folder e.2) && tidy e.2) entries
  end.

(** An entry of a directory once the walk has been through it, whether
    the body of the walk leaves it in place, and the files under it. *)
Definition cleaned (cutoff : Z) (e : pystr * disk) : pystr * disk :=
  (e.1, (cleanup_old cutoff e.2).1).

Definition kept (cutoff : Z) (e : pystr * disk) : bool :=
  negb (expired cutoff e.2) && negb (deserted e.2).

Definition under (e : pystr * disk) : list (path * Z) :=
  List.map (fun pm => (e.1 :: pm.1, pm.2)) (files_of e.2).

(** What [cleanup_old] keeps of a tree and what it counts. *)
Definition retention (cutoff : Z) (t : disk) : Prop :=
  (forall pm, In pm (files_of (cleanup_old cutoff t).1) -> In pm (files_of t))
  /\ (forall pm, In pm (files_of t) -> cutoff <= pm.2 ->
        In pm (files_of (cleanup_old cutoff t).1))
  /\ (cleanup_old cutoff t).2
     = Z.of_nat (length (files_of t))
       - Z.of_nat (length (files_of (cleanup_old cutoff t).1))
  /\ (length (files_of (cleanup_old cutoff t).1) <= length (files_of t))%nat.

(** What [cleanup_old] leaves of a tree in which nothing resists. *)
Definition swept (cutoff : Z) (t : disk) : Prop :=
  all_removable t = true ->
  tidy (cleanup_old cutoff t).1 = true
  /\ all_removable (cleanup_old cutoff t).1 = true
  /\ match t with
     | Folder _ _ =>
         Forall (fun pm => cutoff <= pm.2) (files_of (cleanup_old cutoff t).1)
     | OnDisk _ _ => True
     end.

(** A working directory with an old and a recent archive of one tenant,
    and an old archive of another. *)
Definition working_dir : disk :=
  Folder true
    [(py "Toko_A_o1abcdef",
      Folder true [(py "backup_2024-04-01_0300.zip", OnDisk 100 true);
                   (py "backup_2024-05-01_0300.zip", OnDisk 900 true)]);
     (py "Toko_B_o2abcdef",
      Folder true [(py "2024-04-01_0300",
                    Folder true [(py "users.json", OnDisk 100 true)]);
                   (py "backup_2024-04-01_0300.zip", OnDisk 100 true)])].

(** The page a request for a listing asks for. *)
Definition page_of (e : event) : option Z :=
  match e with
  | Event c _ =>
      match c with
      | ListRecords _ _ page _ => Some page
      | _ => None
      end
  end.

(** A request for a page of [collection], with this filter and this page
    size. *)
Definition lists (collection : pystr) (filter : option pystr) (batch : Z)
    (e : event) : Prop :=
  match e with
  | Event c _ =>
      match c with
      | ListRecords col f _ perPage =>
          col = collection /\ f = filter /\ perPage = batch
      | _ => False
      end
  end.

(** An [rclone] whose copies keep failing. *)
(** The reference world with a clock that takes waits of at most [longest]
    seconds and refuses longer ones with [OverflowError], as the interpreter
    does with a length that does not fit its 64-bit count of nanoseconds. *)
Record short_clock := ShortClock { longest : Z; behind : sim }.

Definition short_clock_handle (T : Type) (c : call T) (w : short_clock)
  : T * short_clock :=
  match c in call T return T * short_clock with
  | Sleep secs =>
      (if longest w <? secs then SleepRaised OverflowError else Slept, w)
  | c' => let rw := sim_handle _ c' (behind w) in
          (rw.1, ShortClock (longest w) rw.2)
  end.

#[export] Instance short_clock_world : World short_clock := short_clock_handle.

(** A configuration whose [retry_delay_sec] is [secs]. *)
Definition with_retry_delay (secs : Z) : config :=
  Config (pb_url sample_config) (pb_admin_email sample_config)
    (pb_admin_pass sample_config) (rclone_remote sample_config)
    (gdrive_root sample_config) (backup_tmp_dir sample_config)
    (keep_local_days sample_config) (include_pb_backup sample_config)
    (include_files sample_config) (max_retries sample_config) secs
    (webhook_url sample_config) (webhook_on_success sample_config)
    (webhook_on_failure sample_config) (log_file sample_config).

(** A configuration whose [retry_delay_sec] is negative. *)
Definition negative_delay : config := with_retry_delay (-10).

Definition no_quota : sim :=
  Sim [] None 100 [] [] false false [] [].

(** The counters of a line [-> created=..., updated=..., skipped=...,
    errors=...], logged after each collection, and those of the lines of the
    closing [RESTORE SELESAI] block. *)
Definition collection_totals (line : level * message) : option counts :=
  match line.2 with
  | MsgCollectionTotals c u s e => Some (Counts c u s e)
  | _ => None
  end.

Definition final_totals (line : level * message) : option counts :=
  match line.2 with
  | MsgRestoreDone c u s e => Some (Counts c u s e)
  | _ => None
  end.

(** A line that reports no totals. *)
Definition no_totals (line : level * message) : Prop :=
  collection_totals line = None /\ final_totals line = None.

(** A call that, when it adds members to an archive, puts them under the
    folder [date_str], and that, when it writes a JSON file, does not write a
    [summary.json]. *)
Definition nests_under (date_str : pystr) (e : event) : Prop :=
  match e with
  | Event c _ =>
      match c with
      | ZipWrite _ _ arc | ZipTree _ _ arc => hd [] arc = date_str
      | _ => True
      end
  end.

Definition writes_no_summary (e : event) : Prop :=
  match e with
  | Event c _ =>
      match c with
      | WriteJson p _ => List.last p [] <> py "summary.json"
      | _ => True
      end
  end.

(** The root of an archive as the backup lays it out: no entry is named
    like a JSON file or [_files]. *)
Definition no_json_at_root (top : list (pystr * node)) : Prop :=
  Forall (fun e => endswith (py ".json") e.1 = false
                   /\ e.1 <> py "_files") top.

(** The download of an attachment: the request for the file, or the write
    of its content. *)
Definition is_download (e : event) : Prop :=
  match e with
  | Event c _ =>
      match c with
      | GetFile _ _ _ | WriteFile _ => True
      | _ => False
      end
  end.

(** A file that was written. *)
Definition written (e : event) : bool :=
  match e with
  | Event c r =>
      match c in call T return T -> bool with
      | WriteFile _ => fun r => match r with FsDone => true | FsError => false end
      | _ => fun _ => false
      end r
  end.

(** The files a trace has written. *)
Definition files_written (tr : list event) : Z :=
  Z.of_nat (length (List.filter written tr)).

(** A loop body that adds to its counter the number of files it writes, and
    does nothing but download. *)
Definition counts_files {W A} (f : Z -> A -> M W Z) : Prop :=
  forall count x (st st' : state W) n,
    f count x st = (Ok n, st') ->
    exists tr,
      trace st' = trace st ++ tr /\ Forall is_download tr
      /\ n = count + files_written tr.

(** * Properties *)

(** ** Pagination ([pb_get_all]) *)

Section Pagination.
Context {W : Type} {HW : World W}.
Variable Inv : W -> Prop.
Variables (collection filter_str : pystr) (batch : Z).
Variable L : list json.
Hypothesis batch_pos : 0 < batch.
Hypothesis Hserves : serves Inv collection (filter_param filter_str) batch L.
Let filter := filter_param filter_str.

Lemma page_requests_snoc tr e :
  page_requests (tr ++ [e]) =
  (page_requests tr + if is_list_request e then 1 else 0)%nat.
Proof.
  unfold page_requests. rewrite List.filter_app, length_app. simpl.
  destruct (is_list_request e); reflexivity.
Qed.

Lemma page_slice_drop (k : nat) :
  page_slice L batch (Z.of_nat k + 1)
  = take (Z.to_nat batch) (drop (k * Z.to_nat batch) L).
Proof.
  unfold page_slice. do 2 f_equal. nia.
Qed.

(** From page [k + 1] on, with [n] full pages and a short one left, the loop
    asks for [n + 1] pages and returns what it had plus the rest of [L]. *)
Lemma pb_get_all_from_serves (n : nat) :
  forall (k : nat) (r : nat) fuel acc st,
    Inv (world st) ->
    (r < Z.to_nat batch)%nat ->
    length L = ((k + n) * Z.to_nat batch + r)%nat ->
    (n < fuel)%nat ->
    exists st',
      pb_get_all_from fuel collection filter batch (Z.of_nat k + 1) acc st
        = (Ok (acc ++ drop (k * Z.to_nat batch) L), st')
      /\ Inv (world st')
      /\ page_requests (trace st') = (page_requests (trace st) + n + 1)%nat
      /\ output st' = output st.
Proof.
  induction n as [|n IH]; intros k r fuel acc st HI Hr Hlen Hfuel;
    (destruct fuel as [|fuel]; [lia|]); simpl;
    unfold bind at 1, do_call;
    destruct (Hserves (world st) (Z.of_nat k + 1) HI ltac:(lia))
      as (d & Hrep & Hitems & HI');
    destruct (handle _ (world st)) as [rep w'] eqn:Hh; simpl in Hrep, HI';
    subst rep; simpl;
    unfold dict_get; rewrite Hitems; simpl;
    rewrite page_slice_drop.
  - rewrite take_ge by (rewrite length_drop; lia).
    destruct (Z.ltb_spec (Z.of_nat (length (drop (k * Z.to_nat batch) L))) batch)
      as [_|Hge]; [|rewrite length_drop in Hge; lia].
    eexists; split; [reflexivity|]. simpl. repeat split; auto.
    rewrite page_requests_snoc. simpl. lia.
  - destruct (Z.ltb_spec
        (Z.of_nat (length (take (Z.to_nat batch) (drop (k * Z.to_nat batch) L))))
        batch) as [Hlt|_];
      [rewrite length_take, length_drop in Hlt; nia|].
    replace (Z.of_nat k + 1 + 1) with (Z.of_nat (S k) + 1) by lia.
    edestruct (IH (S k) r fuel
                 (acc ++ take (Z.to_nat batch) (drop (k * Z.to_nat batch) L))
                 (State w' (trace st ++
                    [Event (ListRecords collection filter (Z.of_nat k + 1) batch)
                       (Response 200 (Some (JDict d)))]) (output st)))
      as (st' & Hrun & HI'' & Hreq & Hout); simpl; auto; try lia.
    exists st'. rewrite Hrun. split.
    + f_equal. f_equal. rewrite <- app_assoc. f_equal.
      replace (S k * Z.to_nat batch)%nat
        with (k * Z.to_nat batch + Z.to_nat batch)%nat by lia.
      rewrite <- drop_drop. apply take_drop.
    + repeat split; auto.
      rewrite Hreq. simpl. rewrite page_requests_snoc. simpl. lia.
Qed.

(** C5.  Against a store that lists [L] page by page, [pb_get_all] returns
    all of [L]; it asks for exactly [N + 1] pages when [L] has [N * batch]
    records (the last page comes back empty), and for exactly one page when
    [L] has [batch - 1] records.  [fuel] only has to cover those requests. *)
Theorem pb_get_all_page_fetches cfg token (N : nat) (w : W) fuel :
  Inv w ->
  (Z.of_nat (length L) = Z.of_nat N * batch -> (N < fuel)%nat ->
   exists st,
     pb_get_all fuel cfg token collection filter_str batch (initial w)
       = (Ok L, st)
     /\ page_requests (trace st) = (N + 1)%nat)
  /\
  (Z.of_nat (length L) = batch - 1 -> (0 < fuel)%nat ->
   exists st,
     pb_get_all fuel cfg token collection filter_str batch (initial w)
       = (Ok L, st)
     /\ page_requests (trace st) = 1%nat).
Proof.
  intros HI. unfold pb_get_all. fold filter. split; intros Hlen Hfuel.
  - destruct (pb_get_all_from_serves N 0 0 fuel [] (initial w))
      as (st & Hrun & _ & Hreq & _); simpl; auto; try lia.
    exists st. change (Z.of_nat 0 + 1) with 1 in Hrun. rewrite Hrun.
    split; [reflexivity|].
    rewrite Hreq. reflexivity.
  - destruct (pb_get_all_from_serves 0 0 (Z.to_nat batch - 1) fuel []
                (initial w))
      as (st & Hrun & _ & Hreq & _); simpl; auto; try lia.
    exists st. change (Z.of_nat 0 + 1) with 1 in Hrun. rewrite Hrun.
    split; [reflexivity|].
    rewrite Hreq. reflexivity.
Qed.

End Pagination.

Lemma sim_serves (w0 : sim) collection filter batch recs :
  broken_page w0 = None ->
  sim_records collection w0 = Some recs ->
  serves (eq w0) collection filter batch recs.
Proof.
  intros Hb Hrecs w page <- _. cbn. rewrite Hb, Hrecs.
  rewrite bool_decide_eq_false_2 by discriminate.
  eexists. split; [reflexivity|]. split; reflexivity.
Qed.

Lemma four_users_served :
  serves (eq (sim_store [(users, four_users)])) users None 2 four_users.
Proof. apply sim_serves; reflexivity. Qed.

Lemma one_user_served :
  serves (eq (sim_store [(users, [rec_id "a"])])) users None 2 [rec_id "a"].
Proof. apply sim_serves; reflexivity. Qed.

(** Four records, two to a page: three requests.  One record: one request. *)
Lemma pb_get_all_page_fetches_witness :
  (exists st,
     pb_get_all 3 DEFAULT_CONFIG [] users [] 2
       (initial (sim_store [(users, four_users)]))
     = (Ok four_users, st)
     /\ page_requests (trace st) = 3%nat)
  /\
  (exists st,
     pb_get_all 1 DEFAULT_CONFIG [] users [] 2
       (initial (sim_store [(users, [rec_id "a"])]))
     = (Ok [rec_id "a"], st)
     /\ page_requests (trace st) = 1%nat).
Proof.
  split.
  - apply (pb_get_all_page_fetches _ users [] 2 four_users
             ltac:(lia) four_users_served DEFAULT_CONFIG [] 2 _ 3 eq_refl);
      [reflexivity | lia].
  - apply (pb_get_all_page_fetches _ users [] 2 [rec_id "a"]
             ltac:(lia) one_user_served DEFAULT_CONFIG [] 0 _ 1 eq_refl);
      [reflexivity | lia].
Defined.

(** ** Error policy of [pb_get_all] *)

Section FetchErrors.
Context {W : Type} {HW : World W}.
Variables (collection : pystr) (filter : option pystr) (batch : Z).

Lemma pb_get_all_from_no_raise fuel :
  forall page acc (st : state W) e,
    (pb_get_all_from fuel collection filter batch page acc st).1 <> Raise e.
Proof.
  induction fuel as [|fuel IH]; intros page acc st e; simpl; [discriminate|].
  unfold bind at 1, do_call.
  destruct (handle _ (world st)) as [[|status body] w']; simpl;
    [discriminate|].
  destruct (status =? 404); [discriminate|].
  destruct (raises_for_status status); [discriminate|].
  destruct body as [[| | | | | |d]|]; try discriminate.
  destruct (py_iter _) as [items|]; [|discriminate].
  destruct (_ <? batch); [discriminate|]. apply IH.
Qed.

Lemma raises_for_status_false status :
  ~ (400 <= status < 600) -> raises_for_status status = false.
Proof. unfold raises_for_status. lia. Qed.

Lemma raises_for_status_true status :
  400 <= status < 600 -> raises_for_status status = true.
Proof. unfold raises_for_status. lia. Qed.

(** One full page: the loop goes on with the next one. *)
Lemma pb_get_all_from_step fuel page acc w tr out status d P :
  (handle (ListRecords collection filter page batch) w).1
    = Response status (Some (JDict d)) ->
  status <> 404 ->
  ~ (400 <= status < 600) ->
  py_iter (dict_get (py "items") (JList []) d) = Some P ->
  batch <= Z.of_nat (length P) ->
  pb_get_all_from (S fuel) collection filter batch page acc (State w tr out)
  = pb_get_all_from fuel collection filter batch (page + 1) (acc ++ P)
      (State (handle (ListRecords collection filter page batch) w).2
         (tr ++ [Event (ListRecords collection filter page batch)
                   (Response status (Some (JDict d)))]) out).
Proof.
  intros Hrep Hs Hok Hit Hfull. cbn [pb_get_all_from].
  unfold bind at 1, do_call. cbn [world trace output].
  destruct (handle _ w) as [r w1]; cbn [fst snd] in *. subst r.
  rewrite (proj2 (Z.eqb_neq _ _) Hs), raises_for_status_false by assumption.
  rewrite Hit.
  destruct (Z.ltb_spec (Z.of_nat (length P)) batch) as [Hlt|_]; [lia|].
  reflexivity.
Qed.

(** After the full pages [Ps], a 404 discards what was fetched and any other
    error keeps it. *)
Lemma pb_get_all_from_full_pages w page Ps w' :
  full_pages collection filter batch w page Ps w' ->
  forall fuel acc tr out,
    (length Ps < fuel)%nat ->
    let last := page + Z.of_nat (length Ps) in
    let r := (handle (ListRecords collection filter last batch) w').1 in
    let run := pb_get_all_from fuel collection filter batch page acc
                 (State w tr out) in
    ((exists body, r = Response 404 body) ->
       exists st', run = (Ok [], st')
       /\ output st' = out ++ [(WARN, MsgCollectionMissing collection)])
    /\ (fetch_error r ->
       exists st', run = (Ok (acc ++ concat Ps), st')
       /\ output st' = out ++ [(ERROR, MsgFetchError collection last)]).
Proof.
  induction 1 as [w page|w page status d P Ps w' Hrep Hs Hok Hit Hfull Hrest IH];
    intros fuel acc tr out Hfuel; (destruct fuel as [|fuel]; [simpl in Hfuel; lia|]).
  - simpl. rewrite Z.add_0_r. unfold bind, log, ret, do_call. simpl.
    destruct (handle _ w) as [r w1]; simpl. split.
    + intros [body ->]. simpl. eauto.
    + rewrite app_nil_r.
      intros Herr; destruct Herr as [|s b Hr Hn|s Hn|s v Hn Hv|s dd Hn Hd];
        simpl.
      * eauto.
      * rewrite (proj2 (Z.eqb_neq _ _) Hn), raises_for_status_true by lia. eauto.
      * rewrite (proj2 (Z.eqb_neq _ _) Hn).
        destruct (raises_for_status s); eauto.
      * rewrite (proj2 (Z.eqb_neq _ _) Hn).
        destruct (raises_for_status s); eauto.
        destruct v; eauto. exfalso; eapply Hv; reflexivity.
      * rewrite (proj2 (Z.eqb_neq _ _) Hn).
        destruct (raises_for_status s); eauto. rewrite Hd. eauto.
  - cbv zeta.
    rewrite (pb_get_all_from_step fuel page acc w tr out status d P)
      by assumption.
    cbn [length].
    replace (page + Z.of_nat (S (length Ps)))
      with (page + 1 + Z.of_nat (length Ps)) by lia.
    specialize (IH fuel (acc ++ P)
      (tr ++ [Event (ListRecords collection filter page batch)
                (Response status (Some (JDict d)))]) out
      ltac:(cbn [length] in Hfuel; lia)).
    cbv zeta in IH. destruct IH as [IH404 IHerr]. split.
    + exact IH404.
    + intros Herr. destruct (IHerr Herr) as (st' & -> & Hout).
      exists st'. split; [|exact Hout]. cbn [concat]. rewrite app_assoc.
      reflexivity.
Qed.

(** C6.  [pb_get_all] never raises.  When the store has answered some full
    pages [Ps] and then answers 404, the result is the empty list and a
    warning is logged; when it then answers with any other error, the result
    is exactly the records of [Ps] and the error is logged. *)
Theorem pb_get_all_error_policy cfg token filter_str fuel (st : state W) :
  filter = filter_param filter_str ->
  (forall e,
     (pb_get_all fuel cfg token collection filter_str batch st).1 <> Raise e)
  /\
  (forall Ps w',
     full_pages collection filter batch (world st) 1 Ps w' ->
     (length Ps < fuel)%nat ->
     let last := 1 + Z.of_nat (length Ps) in
     let r := (handle (ListRecords collection filter last batch) w').1 in
     ((exists body, r = Response 404 body) ->
        exists st',
          pb_get_all fuel cfg token collection filter_str batch st
            = (Ok [], st')
          /\ output st'
             = output st ++ [(WARN, MsgCollectionMissing collection)])
     /\
     (fetch_error r ->
        exists st',
          pb_get_all fuel cfg token collection filter_str batch st
            = (Ok (concat Ps), st')
          /\ output st'
             = output st ++ [(ERROR, MsgFetchError collection last)])).
Proof.
  intros Hf. unfold pb_get_all. rewrite <- Hf. split.
  - intros e. apply pb_get_all_from_no_raise.
  - intros Ps w' Hfull Hfuel. destruct st as [w tr out].
    exact (pb_get_all_from_full_pages w 1 Ps w' Hfull fuel [] tr out Hfuel).
Qed.

End FetchErrors.

(** The second page of [users] times out: the first page is what comes
    back.  An unknown collection: nothing comes back, with a warning. *)
Lemma pb_get_all_error_policy_witness :
  (exists st',
     pb_get_all 5 DEFAULT_CONFIG [] users [] 2 (initial flaky_store)
       = (Ok [rec_id "a"; rec_id "b"], st')
     /\ output st' = [(ERROR, MsgFetchError users 2)])
  /\
  (exists st',
     pb_get_all 5 DEFAULT_CONFIG [] (py "ghosts") [] 2 (initial flaky_store)
       = (Ok [], st')
     /\ output st' = [(WARN, MsgCollectionMissing (py "ghosts"))]).
Proof.
  split.
  - refine (proj2 (proj2 (pb_get_all_error_policy users None 2 DEFAULT_CONFIG
                      [] [] 5 (initial flaky_store) eq_refl)
                    [[rec_id "a"; rec_id "b"]] flaky_store _ _) _).
    + eapply full_pages_cons;
        [reflexivity | lia | lia | reflexivity | simpl; lia
        | apply full_pages_nil].
    + simpl; lia.
    + apply fetch_error_transport.
  - refine (proj1 (proj2 (pb_get_all_error_policy (py "ghosts") None 2
                      DEFAULT_CONFIG [] [] 5 (initial flaky_store) eq_refl)
                    [] flaky_store _ _) _).
    + apply full_pages_nil.
    + simpl; lia.
    + eexists; reflexivity.
Defined.

(** ** Retries of [upload_gdrive] *)

Lemma py_range_cons lo hi :
  lo < hi -> py_range lo hi = lo :: py_range (lo + 1) hi.
Proof.
  intros H. unfold py_range.
  replace (Z.to_nat (hi - lo)) with (S (Z.to_nat (hi - (lo + 1)))) by lia.
  cbn [seq fmap list_fmap]. f_equal; [lia|].
  rewrite <- seq_shift, <- list_fmap_compose.
  apply list_fmap_ext. intros _ i _. simpl. lia.
Qed.

Lemma py_range_length lo hi : length (py_range lo hi) = Z.to_nat (hi - lo).
Proof. unfold py_range. rewrite length_fmap, length_seq. reflexivity. Qed.

Lemma slept_app tr1 tr2 : slept (tr1 ++ tr2) = slept tr1 ++ slept tr2.
Proof. apply omap_app. Qed.

Lemma processes_app tr1 tr2 :
  processes (tr1 ++ tr2) = processes tr1 ++ processes tr2.
Proof. apply omap_app. Qed.

Section Upload.
Context {W : Type} {HW : World W}.
Variables (max_retries delay : Z) (local_path dest : pystr).
Let argv := rclone_copy_argv local_path dest.

Lemma succeeded_true r :
  succeeded r = true -> exists out err, r = Completed 0 out err.
Proof.
  destruct r as [e|rc out err]; simpl; [discriminate|].
  intros H%Z.eqb_eq. subst. eauto.
Qed.

(** One failed attempt that is not the last, with a wait of
    [delay * attempt] that the clock takes: then the remaining attempts. *)
Lemma upload_attempts_failed attempt rest (st : state W) :
  succeeded (handle (Subprocess argv) (world st)).1 = false ->
  attempt < max_retries ->
  0 <= delay * attempt ->
  (handle (Sleep (delay * attempt))
     (handle (Subprocess argv) (world st)).2).1 = Slept ->
  exists out',
    upload_attempts (attempt :: rest) max_retries delay local_path dest st
    = upload_attempts rest max_retries delay local_path dest
        (State
           (handle (Sleep (delay * attempt))
              (handle (Subprocess argv) (world st)).2).2
           (trace st
              ++ [Event (Subprocess argv) (handle (Subprocess argv) (world st)).1]
              ++ [Event (Sleep (delay * attempt)) Slept])
           out').
Proof.
  intros Hfail Hlt Hwait Hslept. cbn [upload_attempts]. fold argv.
  unfold bind at 1, do_call at 1.
  destruct (handle (Subprocess argv) (world st)) as [r w1]. cbn [fst snd] in *.
  rewrite (proj2 (Z.ltb_lt _ _) Hlt). unfold time_sleep.
  rewrite (proj2 (Z.ltb_ge _ _) Hwait).
  destruct r as [e|rc out err].
  - destruct e; unfold bind, log, do_call, ret; cbn [world trace output];
      destruct (handle (Sleep _) w1) as [r2 w2]; cbn [fst snd] in *;
      subst r2; rewrite <- app_assoc; eexists; reflexivity.
  - destruct rc; [discriminate Hfail| |];
      unfold bind, log, do_call, ret; cbn [world trace output];
      destruct (handle (Sleep _) w1) as [r2 w2]; cbn [fst snd] in *;
      subst r2; rewrite <- app_assoc; eexists; reflexivity.
Qed.

Lemma upload_attempts_flaky (bound : Z) (k : nat) :
  0 <= delay ->
  clock_takes W bound ->
  forall attempt (st : state W),
    0 <= attempt ->
    attempt + Z.of_nat k <= max_retries ->
    delay * (attempt + Z.of_nat k - 1) <= bound ->
    fails_then_succeeds argv k (world st) ->
    exists st' tr',
      upload_attempts (py_range attempt (max_retries + 1)) max_retries delay
        local_path dest st = (Ok true, st')
      /\ trace st' = trace st ++ tr'
      /\ slept tr' = (fun i => delay * (attempt + Z.of_nat i)) <$> seq 0 k.
Proof.
  intros Hdelay Hclock.
  induction k as [|k IH]; intros attempt st Hpos Hle Hbound Hw;
    rewrite py_range_cons by lia.
  - cbn [fails_then_succeeds] in Hw. cbn [upload_attempts]. fold argv.
    unfold bind at 1, do_call at 1.
    destruct (handle (Subprocess argv) (world st)) as [r w1]. cbn [fst] in Hw.
    apply succeeded_true in Hw as (out & err & ->).
    unfold bind, log, ret. cbn [world trace output].
    do 2 eexists. split; [reflexivity|]. cbn [trace]. split; reflexivity.
  - destruct Hw as [Hfail Hrest].
    destruct (upload_attempts_failed attempt
                (py_range (attempt + 1) (max_retries + 1)) st Hfail)
      as [out' ->]; [lia | nia | apply Hclock; nia |].
    match goal with
    | |- context [upload_attempts _ _ _ _ _ ?s] =>
        destruct (IH (attempt + 1) s) as (st' & tr' & Hrun & Htr & Hsl);
          [lia | lia | | apply Hrest |]
    end.
    { replace (attempt + 1 + Z.of_nat k - 1)
        with (attempt + Z.of_nat (S k) - 1) by lia. exact Hbound. }
    rewrite Hrun. cbn [trace] in Htr.
    do 2 eexists. split; [reflexivity|]. split.
    + rewrite Htr, <- app_assoc. reflexivity.
    + rewrite !slept_app, Hsl. cbn [seq fmap list_fmap].
      unfold slept at 1 2. simpl. f_equal; [f_equal; lia|].
      rewrite <- seq_shift, <- list_fmap_compose.
      apply list_fmap_ext. intros _ i _. simpl. f_equal. lia.
Qed.

(** A run that returns [False] has made one attempt per element of
    [attempts], and all of them failed. *)
Lemma upload_attempts_false attempts :
  forall (st st' : state W),
    upload_attempts attempts max_retries delay local_path dest st
      = (Ok false, st') ->
    exists tr',
      trace st' = trace st ++ tr'
      /\ length (processes tr') = length attempts
      /\ Forall (fun r => succeeded r = false) (processes tr').
Proof.
  induction attempts as [|attempt rest IH]; intros st st' Hrun.
  - cbn in Hrun. inversion Hrun. exists []. rewrite app_nil_r.
    repeat split; constructor.
  - cbn [upload_attempts] in Hrun. fold argv in Hrun.
    unfold bind at 1, do_call at 1 in Hrun.
    destruct (handle (Subprocess argv) (world st)) as [r w1] eqn:Hh.
    assert (Hcont : forall st1 : state W,
      ((if attempt <? max_retries
        then log INFO (MsgRetryIn (delay * attempt)) ;;;
             time_sleep (delay * attempt)
        else ret tt) ;;;
       upload_attempts rest max_retries delay local_path dest) st1
        = (Ok false, st') ->
      exists tr1, trace st' = trace st1 ++ tr1
        /\ length (processes tr1) = length rest
        /\ Forall (fun r => succeeded r = false) (processes tr1)).
    { intros st1 H1. unfold bind at 1 in H1.
      destruct (attempt <? max_retries).
      - unfold bind at 1, log, time_sleep in H1.
        destruct (delay * attempt <? 0); [discriminate H1|].
        unfold bind at 1, do_call in H1. cbn [world trace output] in H1.
        destruct (handle (Sleep _) (world st1)) as [[|e] w2];
          [|discriminate H1].
        unfold ret in H1.
        apply IH in H1 as (tr' & Htr & Hlen & Hall). cbn [trace] in Htr.
        eexists. split; [rewrite Htr, <- app_assoc; reflexivity|].
        rewrite processes_app. split; assumption.
      - unfold ret in H1. apply IH in H1. exact H1. }
    assert (Hfailed : succeeded r = false ->
      forall out1,
      ((if attempt <? max_retries
        then log INFO (MsgRetryIn (delay * attempt)) ;;;
             time_sleep (delay * attempt)
        else ret tt) ;;;
       upload_attempts rest max_retries delay local_path dest)
        (State w1 (trace st ++ [Event (Subprocess argv) r]) out1)
        = (Ok false, st') ->
      exists tr', trace st' = trace st ++ tr'
        /\ length (processes tr') = length (attempt :: rest)
        /\ Forall (fun r => succeeded r = false) (processes tr')).
    { intros Hf out1 H1. apply Hcont in H1 as (tr1 & Htr & Hlen & Hall).
      cbn [trace] in Htr. exists ([Event (Subprocess argv) r] ++ tr1).
      split; [rewrite Htr, <- app_assoc; reflexivity|].
      rewrite processes_app. cbn. split; [lia|]. constructor; assumption. }
    destruct r as [e|rc out err].
    + destruct e; unfold bind at 1, log in Hrun; cbn [world trace output] in Hrun;
        eapply Hfailed; try reflexivity; exact Hrun.
    + destruct rc.
      * unfold bind, log, ret in Hrun. discriminate Hrun.
      * unfold bind at 1, log in Hrun; cbn [world trace output] in Hrun.
        eapply Hfailed; try reflexivity; exact Hrun.
      * unfold bind at 1, log in Hrun; cbn [world trace output] in Hrun.
        eapply Hfailed; try reflexivity; exact Hrun.
Qed.

End Upload.

Lemma foldr_add_from (a : Z) (l : list Z) :
  foldr Z.add a l = foldr Z.add 0 l + a.
Proof. induction l as [|x l IH]; cbn [foldr]; lia. Qed.

Lemma sum_backoff delay (k : nat) :
  foldr Z.add 0 ((fun i => delay * Z.of_nat i) <$> seq 1 k)
  = delay * (Z.of_nat k * (Z.of_nat k + 1) / 2).
Proof.
  induction k as [|k IH].
  { change (Z.of_nat 0 * (Z.of_nat 0 + 1) / 2) with 0. simpl. lia. }
  rewrite seq_S, fmap_app, foldr_app, foldr_add_from, IH.
  cbn [fmap list_fmap foldr].
  replace (Z.of_nat (S k) * (Z.of_nat (S k) + 1))
    with (Z.of_nat k * (Z.of_nat k + 1) + (Z.of_nat k + 1) * 2) by lia.
  rewrite Z.div_add by lia. lia.
Qed.

(** C4.  With a retry delay that is not negative and a clock that takes
    the waits: when the copy fails [k < max_retries] times and then
    succeeds, [upload_gdrive] returns [True] after having slept
    [delay * 1], ..., [delay * k], in all [delay * k * (k + 1) / 2]
    seconds.  And whatever the configuration, it returns [False] only after
    [max_retries] attempts, all failed. *)
Theorem upload_gdrive_retry {W : Type} {HW : World W}
    cfg local_path gdrive_folder (k : nat) (st : state W) :
  let argv := rclone_copy_argv local_path
                (rclone_remote cfg ++ py ":" ++ gdrive_folder) in
  (Z.of_nat k < max_retries cfg ->
   0 <= retry_delay_sec cfg ->
   clock_takes W (retry_delay_sec cfg * Z.of_nat k) ->
   fails_then_succeeds argv k (world st) ->
   exists st' tr',
     upload_gdrive cfg local_path gdrive_folder st = (Ok true, st')
     /\ trace st' = trace st ++ tr'
     /\ slept tr' = (fun i => retry_delay_sec cfg * Z.of_nat i) <$> seq 1 k
     /\ total_slept tr'
        = retry_delay_sec cfg * (Z.of_nat k * (Z.of_nat k + 1) / 2))
  /\
  (forall st',
     upload_gdrive cfg local_path gdrive_folder st = (Ok false, st') ->
     exists tr',
       trace st' = trace st ++ tr'
       /\ Z.of_nat (length (processes tr')) = Z.max 0 (max_retries cfg)
       /\ Forall (fun r => succeeded r = false) (processes tr')).
Proof.
  intros argv. unfold upload_gdrive. split.
  - intros Hk Hdelay Hclock Hw.
    destruct (upload_attempts_flaky (max_retries cfg) (retry_delay_sec cfg)
                local_path _ _ k Hdelay Hclock 1 st
                ltac:(lia) ltac:(lia) ltac:(apply Z.mul_le_mono_nonneg_l; lia)
                Hw)
      as (st' & tr' & Hrun & Htr & Hsl).
    exists st', tr'. split; [exact Hrun|]. split; [exact Htr|].
    assert (Hsl' : slept tr'
                   = (fun i => retry_delay_sec cfg * Z.of_nat i) <$> seq 1 k).
    { rewrite Hsl, <- seq_shift, <- list_fmap_compose.
      apply list_fmap_ext. intros _ i _. simpl. f_equal. lia. }
    split; [exact Hsl'|]. unfold total_slept. rewrite Hsl'.
    apply sum_backoff.
  - intros st' Hrun.
    apply upload_attempts_false in Hrun as (tr' & Htr & Hlen & Hall).
    exists tr'. split; [exact Htr|]. split; [|exact Hall].
    rewrite Hlen, py_range_length. lia.
Qed.

(** Two failures with three attempts allowed and a delay of 10 seconds: the
    upload succeeds after waits of 10 and 20 seconds. *)
Lemma upload_gdrive_retry_witness :
  exists st' tr',
    upload_gdrive DEFAULT_CONFIG (py "/tmp/b.zip") (py "root/T_1")
      (initial two_failures) = (Ok true, st')
    /\ trace st' = [] ++ tr'
    /\ slept tr' = [10; 20]
    /\ total_slept tr' = 30.
Proof.
  apply (proj1 (upload_gdrive_retry DEFAULT_CONFIG (py "/tmp/b.zip")
                  (py "root/T_1") 2 (initial two_failures))).
  - reflexivity.
  - simpl. lia.
  - intros secs w _. reflexivity.
  - simpl. repeat split; reflexivity.
Defined.

(** ** What a computation adds to the trace and to the output *)

Section Emits.
Context {W : Type} {HW : World W}.
Variable P : event -> Prop.
Variable Pl : level * message -> Prop.

Lemma emits_ret {A} (Q : A -> Prop) a : Q a -> emits (W:=W) P Pl Q (ret a).
Proof.
  intros HQ st. cbn. repeat split.
  - exists []. rewrite app_nil_r. auto.
  - exists []. rewrite app_nil_r. auto.
  - intros a' [= <-]. exact HQ.
Qed.

Lemma emits_raise {A} (Q : A -> Prop) e : emits (W:=W) P Pl Q (raise e).
Proof.
  intros st. cbn. repeat split.
  - exists []. rewrite app_nil_r. auto.
  - exists []. rewrite app_nil_r. auto.
  - discriminate.
Qed.

Lemma emits_stuck {A} (Q : A -> Prop) : emits (W:=W) P Pl Q stuck.
Proof.
  intros st. cbn. repeat split.
  - exists []. rewrite app_nil_r. auto.
  - exists []. rewrite app_nil_r. auto.
  - discriminate.
Qed.

Lemma emits_log (Q : unit -> Prop) lvl msg :
  Pl (lvl, msg) -> Q tt -> emits (W:=W) P Pl Q (log lvl msg).
Proof.
  intros Hl HQ st. cbn. repeat split.
  - exists []. rewrite app_nil_r. auto.
  - eexists. split; [reflexivity|]. auto.
  - intros [] _. exact HQ.
Qed.

Lemma emits_call {T} (Q : T -> Prop) (c : call T) :
  (forall r, P (Event c r)) -> (forall r, Q r) ->
  emits (W:=W) P Pl Q (do_call c).
Proof.
  intros Hc HQ st. unfold do_call.
  destruct (handle c (world st)) as [r w']. cbn. repeat split.
  - eexists. split; [reflexivity|]. auto.
  - exists []. rewrite app_nil_r. auto.
  - intros a _. apply HQ.
Qed.

Lemma emits_bind {A B} (Q : A -> Prop) (R : B -> Prop) (m : M W A)
    (k : A -> M W B) :
  emits P Pl Q m -> (forall a, Q a -> emits P Pl R (k a)) ->
  emits P Pl R (bind m k).
Proof.
  intros Hm Hk st. unfold bind.
  destruct (Hm st) as ((tr1 & Htr1 & HP1) & (out1 & Hout1 & HPl1) & HQ).
  destruct (m st) as [[a|e|] st1]; cbn [fst snd] in *.
  - destruct (Hk a (HQ a eq_refl) st1)
      as ((tr2 & Htr2 & HP2) & (out2 & Hout2 & HPl2) & HR).
    repeat split.
    + exists (tr1 ++ tr2). rewrite Htr2, Htr1, <- app_assoc.
      split; [reflexivity|]. apply Forall_app; auto.
    + exists (out1 ++ out2). rewrite Hout2, Hout1, <- app_assoc.
      split; [reflexivity|]. apply Forall_app; auto.
    + exact HR.
  - repeat split; eauto. discriminate.
  - repeat split; eauto. discriminate.
Qed.

Lemma emits_try_except {A} (Q : A -> Prop) (m : M W A)
    (handler : exn -> M W A) :
  emits P Pl Q m -> (forall e, emits P Pl Q (handler e)) ->
  emits P Pl Q (try_except m handler).
Proof.
  intros Hm Hh st. unfold try_except.
  destruct (Hm st) as ((tr1 & Htr1 & HP1) & (out1 & Hout1 & HPl1) & HQ).
  destruct (m st) as [[a|e|] st1]; cbn [fst snd] in *.
  - repeat split; eauto.
  - destruct (Hh e st1)
      as ((tr2 & Htr2 & HP2) & (out2 & Hout2 & HPl2) & HR).
    repeat split.
    + exists (tr1 ++ tr2). rewrite Htr2, Htr1, <- app_assoc.
      split; [reflexivity|]. apply Forall_app; auto.
    + exists (out1 ++ out2). rewrite Hout2, Hout1, <- app_assoc.
      split; [reflexivity|]. apply Forall_app; auto.
    + exact HR.
  - repeat split; eauto.
Qed.

Lemma emits_try_finally {A} (Q : A -> Prop) (R : unit -> Prop)
    (m : M W A) (cleanup : M W unit) :
  emits P Pl Q m -> emits P Pl R cleanup ->
  emits P Pl Q (try_finally m cleanup).
Proof.
  intros Hm Hc st. unfold try_finally.
  destruct (Hm st) as ((tr1 & Htr1 & HP1) & (out1 & Hout1 & HPl1) & HQ).
  destruct (m st) as [[a|e|] st1]; cbn [fst snd] in *;
    try (repeat split; eauto; discriminate);
    destruct (Hc st1) as ((tr2 & Htr2 & HP2) & (out2 & Hout2 & HPl2) & HR);
    destruct (cleanup st1) as [[[]|e'|] st2]; cbn [fst snd] in *;
    (repeat split;
     [ exists (tr1 ++ tr2); rewrite Htr2, Htr1, <- app_assoc;
       split; [reflexivity|]; apply Forall_app; auto
     | exists (out1 ++ out2); rewrite Hout2, Hout1, <- app_assoc;
       split; [reflexivity|]; apply Forall_app; auto
     | try discriminate; try (intros a' [= <-]; auto) ]).
Qed.

Lemma emits_weaken {A} (Q Q' : A -> Prop) (m : M W A) :
  emits P Pl Q m -> (forall a, Q a -> Q' a) -> emits P Pl Q' m.
Proof.
  intros Hm HQ st. destruct (Hm st) as (H1 & H2 & H3).
  repeat split; auto.
Qed.

Lemma emits_for_each {A S} (I : S -> Prop) (f : S -> A -> M W S) l :
  (forall s x, I s -> emits P Pl I (f s x)) ->
  forall s, I s -> emits P Pl I (for_each f s l).
Proof.
  intros Hf. induction l as [|x l IH]; intros s Hs; cbn [for_each].
  - apply emits_ret. exact Hs.
  - eapply emits_bind; [apply Hf; exact Hs|]. intros s' Hs'. apply IH, Hs'.
Qed.

End Emits.

(** ** Dry-run restore *)

Section DryRun.
Context {W : Type} {HW : World W} {B : Builtins}.
Variables (cfg : config) (token : pystr).

Lemma restore_record_dry collection c record (st : state W) :
  restore_record cfg token collection true c record st
  = (if is_dict record then Ok (dry_counts [record] c) else Raise AttributeError,
     st).
Proof.
  destruct record; try reflexivity.
  unfold dry_counts. cbn -[Z.add Z.of_nat].
  destruct (truthy (dict_get _ JNull d)); unfold ret; cbn;
    repeat f_equal; lia.
Qed.

Lemma dry_counts_cons r records c :
  dry_counts records (dry_counts [r] c) = dry_counts (r :: records) c.
Proof.
  unfold dry_counts. cbn. destruct (has_identity r); cbn; f_equal; lia.
Qed.

Lemma for_each_dry collection records :
  forall c (st : state W),
    (for_each (restore_record cfg token collection true) c records st).2 = st
    /\ (forall c', (for_each (restore_record cfg token collection true) c
                      records st).1 = Ok c' ->
                   errors_count c' = errors_count c)
    /\ (forallb is_dict records = true ->
        (for_each (restore_record cfg token collection true) c records st).1
        = Ok (dry_counts records c)).
Proof.
  induction records as [|r records IH]; intros c st; cbn [for_each].
  - cbn. split; [reflexivity|split].
    + intros c' [= <-]. reflexivity.
    + intros _. unfold dry_counts. cbn. destruct c; cbn. repeat f_equal; lia.
  - unfold bind. rewrite restore_record_dry. cbn [forallb].
    destruct (is_dict r); cbn [andb].
    + destruct (IH (dry_counts [r] c) st) as (H1 & H2 & H3).
      split; [exact H1|split].
      * intros c' Hc'. rewrite (H2 c' Hc'). reflexivity.
      * intros Hall. rewrite (H3 Hall), dry_counts_cons. reflexivity.
    + split; [reflexivity|split]; discriminate.
Qed.

Lemma emits_unchanged {A} (Q : A -> Prop) (m : M W A) :
  (forall st, (m st).2 = st) -> (forall st a, (m st).1 = Ok a -> Q a) ->
  emits quiet clean Q m.
Proof.
  intros Hst HQ st. rewrite Hst. repeat split.
  - exists []. rewrite app_nil_r. auto.
  - exists []. rewrite app_nil_r. auto.
  - apply HQ.
Qed.

Lemma emits_restore_files extract_dir (Q : Z -> Prop) :
  (forall n, Q n) ->
  emits (W:=W) quiet clean Q (restore_files cfg token extract_dir true).
Proof.
  intros HQ. unfold restore_files.
  destruct (entry _ extract_dir) as [files_dir|]; [|apply emits_ret, HQ].
  eapply emits_bind with (Q := fun _ => True).
  { destruct files_dir; [apply emits_raise | apply emits_ret; exact I]. }
  intros collections _.
  eapply emits_bind with (Q := fun _ => True).
  - apply emits_for_each; [|exact I]. intros count col _.
    destruct (col.2); [apply emits_ret; exact I|].
    apply emits_for_each; [|exact I]. intros count' rec _.
    destruct (rec.2); [apply emits_ret; exact I|].
    apply emits_for_each; [|exact I]. intros count'' f _.
    eapply emits_bind with (Q := fun _ => True);
      [apply emits_log; [intros e [=]|exact I]|].
    intros _ _. apply emits_ret; exact I.
  - intros count _. eapply emits_bind with (Q := fun _ => True).
    + destruct (negb _); [apply emits_log; [intros e [=]|exact I]
                         |apply emits_ret; exact I].
    + intros _ _. apply emits_ret, HQ.
Qed.

Lemma emits_restore_file total f :
  errors_count total = 0 ->
  emits (W:=W) quiet clean (fun t => errors_count t = 0)
    (restore_file cfg token true total f).
Proof.
  intros Htotal. unfold restore_file. destruct f as [fname content].
  destruct (_ || _); [apply emits_ret; exact Htotal|].
  destruct content as [[[| | | | | |data]|]|]; try apply emits_raise.
  destruct (negb _); [apply emits_ret; exact Htotal|].
  eapply emits_bind with (Q := fun _ => True).
  { unfold py_sized. destruct (py_iter _); [apply emits_ret; exact I
                                           |apply emits_raise]. }
  intros records _.
  eapply emits_bind with (Q := fun c => errors_count c = 0).
  { apply emits_unchanged.
    - intros st. apply for_each_dry.
    - intros st c Hc. unfold restore_collection_data in Hc.
      apply for_each_dry in Hc. exact Hc. }
  intros c Hc.
  eapply emits_bind with (Q := fun _ => True).
  { apply emits_log; [|exact I]. intros e [= <-]. exact Hc. }
  intros _ _. apply emits_ret. cbn. lia.
Qed.

Lemma emits_restore_from_zip zip_path :
  emits (W:=W) quiet clean (fun _ => True)
    (restore_from_zip cfg zip_path token true).
Proof.
  unfold restore_from_zip.
  eapply emits_bind with (Q := fun _ => True);
    [apply emits_call; [reflexivity|auto]|]. intros now _.
  eapply emits_bind with (Q := fun _ => True);
    [apply emits_call; [reflexivity|auto]|]. intros made _.
  destruct made; [|apply emits_raise].
  eapply emits_try_finally with (R := fun _ => True);
    [|apply emits_call; [reflexivity|auto]].
  unfold restore_extracted.
  eapply emits_bind with (Q := fun _ => True);
    [apply emits_call; [reflexivity|auto]|]. intros extracted _.
  destruct extracted as [[|top]|]; [apply emits_stuck| |apply emits_raise].
  eapply emits_bind with (Q := fun _ => True).
  { destruct (find_summary _) as [[p found]|].
    - destruct (entry _ found) as [[[[| | | | | |]|]|]|];
        try apply emits_raise; apply emits_ret; exact I.
    - eapply emits_bind with (Q := fun _ => True);
        [apply emits_log; [intros e [=]|exact I]|].
      intros _ _. apply emits_ret; exact I. }
  intros data_dir _.
  eapply emits_bind with (Q := fun t => errors_count t = 0).
  { apply emits_for_each; [|reflexivity].
    intros total f Ht. apply emits_restore_file, Ht. }
  intros total Ht.
  eapply emits_bind with (Q := fun _ => True);
    [apply emits_restore_files; auto|].
  intros _ _. apply emits_log; [|exact I]. intros e [= <-]. exact Ht.
Qed.

Lemma emits_rclone_list_dirs pth :
  emits (W:=W) quiet clean (fun _ => True) (rclone_list_dirs cfg pth).
Proof.
  unfold rclone_list_dirs.
  eapply emits_bind with (Q := fun _ => True);
    [apply emits_call; [reflexivity|auto]|]. intros [e|rc out err] _.
  - eapply emits_bind with (Q := fun _ => True);
      [apply emits_log; [intros x [=]|exact I]|].
    intros _ _. apply emits_ret; exact I.
  - destruct (negb _); apply emits_ret; exact I.
Qed.

Lemma emits_rclone_list_files pth :
  emits (W:=W) quiet clean (fun _ => True) (rclone_list_files cfg pth).
Proof.
  unfold rclone_list_files.
  eapply emits_bind with (Q := fun _ => True);
    [apply emits_call; [reflexivity|auto]|]. intros [e|rc out err] _.
  - eapply emits_bind with (Q := fun _ => True);
      [apply emits_log; [intros x [=]|exact I]|].
    intros _ _. apply emits_ret; exact I.
  - destruct (negb _); [apply emits_ret; exact I|].
    destruct (parse_files _); [apply emits_ret; exact I|].
    eapply emits_bind with (Q := fun _ => True);
      [apply emits_log; [intros x [=]|exact I]|].
    intros _ _. apply emits_ret; exact I.
Qed.

Lemma emits_restore_latest_dir tdir :
  emits (W:=W) quiet clean (fun _ => True)
    (restore_latest_dir cfg token true tdir).
Proof.
  unfold restore_latest_dir.
  eapply emits_bind; [apply emits_rclone_list_files|]. intros files _.
  destruct (List.filter is_zip files) as [|latest others];
    [apply emits_log; [intros x [=]|exact I]|].
  eapply emits_bind with (Q := fun _ => True);
    [apply emits_log; [intros x [=]|exact I]|]. intros _ _.
  eapply emits_bind with (Q := fun _ => True);
    [apply emits_call; [reflexivity|auto]|]. intros [|] _;
    [|apply emits_raise].
  eapply emits_bind with (Q := fun _ => True);
    [apply emits_call; [reflexivity|auto]|]. intros [e|rc out err] _;
    [apply emits_raise|].
  destruct (negb _); [apply emits_log; [intros x [=]|exact I]|].
  eapply emits_bind with (Q := fun _ => True);
    [apply emits_call; [reflexivity|auto]|]. intros [|] _.
  - apply emits_restore_from_zip.
  - apply emits_log; [intros x [=]|exact I].
Qed.

Lemma emits_restore_latest tenant_filter :
  emits (W:=W) quiet clean (fun _ => True)
    (restore_latest cfg token tenant_filter true).
Proof.
  unfold restore_latest.
  eapply emits_bind; [apply emits_rclone_list_dirs|]. intros dirs _. cbv zeta.
  destruct (_ && _); [apply emits_log; [intros x [=]|exact I]|].
  eapply emits_bind with (Q := fun _ => True).
  - apply emits_for_each; [|exact I]. intros _ tdir _.
    eapply emits_weaken; [apply emits_restore_latest_dir|auto].
  - intros _ _. apply emits_call; [reflexivity|auto].
Qed.

Lemma emits_restore_fulldb :
  emits (W:=W) quiet clean (fun _ => True) (restore_fulldb cfg token true).
Proof.
  unfold restore_fulldb.
  eapply emits_bind; [apply emits_rclone_list_files|]. intros files _.
  destruct (List.filter is_zip files) as [|latest others];
    apply emits_log; try exact I; intros x [=].
Qed.

(** C3.  In dry-run mode [restore_collection_data] leaves the state as it
    found it (no request at all, so no create and no update), reports no
    error, and counts every record that carries an identity as created and
    every other one as skipped; [restore_from_zip], [restore_files]
    included, sends no request to the record store and every totals line it
    logs reports zero errors; and the same holds of [restore_latest] and
    of [restore_fulldb], which only list and download. *)
Theorem restore_dry_run_read_only :
  (forall collection records (st : state W),
     let run := restore_collection_data cfg token collection records true st in
     run.2 = st
     /\ (forall c, run.1 = Ok c -> errors_count c = 0)
     /\ (forallb is_dict records = true ->
         run.1 = Ok (dry_counts records no_counts)))
  /\
  (forall (m : M W unit),
     (exists zip_path, m = restore_from_zip cfg zip_path token true)
     \/ (exists tenant_filter, m = restore_latest cfg token tenant_filter true)
     \/ m = restore_fulldb cfg token true ->
     forall st : state W,
       exists tr' out',
         trace (m st).2 = trace st ++ tr'
         /\ Forall quiet tr'
         /\ Forall (fun e => is_store_mutation e = false) tr'
         /\ output (m st).2 = output st ++ out'
         /\ Forall clean out').
Proof.
  split.
  - intros collection records st. cbv zeta. unfold restore_collection_data.
    destruct (for_each_dry collection records no_counts st) as (H1 & H2 & H3).
    split; [exact H1|split; [|exact H3]].
    intros c Hc. apply H2 in Hc. exact Hc.
  - intros m Hm st.
    assert (Hemits : emits quiet clean (fun _ => True) m).
    { destruct Hm as [[zip_path ->]|[[tenant_filter ->]| ->]].
      - apply emits_restore_from_zip.
      - apply emits_restore_latest.
      - apply emits_restore_fulldb. }
    destruct (Hemits st) as ((tr' & Htr & Hq) & (out' & Hout & Hc) & _).
    exists tr', out'. repeat split; auto.
    eapply List.Forall_impl; [|exact Hq].
    intros [T c r]. unfold quiet. destruct c; cbn; congruence.
Qed.

End DryRun.

(** Three records, one without identity: two would be created, one is
    skipped, and the store is not contacted. *)
Lemma restore_dry_run_read_only_witness :
  restore_collection_data DEFAULT_CONFIG [] users
    [rec_id "a"; JDict [(py "name", JStr (py "x"))]; rec_id "b"] true
    (initial (sim_store []))
  = (Ok (Counts 2 0 1 0), initial (sim_store [])).
Proof.
  pose proof (proj1 (restore_dry_run_read_only (B:=ascii_builtins)
                       DEFAULT_CONFIG []) users
                [rec_id "a"; JDict [(py "name", JStr (py "x"))]; rec_id "b"]
                (initial (sim_store []))) as H.
  cbv zeta in H. destruct H as (H1 & _ & H3).
  specialize (H3 eq_refl).
  destruct (restore_collection_data _ _ _ _ _ _) as [r st'].
  cbn [fst snd] in *. rewrite H1, H3. reflexivity.
Defined.

(** ** Restore against a record store *)

Lemma dict_lookup_set_eq k v d : dict_lookup k (dict_set k v d) = Some v.
Proof.
  induction d as [|[k' v'] d IH]; unfold dict_lookup in *; cbn.
  - rewrite bool_decide_eq_true_2 by reflexivity. reflexivity.
  - destruct (bool_decide (k' = k)) eqn:Hk; cbn.
    + rewrite bool_decide_eq_true_2 by reflexivity. reflexivity.
    + rewrite Hk. exact IH.
Qed.

Lemma dict_lookup_set_ne k k' v d :
  k <> k' -> dict_lookup k' (dict_set k v d) = dict_lookup k' d.
Proof.
  intros Hne. induction d as [|[k0 v0] d IH]; unfold dict_lookup in *; cbn.
  - rewrite bool_decide_eq_false_2 by assumption. reflexivity.
  - destruct (bool_decide (k0 = k)) eqn:Hk; cbn.
    + apply bool_decide_eq_true_1 in Hk. subst k0.
      rewrite !bool_decide_eq_false_2 by assumption. reflexivity.
    + destruct (bool_decide (k0 = k')); [reflexivity|exact IH].
Qed.

Lemma dict_lookup_strip_id fields :
  dict_lookup (py "id") (strip_system_fields fields) = None.
Proof.
  unfold dict_lookup, strip_system_fields.
  induction fields as [|[k v] fields IH]; [reflexivity|]. cbn [List.filter].
  destruct (bool_decide (_ ∈ SYSTEM_FIELDS)) eqn:Hin; cbn [negb]; [exact IH|].
  cbn [List.find]. cbn [fst] in *.
  destruct (bool_decide (k = py "id")) eqn:Hk; [|exact IH].
  apply bool_decide_eq_true_1 in Hk. subst k.
  apply bool_decide_eq_false_1 in Hin. exfalso. apply Hin.
  unfold SYSTEM_FIELDS. cbn. apply list_elem_of_here.
Qed.

Section Reconcile.
Context {W : Type} {HW : World W}.
Variables (cfg : config) (token collection : pystr).
Variable present : W -> json -> Prop.
Variable Inv : W -> Prop.
Hypothesis laws : store_laws present Inv collection.

(** A record whose identity the store does not hold is created. *)
Lemma restore_record_absent c fields (st : state W) :
  Inv (world st) ->
  truthy (dict_get (py "id") JNull fields) = true ->
  ~ present (world st) (dict_get (py "id") JNull fields) ->
  exists st',
    restore_record cfg token collection false c (JDict fields) st
    = (Ok (Counts (created c + 1) (updated c) (skipped c) (errors_count c)), st')
    /\ Inv (world st')
    /\ output st' = output st
    /\ forall y, present (world st') y
                 <-> y = dict_get (py "id") JNull fields \/ present (world st) y.
Proof.
  intros HI Hid Habs. set (x := dict_get (py "id") JNull fields) in *.
  cbn [restore_record]. cbv zeta. fold x. rewrite Hid. cbn [negb].
  destruct (law_get _ _ _ laws (world st) x HI)
    as (HI1 & Hp1 & status & body & Hget & H200).
  set (data := dict_set (py "id") x (strip_system_fields fields)).
  destruct (law_post _ _ _ laws _ data x HI1 (dict_lookup_set_eq _ _ _)
              (fun H => Habs (proj1 (Hp1 x) H)))
    as (HI2 & Hp2 & body2 & Hpost).
  unfold try_except, bind, do_call, response, ret. cbn [world trace output].
  destruct (handle (GetRecord collection x) (world st)) as [r1 w1].
  cbn [fst snd] in *. subst r1. cbn [fst snd world trace output].
  destruct (Z.eqb_spec status 200) as [->|_];
    [exfalso; apply Habs, H200; reflexivity|].
  fold data. cbn [fst snd world trace output].
  destruct (handle (PostRecord collection (JDict data)) w1) as [r2 w2].
  cbn [fst snd] in *. subst r2. cbn.
  eexists. split; [reflexivity|]. cbn. repeat split; auto.
  - intros Hy. apply Hp2 in Hy as [->|Hy]; [left; reflexivity|].
    right. apply Hp1, Hy.
  - intros [->|Hy]; apply Hp2; [left; reflexivity|right; apply Hp1, Hy].
Qed.

(** A record whose identity the store holds is updated. *)
Lemma restore_record_present c fields (st : state W) :
  Inv (world st) ->
  truthy (dict_get (py "id") JNull fields) = true ->
  present (world st) (dict_get (py "id") JNull fields) ->
  exists st',
    restore_record cfg token collection false c (JDict fields) st
    = (Ok (Counts (created c) (updated c + 1) (skipped c) (errors_count c)), st')
    /\ Inv (world st')
    /\ output st' = output st
    /\ forall y, present (world st') y <-> present (world st) y.
Proof.
  intros HI Hid Hpres. set (x := dict_get (py "id") JNull fields) in *.
  cbn [restore_record]. cbv zeta. fold x. rewrite Hid. cbn [negb].
  destruct (law_get _ _ _ laws (world st) x HI)
    as (HI1 & Hp1 & status & body & Hget & H200).
  destruct (law_patch _ _ _ laws _ (strip_system_fields fields) x HI1
              (dict_lookup_strip_id _) (proj2 (Hp1 x) Hpres))
    as (HI2 & Hp2 & body2 & Hpatch).
  unfold try_except, bind, do_call, response, ret. cbn [world trace output].
  destruct (handle (GetRecord collection x) (world st)) as [r1 w1].
  cbn [fst snd] in *. subst r1. cbn [fst snd world trace output].
  rewrite (proj2 H200 Hpres). cbn [Z.eqb Pos.eqb fst snd world trace output].
  destruct (handle (PatchRecord collection x _) w1) as [r2 w2].
  cbn [fst snd] in *. subst r2. cbn.
  eexists. split; [reflexivity|]. cbn. repeat split; auto.
  - intros Hy. apply Hp1, Hp2, Hy.
  - intros Hy. apply Hp2, Hp1, Hy.
Qed.

Lemma has_identity_inv r :
  has_identity r = true ->
  exists fields, r = JDict fields
                 /\ truthy (dict_get (py "id") JNull fields) = true.
Proof. destruct r; try discriminate. eauto. Qed.

Lemma restore_all_absent records :
  forall c (st : state W),
    Inv (world st) ->
    forallb has_identity records = true ->
    NoDup (id_of <$> records) ->
    (forall r, r ∈ records -> ~ present (world st) (id_of r)) ->
    exists st',
      for_each (restore_record cfg token collection false) c records st
      = (Ok (Counts (created c + Z.of_nat (length records)) (updated c)
               (skipped c) (errors_count c)), st')
      /\ Inv (world st')
      /\ output st' = output st
      /\ forall y, present (world st') y
                   <-> y ∈ (id_of <$> records) \/ present (world st) y.
Proof.
  induction records as [|r records IH]; intros c st HI Hids Hnd Habs.
  - exists st. cbn. split; [|split; [exact HI|split; [reflexivity|]]].
    + unfold ret. destruct c; cbn. rewrite Z.add_0_r. reflexivity.
    + intros y. split; [auto|]. intros [H|H]; [inversion H|exact H].
  - cbn [forallb] in Hids. apply andb_prop in Hids as [Hr Hids].
    destruct (has_identity_inv r Hr) as (fields & -> & Hid).
    rewrite fmap_cons in Hnd.
    pose proof (NoDup_cons_1_1 _ _ Hnd) as Hfresh.
    apply NoDup_cons_1_2 in Hnd.
    destruct (restore_record_absent c fields st HI Hid)
      as (st1 & Hrun1 & HI1 & Hout1 & Hp1).
    { apply (Habs (JDict fields)). apply list_elem_of_here. }
    destruct (IH (Counts (created c + 1) (updated c) (skipped c) (errors_count c))
                st1 HI1 Hids Hnd) as (st' & Hrun & HI' & Hout & Hp).
    { intros r Hin Hpres. apply Hp1 in Hpres as [Heq|Hpres].
      - apply Hfresh. cbn [id_of]. rewrite <- Heq.
        apply list_elem_of_fmap. exists r. split; [reflexivity|exact Hin].
      - apply (Habs r); [apply list_elem_of_further, Hin|exact Hpres]. }
    exists st'. cbn [for_each]. unfold bind at 1. rewrite Hrun1, Hrun.
    split; [|split; [exact HI'|split; [congruence|]]].
    + cbn [length created updated skipped errors_count].
      replace (created c + Z.of_nat (S (length records)))
        with (created c + 1 + Z.of_nat (length records)) by lia.
      reflexivity.
    + intros y. rewrite Hp, Hp1, fmap_cons, elem_of_cons. cbn [id_of].
      tauto.
Qed.

Lemma restore_all_present records :
  forall c (st : state W),
    Inv (world st) ->
    forallb has_identity records = true ->
    (forall r, r ∈ records -> present (world st) (id_of r)) ->
    exists st',
      for_each (restore_record cfg token collection false) c records st
      = (Ok (Counts (created c) (updated c + Z.of_nat (length records))
               (skipped c) (errors_count c)), st')
      /\ Inv (world st')
      /\ output st' = output st
      /\ forall y, present (world st') y <-> present (world st) y.
Proof.
  induction records as [|r records IH]; intros c st HI Hids Hpres.
  - exists st. cbn. split; [|split; [exact HI|split; [reflexivity|]]].
    + unfold ret. destruct c; cbn. rewrite Z.add_0_r. reflexivity.
    + intros y. reflexivity.
  - cbn [forallb] in Hids. apply andb_prop in Hids as [Hr Hids].
    destruct (has_identity_inv r Hr) as (fields & -> & Hid).
    destruct (restore_record_present c fields st HI Hid)
      as (st1 & Hrun1 & HI1 & Hout1 & Hp1).
    { apply (Hpres (JDict fields)). apply list_elem_of_here. }
    destruct (IH (Counts (created c) (updated c + 1) (skipped c) (errors_count c))
                st1 HI1 Hids) as (st' & Hrun & HI' & Hout & Hp).
    { intros r Hin. apply Hp1, Hpres, list_elem_of_further, Hin. }
    exists st'. cbn [for_each]. unfold bind at 1. rewrite Hrun1, Hrun.
    split; [|split; [exact HI'|split; [congruence|]]].
    + cbn [length created updated skipped errors_count].
      replace (updated c + Z.of_nat (S (length records)))
        with (updated c + 1 + Z.of_nat (length records)) by lia.
      reflexivity.
    + intros y. rewrite Hp, Hp1. reflexivity.
Qed.

End Reconcile.

(** C1.  Round trip.  A collection is exported from a store that lists the
    records [L] page by page; every record of [L] carries an identity and no
    two share one.  Restoring the exported records (not a dry run) into a
    store that holds none of these identities, whose creates succeed, gives
    created = |L|, updated = 0, errors = 0; restoring them once more into
    the store this leaves, whose updates succeed, gives created = 0 and
    updated = |L|. *)
Theorem export_restore_round_trip {W : Type} {HW : World W}
    cfg token collection filter_str batch (L : list json) oid exported_at fuel
    (InvS : W -> Prop) (ws : W)
    (present : W -> json -> Prop) (InvT : W -> Prop) (wt : W) :
  0 < batch ->
  serves InvS collection (filter_param filter_str) batch L ->
  InvS ws ->
  (length L / Z.to_nat batch < fuel)%nat ->
  forallb has_identity L = true ->
  NoDup (id_of <$> L) ->
  store_laws present InvT collection ->
  InvT wt ->
  (forall r, r ∈ L -> ~ present wt (id_of r)) ->
  exists stS st1 st2,
    pb_get_all fuel cfg token collection filter_str batch (initial ws)
      = (Ok L, stS)
    /\ envelope_records (tenant_envelope collection oid exported_at L) = Some L
    /\ restore_collection_data cfg token collection L false (initial wt)
       = (Ok (Counts (Z.of_nat (length L)) 0 0 0), st1)
    /\ restore_collection_data cfg token collection L false st1
       = (Ok (Counts 0 (Z.of_nat (length L)) 0 0), st2).
Proof.
  intros Hbatch Hserves HIs Hfuel Hids Hnd Hlaws HIt Habs.
  destruct (pb_get_all_from_serves InvS collection filter_str batch L Hbatch
              Hserves (length L / Z.to_nat batch) 0
              (length L mod Z.to_nat batch) fuel [] (initial ws) HIs)
    as (stS & Hexport & _); [apply Nat.mod_upper_bound; lia | | exact Hfuel |].
  { cbn [Nat.add]. rewrite Nat.mul_comm. apply Nat.div_mod_eq. }
  destruct (restore_all_absent cfg token collection present InvT Hlaws L
              no_counts (initial wt) HIt Hids Hnd Habs)
    as (st1 & Hrun1 & HI1 & _ & Hp1).
  destruct (restore_all_present cfg token collection present InvT Hlaws L
              no_counts st1 HI1 Hids) as (st2 & Hrun2 & _).
  { intros r Hin. apply Hp1. left.
    apply list_elem_of_fmap. exists r. split; [reflexivity|exact Hin]. }
  exists stS, st1, st2. split; [exact Hexport|]. split; [reflexivity|].
  split; [exact Hrun1|exact Hrun2].
Qed.

(** *** The reference store satisfies the laws *)

Lemma json_eqb_refl : forall a, json_eqb a a = true.
Proof.
  fix IH 1. intros [|b|n|f|s|l|d]; cbn.
  - reflexivity.
  - destruct b; reflexivity.
  - apply Z.eqb_refl.
  - apply Z.eqb_refl.
  - apply bool_decide_eq_true_2. reflexivity.
  - induction l as [|x l IHl]; [reflexivity|]. rewrite IH, IHl. reflexivity.
  - induction d as [|[k x] d IHd]; [reflexivity|].
    rewrite IH, IHd, bool_decide_eq_true_2 by reflexivity. reflexivity.
Qed.

Lemma json_eqb_sound : forall a b, json_eqb a b = true -> a = b.
Proof.
  fix IH 1. intros [|x|x|x|x|xs|xs] [|y|y|y|y|ys|ys]; cbn; try discriminate.
  - reflexivity.
  - intros H. apply Bool.eqb_prop in H. congruence.
  - intros H%Z.eqb_eq. congruence.
  - intros H%Z.eqb_eq. congruence.
  - intros H%bool_decide_eq_true_1. congruence.
  - revert ys. induction xs as [|x xs IHxs]; intros [|y ys]; try discriminate.
    + reflexivity.
    + intros [Hx Hxs]%andb_prop. apply IH in Hx. apply IHxs in Hxs.
      congruence.
  - revert ys. induction xs as [|[k x] xs IHxs]; intros [|[k' y] ys];
      try discriminate.
    + reflexivity.
    + intros [[Hk Hx]%andb_prop Hxs]%andb_prop.
      apply bool_decide_eq_true_1 in Hk. apply IH in Hx. apply IHxs in Hxs.
      congruence.
Qed.

Lemma json_eqb_eq a b : json_eqb a b = true <-> a = b.
Proof.
  split; [apply json_eqb_sound|]. intros ->. apply json_eqb_refl.
Qed.

Lemma sim_records_update collection f w :
  sim_records collection (with_db w (db_update collection f (db w)))
  = Some (f (default [] (sim_records collection w))).
Proof.
  unfold sim_records. cbn. induction (db w) as [|[c recs] d IH]; cbn.
  - rewrite bool_decide_eq_true_2 by reflexivity. reflexivity.
  - destruct (bool_decide (c = collection)) eqn:Hc; cbn; rewrite Hc.
    + reflexivity.
    + exact IH.
Qed.

Lemma sim_has_default collection x w :
  sim_has collection x w
  = existsb (fun r => json_eqb (id_of r) x) (default [] (sim_records collection w)).
Proof. unfold sim_has. destruct (sim_records collection w); reflexivity. Qed.

Lemma id_of_patch d r :
  dict_lookup (py "id") d = None ->
  id_of (patch_record (JDict d) r) = id_of r.
Proof.
  intros Hd. destruct r as [| | | | | |old]; try reflexivity. cbn.
  unfold dict_get. f_equal. revert old.
  induction d as [|[k v] d IH]; intros old; [reflexivity|]. cbn [fold_left].
  unfold dict_lookup in Hd. cbn [List.find fst] in Hd.
  destruct (bool_decide (k = py "id")) eqn:Hk; [discriminate|].
  apply bool_decide_eq_false_1 in Hk.
  rewrite IH by exact Hd. apply dict_lookup_set_ne. exact Hk.
Qed.

Lemma sim_store_laws collection :
  store_laws (sim_present collection) (fun _ => True) collection.
Proof.
  split.
  - intros w x _. unfold sim_present. cbn.
    split; [exact I|]. split; [reflexivity|].
    destruct (sim_has collection x w) eqn:Hhas; do 2 eexists;
      (split; [reflexivity|]); split; intros H;
      try reflexivity; try discriminate H.
  - intros w data x _ Hx Habs. unfold sim_present in *.
    assert (Hid : id_of (JDict data) = x)
      by (cbn [id_of]; unfold dict_get; rewrite Hx; reflexivity).
    apply not_true_is_false in Habs.
    unfold handle, sim_world, sim_handle. rewrite Hid, Habs. cbn [fst snd].
    split; [exact I|]. split; [|eauto].
    intros y. rewrite !sim_has_default, sim_records_update.
    cbn [default from_option id]. unfold id.
    rewrite existsb_app. cbn [existsb]. rewrite Hid, orb_false_r, orb_true_iff, json_eqb_eq. split.
    + intros [H| ->]; auto.
    + intros [->|H]; auto.
  - intros w data x _ Hd Hpres. unfold sim_present in *.
    unfold handle, sim_world, sim_handle. rewrite Hpres. cbn [fst snd].
    split; [exact I|]. split; [|eauto].
    intros y. rewrite !sim_has_default, sim_records_update.
    set (recs := default [] (sim_records collection w)). clearbody recs.
    cbn [default from_option id]. unfold id.
    induction recs as [|r recs IH]; [reflexivity|]. cbn [List.map existsb].
    rewrite !orb_true_iff, IH.
    destruct (json_eqb (id_of r) x); [rewrite id_of_patch by exact Hd|];
      reflexivity.
Qed.

(** Three users exported two to a page, restored into an empty store, then
    restored again. *)
Lemma export_restore_round_trip_witness :
  exists stS st1 st2,
    pb_get_all 2 DEFAULT_CONFIG [] users [] 2
      (initial (sim_store [(users, [rec_id "a"; rec_id "b"; rec_id "c"])]))
    = (Ok [rec_id "a"; rec_id "b"; rec_id "c"], stS)
    /\ envelope_records
         (tenant_envelope users (JStr (py "o1")) (py "2024-05-01")
            [rec_id "a"; rec_id "b"; rec_id "c"])
       = Some [rec_id "a"; rec_id "b"; rec_id "c"]
    /\ restore_collection_data DEFAULT_CONFIG [] users
         [rec_id "a"; rec_id "b"; rec_id "c"] false (initial (sim_store []))
       = (Ok (Counts 3 0 0 0), st1)
    /\ restore_collection_data DEFAULT_CONFIG [] users
         [rec_id "a"; rec_id "b"; rec_id "c"] false st1
       = (Ok (Counts 0 3 0 0), st2).
Proof.
  apply (export_restore_round_trip DEFAULT_CONFIG [] users [] 2
           [rec_id "a"; rec_id "b"; rec_id "c"] (JStr (py "o1"))
           (py "2024-05-01") 2
           (eq (sim_store [(users, [rec_id "a"; rec_id "b"; rec_id "c"])]))
           (sim_store [(users, [rec_id "a"; rec_id "b"; rec_id "c"])])
           (sim_present users) (fun _ => True) (sim_store [])).
  - lia.
  - apply sim_serves; reflexivity.
  - reflexivity.
  - vm_compute. lia.
  - reflexivity.
  - vm_compute.
    repeat (apply NoDup_cons_2;
            [intros H; repeat (apply elem_of_cons in H as [H|H];
                               [discriminate H|]); inversion H|]).
    apply NoDup_nil_2.
  - apply sim_store_laws.
  - exact I.
  - intros r _. unfold sim_present. cbn. discriminate.
Defined.

(** ** The folder key of a tenant *)

Section FolderKey.
Context {B : Builtins}.
(** No character is both alphanumeric and white space (the two classes are
    disjoint in the Unicode database). *)
Hypothesis alnum_not_space : forall c, isalnum c = true -> isspace c = false.

Lemma isspace_sanitize c : isspace (sanitize c) = (c =? chr " ")%N.
Proof.
  unfold sanitize. destruct (isalnum c) eqn:Ha; cbn [orb].
  - rewrite (alnum_not_space c Ha). symmetry. apply N.eqb_neq. intros ->.
    cbn in Ha. discriminate Ha.
  - unfold in_punct. destruct (bool_decide _) eqn:Hp.
    + apply bool_decide_eq_true_1 in Hp. cbn in Hp.
      repeat (apply elem_of_cons in Hp as [->|Hp]; [reflexivity|]).
      inversion Hp.
    + apply bool_decide_eq_false_1 in Hp. cbn.
      symmetry. apply N.eqb_neq. intros ->. apply Hp. cbn.
      do 3 apply list_elem_of_further. apply list_elem_of_here.
Qed.

Lemma lstrip_sanitize s :
  lstrip (List.map sanitize s) = List.map sanitize (ltrim_spaces s).
Proof.
  induction s as [|c s IH]; [reflexivity|]. cbn [List.map lstrip ltrim_spaces].
  rewrite isspace_sanitize. destruct (c =? chr " ")%N; [exact IH|reflexivity].
Qed.

Lemma strip_sanitize s :
  strip (List.map sanitize s) = List.map sanitize (trim_spaces s).
Proof.
  unfold strip, rstrip, trim_spaces.
  rewrite lstrip_sanitize, <- List.map_rev, lstrip_sanitize, List.map_rev.
  reflexivity.
Qed.

(** C2, as the code has it.  The key is a function of the name and the
    identity; it is what the specification's derivation gives for the name
    without its leading and trailing spaces (the code strips after it has
    replaced the disallowed characters, when only spaces are white space);
    the names "Toko #1" and "Toko @1" both give [Toko__1_] followed by the
    first 8 characters of the identity. *)
Theorem folder_key_derivation :
  (forall name1 id1 name2 id2,
     name1 = name2 -> id1 = id2 -> folder_key name1 id1 = folder_key name2 id2)
  /\ (forall name id,
        folder_key name id = deriveFolderKey_spec (trim_spaces name) id)
  /\ (forall id,
        folder_key (py "Toko #1") id = py "Toko__1_" ++ take 8 id
        /\ folder_key (py "Toko @1") id = py "Toko__1_" ++ take 8 id).
Proof.
  split; [intros; subst; reflexivity|]. split.
  - intros name id. unfold folder_key, deriveFolderKey_spec, safe.
    rewrite strip_sanitize. reflexivity.
  - intros id. split; reflexivity.
Qed.

End FolderKey.

Lemma ascii_alnum_not_space c :
  isalnum (B:=ascii_builtins) c = true -> isspace (B:=ascii_builtins) c = false.
Proof.
  unfold isalnum, isspace, between. cbn [uni_alnum uni_space ascii_builtins].
  destruct (c <? 128)%N; [|discriminate].
  intros H. apply not_true_is_false. intros H2. revert H H2.
  rewrite !orb_true_iff, !andb_true_iff, !N.leb_le. lia.
Qed.

Lemma folder_key_derivation_witness :
  folder_key (B:=ascii_builtins) (py "  Toko Jaya! ") (py "k3x9q2m7w1z5abc")
  = deriveFolderKey_spec (B:=ascii_builtins)
      (trim_spaces (py "  Toko Jaya! ")) (py "k3x9q2m7w1z5abc").
Proof.
  apply (proj1 (proj2 (folder_key_derivation (B:=ascii_builtins)
                         ascii_alnum_not_space))).
Defined.

(** The claim's example and its derivation, evaluated: "Toko #1" gives two
    underscores, and a leading space is dropped by the code where the
    specification's derivation turns it into an underscore. *)
Lemma folder_key_counterexample :
  folder_key (B:=ascii_builtins) (py "Toko #1") (py "k3x9q2m7w1z5abc")
    = py "Toko__1_k3x9q2m7"
  /\ py "Toko__1_k3x9q2m7" <> py "Toko_1_k3x9q2m7"
  /\ folder_key (B:=ascii_builtins) (py " Toko") (py "k3x9q2m7w1z5abc")
     = py "Toko_k3x9q2m7"
  /\ deriveFolderKey_spec (B:=ascii_builtins) (py " Toko") (py "k3x9q2m7w1z5abc")
     = py "_Toko_k3x9q2m7".
Proof.
  split; [reflexivity|]. split; [discriminate|]. split; reflexivity.
Qed.

(** ** The tenant loop of [main] *)

Section NoRaise.
Context {W : Type} {HW : World W}.

Lemma no_raise_ret {A} (a : A) : no_raise (W:=W) (ret a).
Proof. intros st e. discriminate. Qed.

Lemma no_raise_log lvl msg : no_raise (W:=W) (log lvl msg).
Proof. intros st e. discriminate. Qed.

Lemma no_raise_call {T} (c : call T) : no_raise (W:=W) (do_call c).
Proof.
  intros st e. unfold do_call. destruct (handle c (world st)). discriminate.
Qed.

Lemma no_raise_bind {A B} (m : M W A) (k : A -> M W B) :
  no_raise m -> (forall a, no_raise (k a)) -> no_raise (bind m k).
Proof.
  intros Hm Hk st e. unfold bind. specialize (Hm st).
  destruct (m st) as [[a|e'|] st1]; cbn in *.
  - apply Hk.
  - exfalso. apply (Hm e'). reflexivity.
  - discriminate.
Qed.

Lemma no_raise_try_except {A} (m : M W A) (handler : exn -> M W A) :
  (forall e, no_raise (handler e)) -> no_raise (try_except m handler).
Proof.
  intros Hh st e. unfold try_except.
  destruct (m st) as [[a|e'|] st1]; cbn; try discriminate. apply Hh.
Qed.

Lemma no_raise_for_each {A S} (f : S -> A -> M W S) (I : A -> Prop) l :
  (forall s x, I x -> no_raise (f s x)) -> Forall I l ->
  forall s, no_raise (for_each f s l).
Proof.
  intros Hf Hl. induction Hl as [|x l Hx Hl IH]; intros s; cbn [for_each].
  - apply no_raise_ret.
  - apply no_raise_bind; [apply Hf, Hx|]. intros s'. apply IH.
Qed.

End NoRaise.

Section Returns.
Context {W : Type} {HW : World W}.

Lemma returns_ret {A} (Q : A -> Prop) a : Q a -> returns (W:=W) Q (ret a).
Proof. intros HQ st a' [= <-]. exact HQ. Qed.

Lemma returns_raise {A} (Q : A -> Prop) e : returns (W:=W) Q (raise e).
Proof. intros st a [=]. Qed.

Lemma returns_stuck {A} (Q : A -> Prop) : returns (W:=W) Q stuck.
Proof. intros st a [=]. Qed.

Lemma returns_any {A} (m : M W A) : returns (fun _ => True) m.
Proof. intros st a _. exact I. Qed.

Lemma returns_bind {A B} (Q : A -> Prop) (R : B -> Prop) (m : M W A)
    (k : A -> M W B) :
  returns Q m -> (forall a, Q a -> returns R (k a)) -> returns R (bind m k).
Proof.
  intros Hm Hk st b. unfold bind. specialize (Hm st).
  destruct (m st) as [[a|e|] st1]; cbn in *; try discriminate.
  apply Hk, Hm. reflexivity.
Qed.

Lemma returns_try_except {A} (Q : A -> Prop) (m : M W A)
    (handler : exn -> M W A) :
  returns Q m -> (forall e, returns Q (handler e)) ->
  returns Q (try_except m handler).
Proof.
  intros Hm Hh st a. unfold try_except. specialize (Hm st).
  destruct (m st) as [[a'|e|] st1]; cbn in *; try discriminate.
  - exact (Hm a).
  - apply Hh.
Qed.

Lemma returns_weaken {A} (Q Q' : A -> Prop) (m : M W A) :
  returns Q m -> (forall a, Q a -> Q' a) -> returns Q' m.
Proof. intros Hm HQ st a Ha. apply HQ, (Hm st a Ha). Qed.

End Returns.

Section TenantLoop.
Context {W : Type} {HW : World W} {B : Builtins}.
Variables (fuel : nat) (cfg : config) (token date_str : pystr).

Lemma owner_name_ok fields oid (st : state W) :
  dict_lookup (py "id") fields = Some oid ->
  owner_name fields st = (Ok (display_name fields oid), st).
Proof.
  intros Hid. unfold owner_name, display_name, py_or. rewrite Hid.
  destruct (truthy (dict_get (py "name") JNull fields)) eqn:Hn.
  - rewrite Hn. reflexivity.
  - destruct (truthy (dict_get (py "storeName") JNull fields)) eqn:Hs;
      reflexivity.
Qed.

(** The summary [backup_tenant] returns names the owner it was given. *)
Lemma backup_tenant_summary fields oid :
  dict_lookup (py "id") fields = Some oid ->
  returns (W:=W)
    (fun b => tenant b.2 = display_name fields oid /\ owner_id b.2 = oid)
    (backup_tenant fuel cfg token (JDict fields) date_str).
Proof.
  intros Hid. cbn [backup_tenant]. rewrite Hid.
  intros st b. unfold bind at 1. rewrite (owner_name_ok fields oid st Hid).
  destruct (display_name fields oid) as [| | | |name_str| |] eqn:Hname;
    try discriminate.
  destruct oid as [| | | |oid| |]; try discriminate.
  revert st b.
  eapply returns_bind; [apply returns_any|]. intros _ _.
  eapply returns_bind; [apply returns_any|]. intros acc _.
  eapply returns_bind; [apply returns_any|]. intros _ _.
  eapply returns_bind; [apply returns_any|]. intros _ _.
  apply returns_ret. cbn. auto.
Qed.

(** What the [try] block leaves in [errors] and [results] when it ends. *)
Lemma backup_and_upload_returns fields oid acc :
  dict_lookup (py "id") fields = Some oid ->
  returns (W:=W)
    (fun acc' => exists r errs,
       acc' = (acc.1 ++ errs, acc.2 ++ [r]) /\ result_owner_id r = oid)
    (backup_and_upload fuel cfg token date_str (JDict fields)
       (display_name fields oid) acc).
Proof.
  intros Hid. unfold backup_and_upload.
  eapply returns_bind; [apply backup_tenant_summary, Hid|].
  intros b [_ Hb]. cbv zeta.
  eapply returns_bind; [apply returns_any|]. intros ok _.
  eapply returns_bind; [apply returns_any|]. intros _ _.
  destruct ok; apply returns_ret.
  - exists (summary_result b.2 true), []. rewrite app_nil_r. auto.
  - eexists (summary_result b.2 false), _. auto.
Qed.

(** One turn of the loop never raises, and when it ends it has added one
    entry for the owner to [results]. *)
Lemma backup_owner_turn fields oid acc :
  dict_lookup (py "id") fields = Some oid ->
  no_raise (W:=W) (backup_owner fuel cfg token date_str acc (JDict fields))
  /\ returns (W:=W)
       (fun acc' => exists r errs,
          acc' = (acc.1 ++ errs, acc.2 ++ [r]) /\ result_owner_id r = oid)
       (backup_owner fuel cfg token date_str acc (JDict fields)).
Proof.
  intros Hid. cbn [backup_owner]. split.
  - intros st e. unfold bind at 1. rewrite (owner_name_ok fields oid st Hid).
    apply no_raise_try_except. intros e'. rewrite Hid.
    apply no_raise_bind; [apply no_raise_log|]. intros _.
    apply no_raise_bind; [apply no_raise_log|]. intros _.
    apply no_raise_ret.
  - intros st. unfold bind at 1. rewrite (owner_name_ok fields oid st Hid).
    revert st.
    apply returns_try_except; [apply backup_and_upload_returns, Hid|].
    intros e. rewrite Hid.
    eapply returns_bind; [apply returns_any|]. intros _ _.
    eapply returns_bind; [apply returns_any|]. intros _ _.
    apply returns_ret. eauto.
Qed.

(** A tenant whose backup raises gets an [ERROR] entry and an entry in
    [errors]; the loop body returns normally. *)
Lemma backup_owner_raise fields oid acc (st st1 : state W) e :
  dict_lookup (py "id") fields = Some oid ->
  backup_tenant fuel cfg token (JDict fields) date_str st = (Raise e, st1) ->
  backup_owner fuel cfg token date_str acc (JDict fields) st
  = (Ok (acc.1 ++ [ErrTenantBackup (display_name fields oid) e],
         acc.2 ++ [error_result (display_name fields oid) oid e]),
     State (world st1) (trace st1)
       (output st1 ++ [(ERROR, MsgTenantError (display_name fields oid) e);
                       (ERROR, MsgTraceback e)])).
Proof.
  intros Hid Hraise. cbn [backup_owner]. unfold bind at 1.
  rewrite (owner_name_ok fields oid st Hid).
  unfold try_except, backup_and_upload. unfold bind at 1. rewrite Hraise, Hid.
  unfold bind, log, ret. cbn. rewrite <- app_assoc. reflexivity.
Qed.

(** The loop over the owners never raises and, when it ends, has added one
    entry per owner to [results], in order. *)
Lemma tenant_loop owners :
  Forall (fun o => is_Some (owner_id_of o)) owners ->
  forall acc,
    no_raise (W:=W) (for_each (backup_owner fuel cfg token date_str) acc owners)
    /\ returns (W:=W)
         (fun acc' => exists rs errs,
            acc' = (acc.1 ++ errs, acc.2 ++ rs)
            /\ (fun r => Some (result_owner_id r)) <$> rs
               = owner_id_of <$> owners)
         (for_each (backup_owner fuel cfg token date_str) acc owners).
Proof.
  intros Hall acc. split.
  - apply no_raise_for_each
      with (I := fun o => is_Some (owner_id_of o)); [|exact Hall].
    intros s [| | | | | |fields] [oid Ho]; try discriminate.
    apply (backup_owner_turn fields oid s Ho).
  - revert acc. induction Hall as [|o owners [oid Ho] Hall IH]; intros acc;
      cbn [for_each].
    + apply returns_ret. exists [], []. rewrite !app_nil_r.
      destruct acc; auto.
    + destruct o as [| | | | | |fields]; try discriminate.
      eapply returns_bind; [apply (backup_owner_turn fields oid acc Ho)|].
      intros acc1 (r & errs & -> & Hr).
      eapply returns_weaken; [apply IH|].
      intros acc2 (rs & errs' & -> & Hrs). cbn [fst snd].
      exists (r :: rs), (errs ++ errs'). rewrite <- !app_assoc.
      split; [reflexivity|]. cbn [owner_id_of]. rewrite !fmap_cons.
      rewrite Hrs, Hr, Ho. reflexivity.
Qed.

End TenantLoop.

(** ** The exit status of [main] *)

Section Main.
Context {W : Type} {HW : World W} {B : Builtins}.
Variables (fuel : nat) (cfg : config).

Lemma total_ret {A} (a : A) : total (W:=W) (ret a).
Proof. intros st. eexists _, _. reflexivity. Qed.

Lemma total_log lvl msg : total (W:=W) (log lvl msg).
Proof. intros st. eexists _, _. reflexivity. Qed.

Lemma total_call {T} (c : call T) : total (W:=W) (do_call c).
Proof.
  intros st. unfold do_call. destruct (handle c (world st)).
  eexists _, _. reflexivity.
Qed.

Lemma total_bind {A C} (m : M W A) (k : A -> M W C) :
  total m -> (forall a, total (k a)) -> total (bind m k).
Proof.
  intros Hm Hk st. unfold bind. destruct (Hm st) as (a & st1 & ->).
  apply Hk.
Qed.

Lemma send_webhook_total is_error : total (W:=W) (send_webhook cfg is_error).
Proof.
  unfold send_webhook.
  destruct (bool_decide _); [apply total_ret|].
  destruct (_ && _); [apply total_ret|].
  destruct (_ && _); [apply total_ret|].
  apply total_bind; [apply total_call|]. intros r1.
  match goal with |- total (if ?c then _ else _) => destruct c end;
    [apply total_log|].
  apply total_bind; [apply total_call|]. intros r2.
  match goal with |- total (if ?c then _ else _) => destruct c end;
    [apply total_log|].
  apply total_bind; [apply total_call|]. intros [|s3 b3];
    [apply total_log|apply total_ret].
Qed.

Lemma send_webhook_ok is_error (st : state W) :
  exists st', send_webhook cfg is_error st = (Ok tt, st').
Proof.
  destruct (send_webhook_total is_error st) as ([] & st' & H). eauto.
Qed.

Hypothesis credentials :
  bool_decide (pb_admin_email cfg = []) || bool_decide (pb_admin_pass cfg = [])
  = false.

(** Past the checks, [main] is the stages, the report and the exit status
    of the errors the stages recorded. *)
Lemma main_after_checks (st st1 st2 : state W) token :
  check_rclone cfg st = (Ok true, st1) ->
  pb_admin_login cfg st1 = (Ok token, st2) ->
  main fuel (Some cfg) st
  = (run <- stages fuel cfg token ;;
     report cfg run.1 run.2 ;;;
     ret (exit_status run.1)) st2.
Proof.
  intros Hcheck Hlogin. cbn [main]. rewrite credentials.
  unfold bind at 1. rewrite Hcheck. cbn [negb].
  unfold bind at 1. unfold try_except, bind at 1. rewrite Hlogin.
  reflexivity.
Qed.

Lemma main_exit_status (st st1 st2 st' : state W) token code :
  check_rclone cfg st = (Ok true, st1) ->
  pb_admin_login cfg st1 = (Ok token, st2) ->
  main fuel (Some cfg) st = (Ok code, st') ->
  exists errors results st3,
    stages fuel cfg token st2 = (Ok (errors, results), st3)
    /\ code = exit_status errors
    /\ (code <> 0 <-> errors <> []).
Proof.
  intros Hcheck Hlogin Hmain.
  rewrite (main_after_checks st st1 st2 token Hcheck Hlogin) in Hmain.
  unfold bind at 1 in Hmain.
  destruct (stages fuel cfg token st2) as [[[errors results]|e|] st3];
    try discriminate.
  unfold bind at 1 in Hmain. cbn [fst snd] in Hmain.
  destruct (report cfg errors results st3) as [[[]|e|] st4]; try discriminate.
  injection Hmain as <- _.
  exists errors, results, st3. split; [reflexivity|]. split; [reflexivity|].
  destruct errors; cbn; split; intros H; congruence.
Qed.

Lemma main_rclone_unavailable (st st1 : state W) :
  check_rclone cfg st = (Ok false, st1) ->
  exists st', main fuel (Some cfg) st = (Ok 1, st').
Proof.
  intros Hcheck. cbn [main]. rewrite credentials.
  unfold bind at 1. rewrite Hcheck. cbn [negb].
  destruct (send_webhook_ok true st1) as [st' Hw].
  unfold bind. rewrite Hw. eexists; reflexivity.
Qed.

Lemma main_login_failed (st st1 st2 : state W) e :
  check_rclone cfg st = (Ok true, st1) ->
  pb_admin_login cfg st1 = (Raise e, st2) ->
  exists st', main fuel (Some cfg) st = (Ok 1, st').
Proof.
  intros Hcheck Hlogin. cbn [main]. rewrite credentials.
  unfold bind at 1. rewrite Hcheck. cbn [negb].
  unfold bind at 1. unfold try_except, bind at 1. rewrite Hlogin.
  destruct (send_webhook_ok true
              (State (world st2) (trace st2)
                 (output st2 ++ [(ERROR, MsgLoginFailed)]))) as [st' Hw].
  unfold bind, log. cbn [world trace output]. rewrite Hw.
  eexists; reflexivity.
Qed.

End Main.

(** C7, as the code has it.  A tenant (an owner record with an identity)
    whose backup raises is caught: it gets an [ERROR] entry in [results] and
    an entry in [errors], and the loop goes on, so that it never raises and
    ends with one entry per tenant.  Once the credentials, [rclone] and the
    login have been checked, the exit status of a run that reaches its end
    is that of the errors the stages recorded: nonzero (2) exactly when
    there is one.  When [rclone] is unavailable or the login fails, the
    process exits with status 1 before any stage. *)
Theorem tenant_isolation_and_exit_status
    {W : Type} {HW : World W} {B : Builtins} fuel cfg :
  (forall token date_str fields oid acc (st st1 : state W) e,
     dict_lookup (py "id") fields = Some oid ->
     backup_tenant fuel cfg token (JDict fields) date_str st = (Raise e, st1) ->
     backup_owner fuel cfg token date_str acc (JDict fields) st
     = (Ok (acc.1 ++ [ErrTenantBackup (display_name fields oid) e],
            acc.2 ++ [error_result (display_name fields oid) oid e]),
        State (world st1) (trace st1)
          (output st1 ++ [(ERROR, MsgTenantError (display_name fields oid) e);
                          (ERROR, MsgTraceback e)])))
  /\
  (forall token date_str owners acc,
     Forall (fun o => is_Some (owner_id_of o)) owners ->
     no_raise (W:=W) (for_each (backup_owner fuel cfg token date_str) acc owners)
     /\ returns (W:=W)
          (fun acc' => exists rs errs,
             acc' = (acc.1 ++ errs, acc.2 ++ rs)
             /\ (fun r => Some (result_owner_id r)) <$> rs
                = owner_id_of <$> owners)
          (for_each (backup_owner fuel cfg token date_str) acc owners))
  /\
  (bool_decide (pb_admin_email cfg = []) || bool_decide (pb_admin_pass cfg = [])
   = false ->
   (forall (st st1 st2 st' : state W) token code,
      check_rclone cfg st = (Ok true, st1) ->
      pb_admin_login cfg st1 = (Ok token, st2) ->
      main fuel (Some cfg) st = (Ok code, st') ->
      exists errors results st3,
        stages fuel cfg token st2 = (Ok (errors, results), st3)
        /\ code = exit_status errors
        /\ (code <> 0 <-> errors <> []))
   /\ (forall (st st1 : state W),
         check_rclone cfg st = (Ok false, st1) ->
         exists st', main fuel (Some cfg) st = (Ok 1, st'))
   /\ (forall (st st1 st2 : state W) e,
         check_rclone cfg st = (Ok true, st1) ->
         pb_admin_login cfg st1 = (Raise e, st2) ->
         exists st', main fuel (Some cfg) st = (Ok 1, st'))).
Proof.
  split; [|split].
  - intros token date_str fields oid acc st st1 e.
    apply backup_owner_raise.
  - intros token date_str owners acc Hall. apply tenant_loop, Hall.
  - intros Hcred. split; [|split].
    + intros st st1 st2 st' token code.
      apply main_exit_status, Hcred.
    + intros st st1. apply main_rclone_unavailable, Hcred.
    + intros st st1 st2 e. apply main_login_failed, Hcred.
Qed.

(** Two tenants, the second of which cannot be backed up: the run ends with
    status 2 and the stages have recorded an error. *)
Lemma tenant_isolation_and_exit_status_witness :
  exists errors results st3,
    stages (B:=ascii_builtins) 1 sample_config (py "t0k3n")
      (pb_admin_login sample_config
         (check_rclone sample_config (initial two_tenants)).2).2
    = (Ok (errors, results), st3)
    /\ 2 = exit_status errors
    /\ (2 <> 0 <-> errors <> []).
Proof.
  refine (proj1 (proj2 (proj2 (tenant_isolation_and_exit_status
                                 (B:=ascii_builtins) 1 sample_config))
                  eq_refl)
            (initial two_tenants) _ _
            (main (B:=ascii_builtins) 1 (Some sample_config)
               (initial two_tenants)).2
            (py "t0k3n") 2 _ _ _).
  - vm_compute. reflexivity.
  - vm_compute. reflexivity.
  - vm_compute. reflexivity.
Defined.

(** Without [rclone] the process exits with status 1 after the one call
    that looks for it: no stage has run and no error has been recorded. *)
Lemma exit_status_counterexample :
  main (B:=ascii_builtins) 1 (Some sample_config) (initial no_rclone)
  = (Ok 1,
     State no_rclone
       [Event (Subprocess [py "rclone"; py "listremotes"])
          (ProcRaised FileNotFoundError)]
       [(ERROR, MsgRcloneNotInstalled)]).
Proof. vm_compute. reflexivity. Qed.

(** ** Verification after the upload *)

(** When the archive of a tenant has been built and uploaded, the entry
    added to [results] says [OK] and nothing is added to [errors], whatever
    [verify_upload] answers: a failed verification only logs a warning. *)
Lemma backup_owner_unverified
    {W : Type} {HW : World W} {B : Builtins}
    fuel cfg token date_str fields oid acc (st st1 st2 st3 : state W) b v :
  dict_lookup (py "id") fields = Some oid ->
  backup_tenant fuel cfg token (JDict fields) date_str st = (Ok b, st1) ->
  upload_gdrive cfg (path_str b.1.1.2) (gdrive_root cfg ++ py "/" ++ b.1.1.1) st1
    = (Ok true, st2) ->
  verify_upload cfg (gdrive_root cfg ++ py "/" ++ b.1.1.1) b.1.2 st2
    = (Ok v, st3) ->
  backup_owner fuel cfg token date_str acc (JDict fields) st
  = (Ok (acc.1, acc.2 ++ [summary_result b.2 true]),
     State (world st3) (trace st3)
       (output st3
        ++ if v then []
           else [(WARN, MsgVerifyFailed (display_name fields oid))]))
  /\ upload (summary_result b.2 true) = UploadOK
  /\ exit_status (acc.1, acc.2 ++ [summary_result b.2 true]).1
     = exit_status acc.1.
Proof.
  intros Hid Hbackup Hupload Hverify. split; [|split; reflexivity].
  cbn [backup_owner]. unfold bind at 1.
  rewrite (owner_name_ok fields oid st Hid).
  unfold try_except, backup_and_upload. unfold bind at 1. rewrite Hbackup.
  cbv zeta. unfold bind at 1. rewrite Hupload.
  unfold bind at 1. unfold bind at 1. rewrite Hverify.
  destruct v; unfold log, ret; cbn; destruct st3; cbn;
    rewrite ?app_nil_r; reflexivity.
Qed.


(** ** Ordering of names *)






(** [sorted(..., reverse=True)] is a descending rearrangement. *)
Section Sorting.
Context {A : Type} (key : A -> pystr).








End Sorting.

(** ** Selection of the tenants to restore *)

Section RestoreLatest.
Context {W : Type} {HW : World W} {B : Builtins}.
Variables (cfg : config) (token : pystr) (dry_run : bool).





End RestoreLatest.



(** The same run, by its output: the newer archive of each of the two
    tenants is the one that is taken. *)
Example restore_latest_two_tenants :
  omap latest_of
    (output (restore_latest (B:=ascii_builtins) sample_config (py "t0k3n")
               (Some (py "Toko")) true (initial remote_backups)).2)
  = [(py "Toko_A_o1abcdef", py "backup_2024-05-02_0300.zip");
     (py "Toko_B_o2abcdef", py "backup_2024-05-02_0300.zip")].
Proof. vm_compute. reflexivity. Qed.

(** ** [summary.json] and where the collections are looked for *)

(** C8, evaluated.  Two archives that differ only by [summary.json], each
    restored (not a dry run) into an empty store.  With the summary the
    user is created.  Without it, [restore_from_zip] reads the top of the
    extraction, where the archive only has its date folder: it warns,
    restores nothing and reports zero totals. *)
Lemma restore_depends_on_summary :
  output (restore_from_zip sample_config [py "/tmp/with.zip"] (py "t0k3n")
            false (initial two_archives)).2
  = [(INFO, MsgCollectionTotals 1 0 0 0); (INFO, MsgRestoreDone 1 0 0 0)]
  /\ db (world (restore_from_zip sample_config [py "/tmp/with.zip"]
                  (py "t0k3n") false (initial two_archives)).2)
     = [(users, [rec_id "a"])]
  /\ output (restore_from_zip sample_config [py "/tmp/without.zip"]
               (py "t0k3n") false (initial two_archives)).2
     = [(WARN, MsgNoSummary); (INFO, MsgRestoreDone 0 0 0 0)]
  /\ db (world (restore_from_zip sample_config [py "/tmp/without.zip"]
                  (py "t0k3n") false (initial two_archives)).2)
     = [].
Proof. vm_compute. repeat split; reflexivity. Qed.

(** ** Runs that differ only in what [rclone ls] shows *)

Section Related.
Context {W : Type} {HW : World W} {B : Builtins}.
Variable R : W -> W -> Prop.
Hypothesis HR : agree_but_listing R.

Lemma related_ret {A} (Q : A -> A -> Prop) a1 a2 :
  Q a1 a2 -> related R Q (ret a1) (ret a2).
Proof. intros HQ st1 st2 Hst. split; [exact HQ|exact Hst]. Qed.

Lemma related_raise {A} (Q : A -> A -> Prop) e :
  related R Q (raise e) (raise e).
Proof. intros st1 st2 Hst. split; [reflexivity|exact Hst]. Qed.

Lemma related_stuck {A} (Q : A -> A -> Prop) : related R Q stuck stuck.
Proof. intros st1 st2 Hst. split; [exact I|exact Hst]. Qed.

Lemma related_log (Q : unit -> unit -> Prop) l1 m1 l2 m2 :
  Q tt tt -> related R Q (log l1 m1) (log l2 m2).
Proof. intros HQ st1 st2 Hst. split; [exact HQ|exact Hst]. Qed.

Lemma related_call {T} (c : call T) :
  is_remote_listing c = false -> related R eq (do_call c) (do_call c).
Proof.
  intros Hc st1 st2 Hst. unfold do_call.
  destruct (HR T c (world st1) (world st2) Hst) as [HR' Heq].
  specialize (Heq Hc).
  destruct (handle c (world st1)) as [r1 w1].
  destruct (handle c (world st2)) as [r2 w2].
  cbn in *. split; [exact Heq|exact HR'].
Qed.

Lemma related_listing {T} (c : call T) :
  related R (fun _ _ => True) (do_call c) (do_call c).
Proof.
  intros st1 st2 Hst. unfold do_call.
  destruct (HR T c (world st1) (world st2) Hst) as [HR' _].
  destruct (handle c (world st1)) as [r1 w1].
  destruct (handle c (world st2)) as [r2 w2].
  cbn in *. split; [exact I|exact HR'].
Qed.

Lemma related_bind {A C} (Q : A -> A -> Prop) (Q' : C -> C -> Prop)
    (m1 m2 : M W A) (k1 k2 : A -> M W C) :
  related R Q m1 m2 ->
  (forall a1 a2, Q a1 a2 -> related R Q' (k1 a1) (k2 a2)) ->
  related R Q' (bind m1 k1) (bind m2 k2).
Proof.
  intros Hm Hk st1 st2 Hst. unfold bind.
  destruct (Hm st1 st2 Hst) as [Ho Hw].
  destruct (m1 st1) as [[a1|e1|] st1'], (m2 st2) as [[a2|e2|] st2'];
    cbn in *; try contradiction.
  - apply Hk; assumption.
  - split; assumption.
  - split; [exact I|assumption].
Qed.

(** The usual case: the same continuation after equal results. *)
Lemma related_bind_eq {A C} (Q' : C -> C -> Prop) (m1 m2 : M W A)
    (k : A -> M W C) :
  related R eq m1 m2 -> (forall a, related R Q' (k a) (k a)) ->
  related R Q' (bind m1 k) (bind m2 k).
Proof.
  intros Hm Hk. eapply related_bind; [exact Hm|]. intros a ? <-. apply Hk.
Qed.

Lemma related_try_except {A} (Q : A -> A -> Prop) (m1 m2 : M W A)
    (h1 h2 : exn -> M W A) :
  related R Q m1 m2 -> (forall e, related R Q (h1 e) (h2 e)) ->
  related R Q (try_except m1 h1) (try_except m2 h2).
Proof.
  intros Hm Hh st1 st2 Hst. unfold try_except.
  destruct (Hm st1 st2 Hst) as [Ho Hw].
  destruct (m1 st1) as [[a1|e1|] st1'], (m2 st2) as [[a2|e2|] st2'];
    cbn in *; try contradiction.
  - split; assumption.
  - subst e2. apply Hh, Hw.
  - split; [exact I|assumption].
Qed.

Lemma related_for_each {A S} (f : S -> A -> M W S) l :
  (forall s x, related R eq (f s x) (f s x)) ->
  forall s, related R eq (for_each f s l) (for_each f s l).
Proof.
  intros Hf. induction l as [|x l IH]; intros s; cbn [for_each].
  - apply related_ret. reflexivity.
  - apply related_bind_eq; [apply Hf|]. intros s'. apply IH.
Qed.

(** One step of a proof that a program runs alike from related worlds. *)
Ltac related_step :=
  first
    [ apply related_ret; reflexivity
    | apply related_raise
    | apply related_stuck
    | apply related_log; reflexivity
    | apply related_call; reflexivity
    | apply related_bind_eq; [|intros ?]
    | apply related_try_except; [|intros ?]
    | apply related_for_each; intros ? ?
    | match goal with
      | |- related _ _ (match ?x with _ => _ end) _ => destruct x
      | |- related _ _ (if ?x then _ else _) _ => destruct x
      end ].

Lemma related_pb_get_all_from fuel collection filter batch :
  forall page records,
    related R eq
      (pb_get_all_from fuel collection filter batch page records)
      (pb_get_all_from fuel collection filter batch page records).
Proof using HR.
  induction fuel as [|fuel IH]; intros page records; cbn [pb_get_all_from].
  - apply related_stuck.
  - repeat related_step. apply IH.
Qed.

Lemma related_pb_get_all fuel cfg token collection filter_str batch :
  related R eq (pb_get_all fuel cfg token collection filter_str batch)
    (pb_get_all fuel cfg token collection filter_str batch).
Proof using HR. apply related_pb_get_all_from. Qed.

Lemma related_time_sleep secs :
  related R eq (time_sleep secs) (time_sleep secs).
Proof using HR. unfold time_sleep. repeat related_step. Qed.

Lemma related_upload_attempts attempts max_retries delay local_path dest :
  related R eq (upload_attempts attempts max_retries delay local_path dest)
    (upload_attempts attempts max_retries delay local_path dest).
Proof using HR.
  induction attempts as [|attempt rest IH]; cbn [upload_attempts].
  - repeat related_step.
  - repeat related_step; first [apply related_time_sleep | apply IH].
Qed.

Lemma related_upload_gdrive cfg local_path gdrive_folder :
  related R eq (upload_gdrive cfg local_path gdrive_folder)
    (upload_gdrive cfg local_path gdrive_folder).
Proof using HR. apply related_upload_attempts. Qed.

(** The verification may answer differently in the two runs. *)
Lemma related_verify_upload cfg gdrive_folder expected_file :
  related R (fun _ _ => True) (verify_upload cfg gdrive_folder expected_file)
    (verify_upload cfg gdrive_folder expected_file).
Proof using HR.
  unfold verify_upload.
  eapply related_bind; [apply related_listing; exact HR|].
  intros r1 r2 _. destruct r1, r2; apply related_ret; exact I.
Qed.

Lemma related_fs c :
  is_remote_listing c = false -> related R eq (fs c) (fs c).
Proof using HR.
  intros Hc. unfold fs.
  apply related_bind_eq; [apply related_call, Hc|].
  intros r. destruct r; related_step.
Qed.

Lemma related_pb_admin_login cfg :
  related R eq (pb_admin_login cfg) (pb_admin_login cfg).
Proof using HR. unfold pb_admin_login. repeat related_step. Qed.

Lemma related_pb_download_file cfg token collection_id record_id filename
    dest_path :
  related R eq
    (pb_download_file cfg token collection_id record_id filename dest_path)
    (pb_download_file cfg token collection_id record_id filename dest_path).
Proof using HR. unfold pb_download_file. repeat related_step. Qed.

Lemma related_pb_create_backup cfg token out_dir :
  related R eq (pb_create_backup cfg token out_dir)
    (pb_create_backup cfg token out_dir).
Proof using HR.
  unfold pb_create_backup.
  repeat first [apply related_fs; reflexivity | related_step].
Qed.

Lemma related_backup_files_for_record cfg token collection fields files_dir
    count record :
  related R eq
    (backup_files_for_record cfg token collection fields files_dir count
       record)
    (backup_files_for_record cfg token collection fields files_dir count
       record).
Proof using HR.
  unfold backup_files_for_record.
  repeat first [apply related_pb_download_file | related_step].
Qed.

Lemma related_backup_files_for_records cfg token collection records dest_dir :
  related R eq
    (backup_files_for_records cfg token collection records dest_dir)
    (backup_files_for_records cfg token collection records dest_dir).
Proof using HR.
  unfold backup_files_for_records.
  destruct (FILE_FIELDS collection);
    repeat first [apply related_backup_files_for_record | related_step].
Qed.

Lemma related_owner_name fields :
  related R eq (owner_name fields) (owner_name fields).
Proof using HR. unfold owner_name. repeat related_step. Qed.

Lemma related_backup_collection fuel cfg token oid tenant_dir acc col :
  related R eq (backup_collection fuel cfg token oid tenant_dir acc col)
    (backup_collection fuel cfg token oid tenant_dir acc col).
Proof using HR.
  unfold backup_collection.
  repeat first
    [ apply related_pb_get_all
    | apply related_fs; reflexivity
    | apply related_backup_files_for_records
    | related_step ].
Qed.

Lemma related_backup_tenant fuel cfg token owner date_str :
  related R eq (backup_tenant fuel cfg token owner date_str)
    (backup_tenant fuel cfg token owner date_str).
Proof using HR.
  unfold backup_tenant.
  repeat first
    [ apply related_owner_name
    | apply related_fs; reflexivity
    | apply related_backup_collection
    | related_step ].
Qed.

Lemma related_check_rclone cfg :
  related R eq (check_rclone cfg) (check_rclone cfg).
Proof using HR. unfold check_rclone. repeat related_step. Qed.

Lemma related_send_webhook cfg is_error :
  related R eq (send_webhook cfg is_error) (send_webhook cfg is_error).
Proof using HR. unfold send_webhook. repeat related_step. Qed.

(** The warning of a failed verification is the only difference. *)
Lemma related_verification cfg gdrive_dest zip_name oname :
  related R eq
    (verified <- verify_upload cfg gdrive_dest zip_name ;;
     if verified : bool then ret tt else log WARN (MsgVerifyFailed oname))
    (verified <- verify_upload cfg gdrive_dest zip_name ;;
     if verified : bool then ret tt else log WARN (MsgVerifyFailed oname)).
Proof using HR.
  eapply related_bind; [apply related_verify_upload|].
  intros v1 v2 _ st1 st2 Hst.
  destruct v1, v2; (split; [reflexivity|exact Hst]).
Qed.

Lemma related_backup_and_upload fuel cfg token date_str owner oname acc :
  related R eq (backup_and_upload fuel cfg token date_str owner oname acc)
    (backup_and_upload fuel cfg token date_str owner oname acc).
Proof using HR.
  unfold backup_and_upload.
  apply related_bind_eq; [apply related_backup_tenant|]. intros b. cbv zeta.
  apply related_bind_eq; [apply related_upload_gdrive|]. intros ok.
  apply related_bind_eq.
  - destruct ok; [apply related_verification|related_step].
  - intros _. destruct ok; related_step.
Qed.

Lemma related_backup_owner fuel cfg token date_str acc owner :
  related R eq (backup_owner fuel cfg token date_str acc owner)
    (backup_owner fuel cfg token date_str acc owner).
Proof using HR.
  unfold backup_owner.
  repeat first
    [ apply related_owner_name
    | apply related_backup_and_upload
    | related_step ].
Qed.

Lemma related_full_db_stage cfg token :
  related R eq (full_db_stage cfg token) (full_db_stage cfg token).
Proof using HR.
  unfold full_db_stage.
  repeat first
    [ apply related_pb_create_backup
    | apply related_upload_gdrive
    | related_step ].
Qed.

Lemma related_global_stage fuel cfg token date_str errors :
  related R eq (global_stage fuel cfg token date_str errors)
    (global_stage fuel cfg token date_str errors).
Proof using HR.
  unfold global_stage.
  repeat first
    [ apply related_pb_get_all
    | apply related_fs; reflexivity
    | apply related_backup_files_for_records
    | apply related_upload_gdrive
    | related_step ].
Qed.

Lemma related_tenant_stage fuel cfg token date_str errors :
  related R eq (tenant_stage fuel cfg token date_str errors)
    (tenant_stage fuel cfg token date_str errors).
Proof using HR.
  unfold tenant_stage.
  repeat first
    [ apply related_pb_get_all
    | apply related_backup_owner
    | related_step ].
Qed.

Lemma related_stages fuel cfg token :
  related R eq (stages fuel cfg token) (stages fuel cfg token).
Proof using HR.
  unfold stages.
  repeat first
    [ apply related_fs; reflexivity
    | apply related_full_db_stage
    | apply related_global_stage
    | apply related_tenant_stage
    | related_step ].
Qed.

Lemma related_report cfg errors results :
  related R eq (report cfg errors results) (report cfg errors results).
Proof using HR.
  unfold report. repeat first [apply related_send_webhook | related_step].
Qed.

(** Two runs of [main] from worlds that differ only in what [rclone ls]
    shows end alike: with the same exit status, the same exception, or both
    out of fuel. *)
Lemma related_main fuel config_file :
  related R eq (main fuel config_file) (main fuel config_file).
Proof using HR.
  unfold main.
  repeat first
    [ apply related_check_rclone
    | apply related_send_webhook
    | apply related_pb_admin_login
    | apply related_stages
    | apply related_report
    | related_step ].
Qed.

End Related.

Lemma sim_agree_but_listing : agree_but_listing same_but_remote_files.
Proof.
  intros T c w1 w2 Hw. destruct w1, w2. unfold same_but_remote_files in *.
  cbn in Hw. inversion Hw; subst; clear Hw.
  unfold handle, sim_world.
  destruct c; cbn;
    unfold sim_has, sim_records, sim_fs, with_db, with_copy_failures; cbn;
    repeat case_match; cbn; split; try reflexivity;
    try discriminate; try congruence.
Qed.

(** C10.  Verification is advisory.  (1) When the archive of a tenant has
    been built and uploaded, the entry added to [results] says [OK] and
    nothing is added to [errors], whatever [verify_upload] answers: a failed
    verification only logs a warning, and the exit status computed from
    [errors] is the same either way.  (2) Two whole runs of [main] from
    worlds that differ only in what [rclone ls] prints, the one call of
    [verify_upload], end alike: with the same exit status, or with the same
    exception. *)
Theorem verification_failure_is_not_an_error
    {W : Type} {HW : World W} {B : Builtins} fuel cfg :
  (forall token date_str fields oid acc (st st1 st2 st3 : state W) b v,
     dict_lookup (py "id") fields = Some oid ->
     backup_tenant fuel cfg token (JDict fields) date_str st = (Ok b, st1) ->
     upload_gdrive cfg (path_str b.1.1.2)
       (gdrive_root cfg ++ py "/" ++ b.1.1.1) st1 = (Ok true, st2) ->
     verify_upload cfg (gdrive_root cfg ++ py "/" ++ b.1.1.1) b.1.2 st2
     = (Ok v, st3) ->
     backup_owner fuel cfg token date_str acc (JDict fields) st
     = (Ok (acc.1, acc.2 ++ [summary_result b.2 true]),
        State (world st3) (trace st3)
          (output st3
           ++ if v then []
              else [(WARN, MsgVerifyFailed (display_name fields oid))]))
     /\ upload (summary_result b.2 true) = UploadOK
     /\ exit_status (acc.1, acc.2 ++ [summary_result b.2 true]).1
        = exit_status acc.1)
  /\
  (forall (R : W -> W -> Prop) w1 w2,
     agree_but_listing R -> R w1 w2 ->
     same_outcome eq (main fuel (Some cfg) (initial w1)).1
                     (main fuel (Some cfg) (initial w2)).1).
Proof.
  split.
  - intros token date_str fields oid acc st st1 st2 st3 b v.
    apply backup_owner_unverified.
  - intros R w1 w2 HR Hw.
    apply (related_main R HR fuel (Some cfg) (initial w1) (initial w2) Hw).
Qed.

(** A tenant whose archive is uploaded while the listing of the remote
    folder does not show it, and the run next to the one whose listing
    does. *)
Lemma verification_failure_is_not_an_error_witness :
  (exists (b : pystr * path * pystr * summary) st',
     backup_owner (B:=ascii_builtins) 1 sample_config (py "t0k3n")
       (py "2024-05-01_0300") ([], []) (owner "o1abcdefgh" "Toko A")
       (initial (sim_store []))
     = (Ok ([], [summary_result b.2 true]), st')
     /\ upload (summary_result b.2 true) = UploadOK
     /\ exit_status ([] : list run_error) = 0)
  /\ same_outcome eq
       (main (B:=ascii_builtins) 1 (Some sample_config)
          (initial (one_tenant []))).1
       (main (B:=ascii_builtins) 1 (Some sample_config)
          (initial (one_tenant (py "  2048 backup_2024-05-01_0300.zip")))).1.
Proof.
  destruct (verification_failure_is_not_an_error (W:=sim)
              (B:=ascii_builtins) 1 sample_config) as [Hlocal Hglobal].
  split.
  - do 2 eexists.
    eapply (Hlocal (py "t0k3n") (py "2024-05-01_0300")
              [(py "id", JStr (py "o1abcdefgh")); (py "name", JStr (py "Toko A"))]
              (JStr (py "o1abcdefgh")) ([], []) (initial (sim_store []))
              _ _ _ _ false).
    + reflexivity.
    + vm_compute. reflexivity.
    + vm_compute. reflexivity.
    + vm_compute. reflexivity.
  - apply (Hglobal same_but_remote_files).
    + exact sim_agree_but_listing.
    + reflexivity.
Defined.

(** The two runs above: both end with status 0; the first one warns that
    the archive of the tenant could not be verified, the second does not. *)
Example unverified_run_exits_zero :
  let warned (st : outcome Z * state sim) :=
    existsb (fun line => match line with
                         | (WARN, MsgVerifyFailed _) => true
                         | _ => false
                         end) (output st.2) in
  let run files :=
    main (B:=ascii_builtins) 1 (Some sample_config)
      (initial (one_tenant files)) in
  (run []).1 = Ok 0 /\ warned (run []) = true
  /\ (run (py "  2048 backup_2024-05-01_0300.zip")).1 = Ok 0
  /\ warned (run (py "  2048 backup_2024-05-01_0300.zip")) = false.
Proof. vm_compute. repeat split. Qed.


(** * Further properties of the two scripts *)

(** A walk through a program built from the operations of the monad, for
    judgements [emits P Pl (fun _ => True) m]; [leaf] proves what is asked of
    a call or of a logged line. *)
Ltac emits_walk leaf :=
  repeat
    lazymatch goal with
    | |- emits _ _ _ (ret _) => apply emits_ret; exact I
    | |- emits _ _ _ (raise _) => apply emits_raise
    | |- emits _ _ _ stuck => apply emits_stuck
    | |- emits _ _ _ (log _ _) => apply emits_log; [solve [leaf] | exact I]
    | |- emits _ _ _ (do_call _) =>
        apply emits_call; [intros ?; solve [leaf] | intros ?; exact I]
    | |- emits _ _ _ (bind _ _) =>
        eapply emits_bind with (Q := fun _ => True); [|intros ? _]
    | |- emits _ _ _ (try_except _ _) => apply emits_try_except; [|intros ?]
    | |- emits _ _ _ (try_finally _ _) =>
        eapply emits_try_finally with (R := fun _ => True)
    | |- emits _ _ _ (for_each _ _ _) =>
        apply emits_for_each; [intros ? ? _|exact I]
    | |- emits _ _ _ (match ?x with _ => _ end) => destruct x
    | |- emits _ _ _ (if ?x then _ else _) => destruct x
    end.

(** What a trace has gained since an earlier state. *)
Lemma emits_trace {W A} (P : event -> Prop) Pl (Q : A -> Prop) (m : M W A) :
  emits P Pl Q m ->
  forall st, exists tr, trace (m st).2 = trace st ++ tr /\ Forall P tr.
Proof. intros Hm st. destruct (Hm st) as (Htr & _). exact Htr. Qed.

(** ** Names: folder keys, collection files, remote listings *)

Section Names.
Context {B : Builtins}.

Lemma elem_of_lstrip c s : c ∈ lstrip s -> c ∈ s.
Proof.
  induction s as [|x s IH]; cbn; [auto|].
  destruct (isspace x); [|auto]. intros H. apply elem_of_cons. right. auto.
Qed.

Lemma elem_of_rev {A} (x : A) l : x ∈ rev l <-> x ∈ l.
Proof. rewrite !list_elem_of_In. symmetry. apply in_rev. Qed.

Lemma elem_of_strip c s : c ∈ strip s -> c ∈ s.
Proof.
  unfold strip, rstrip. intros H.
  rewrite elem_of_rev in H. apply elem_of_lstrip in H.
  rewrite elem_of_rev in H. apply elem_of_lstrip, H.
Qed.

Lemma punct_not_space c :
  c ∈ py "._- " -> (c =? chr " ")%N = false -> c ∈ py "._-".
Proof.
  change (py "._- ") with [46; 95; 45; 32]%N.
  change (py "._-") with [46; 95; 45]%N. change (chr " ") with 32%N.
  rewrite !elem_of_cons, elem_of_nil, N.eqb_neq. tauto.
Qed.

Lemma underscore_punct : chr "_" ∈ py "._-".
Proof.
  change (py "._-") with [46; 95; 45]%N. change (chr "_") with 95%N.
  rewrite !elem_of_cons. tauto.
Qed.

(** X1.  The name part of a folder key, [safe] of [backup_tenant], only
    holds alphanumerics, dots, underscores and hyphens, whatever the name of
    the tenant: no path separator and no space gets into the name of the
    folder. *)
Theorem safe_is_path_safe oname :
  Forall key_char (safe oname)
  /\ chr "/" ∉ safe oname /\ chr " " ∉ safe oname.
Proof.
  assert (Hall : Forall key_char (safe oname)).
  { unfold safe, replace_char. apply list.Forall_forall. intros c Hc.
    apply list_elem_of_In, in_map_iff in Hc as (x & <- & Hx).
    apply list_elem_of_In, elem_of_strip in Hx.
    apply list_elem_of_In, in_map_iff in Hx as (y & <- & _).
    destruct (sanitize y =? chr " ")%N eqn:Hsp.
    - right. apply underscore_punct.
    - unfold sanitize in *.
      destruct (isalnum y || in_punct y) eqn:Hk.
      + apply orb_true_iff in Hk as [Hk|Hk]; [left; exact Hk|].
        right. unfold in_punct in Hk. apply bool_decide_eq_true in Hk.
        apply punct_not_space; assumption.
      + right. apply underscore_punct. }
  split; [exact Hall|].
  rewrite list.Forall_forall in Hall.
  split; intros Hin; apply Hall in Hin as [Hin|Hin];
    try (vm_compute in Hin; discriminate);
    revert Hin; change (py "._-") with [46; 95; 45]%N;
    rewrite !elem_of_cons, elem_of_nil; cbn; intuition discriminate.
Qed.

Lemma startswith_app pre s : startswith pre (pre ++ s) = true.
Proof.
  induction pre as [|p pre IH]; cbn; [destruct s; reflexivity|].
  rewrite N.eqb_refl. exact IH.
Qed.

Lemma endswith_app suf s : endswith suf (s ++ suf) = true.
Proof. unfold endswith. rewrite rev_app_distr. apply startswith_app. Qed.

Lemma remove_all_suffix col :
  chr "." ∉ col -> remove_all (py ".json") (col ++ py ".json") = col.
Proof.
  unfold remove_all. induction col as [|c col IH]; intros Hdot.
  - reflexivity.
  - rewrite not_elem_of_cons in Hdot. destruct Hdot as [Hc Hcol].
    change ((c :: col) ++ py ".json") with (c :: (col ++ py ".json")).
    cbn [remove_all_from].
    replace (startswith (py ".json") (c :: col ++ py ".json")) with false.
    + rewrite (IH Hcol). reflexivity.
    + symmetry. change (py ".json") with (chr "." :: py "json").
      cbn [startswith]. apply andb_false_iff. left.
      apply N.eqb_neq. congruence.
Qed.

End Names.

Section CollectionFiles.
Context {W : Type} {HW : World W} {B : Builtins}.

(** X2.  A collection is read back under the name it was written under.
    [backup_tenant] and stage 2 of [main] write the records of collection
    [col] to the file [col + ".json"]; [restore_from_zip], which derives the
    collection from the file name with [fname.replace(".json", "")], hands
    the records of that file to [restore_collection_data] for [col] again,
    provided [col] has no dot in it and is not ["summary"].  Every collection
    the backup exports is of that kind. *)
Theorem collection_file_round_trip cfg token dry_run :
  (forall total col data records,
     chr "." ∉ col -> col <> py "summary" ->
     dict_lookup (py "records") data = Some (JList records) ->
     records <> [] ->
     restore_file (W:=W) cfg token dry_run total
       (col ++ py ".json", File (Some (JDict data)))
     = (c <- restore_collection_data cfg token col records dry_run ;;
        log INFO (MsgCollectionTotals (created c) (updated c) (skipped c)
                    (errors_count c)) ;;;
        ret (add_counts total c)))
  /\ Forall (fun col => chr "." ∉ col /\ col <> py "summary")
       (TENANT_COLLECTIONS ++ GLOBAL_COLLECTIONS)
  /\ (forall col oid exported_at records,
        dict_lookup (py "records")
          (match tenant_envelope col oid exported_at records with
           | JDict data => data
           | _ => []
           end) = Some (JList records)).
Proof.
  split; [|split].
  - intros total col data records Hdot Hsum Hrec Hne.
    unfold restore_file.
    rewrite endswith_app. cbn [negb orb].
    case_bool_decide as Heq.
    { exfalso. apply Hsum.
      change (py "summary.json") with (py "summary" ++ py ".json") in Heq.
      apply app_inv_tail in Heq. exact Heq. }
    rewrite (remove_all_suffix col Hdot).
    unfold dict_get. rewrite Hrec. cbn [default from_option truthy].
    destruct records as [|r records]; [contradiction|].
    reflexivity.
  - repeat constructor; try discriminate;
      (intros Hin; vm_compute in Hin;
       repeat (apply elem_of_cons in Hin as [Hin|Hin]; [discriminate|]);
       apply elem_of_nil in Hin; exact Hin).
  - intros. reflexivity.
Qed.

End CollectionFiles.

(** The file [users.json] of the archive of a tenant: its record is handed
    over for the collection [users]. *)
Lemma collection_file_round_trip_witness :
  restore_file (W:=sim) sample_config (py "t0k3n") false no_counts
    (py "users.json", File (Some users_doc))
  = (c <- restore_collection_data sample_config (py "t0k3n") users
            [rec_id "a"] false ;;
     log INFO (MsgCollectionTotals (created c) (updated c) (skipped c)
                 (errors_count c)) ;;;
     ret (add_counts no_counts c)).
Proof.
  apply (proj1 (collection_file_round_trip (W:=sim) sample_config
                  (py "t0k3n") false)
           no_counts users
           [(py "collection", JStr users);
            (py "owner_id", JStr (py "o1abcdefgh"));
            (py "exported_at", JStr (py "2024-05-02T03:00:00"));
            (py "count", JInt 1);
            (py "records", JList [rec_id "a"])]
           [rec_id "a"]).
  - intros Hin. vm_compute in Hin.
    repeat (apply elem_of_cons in Hin as [Hin|Hin]; [discriminate|]).
    apply elem_of_nil in Hin. exact Hin.
  - discriminate.
  - reflexivity.
  - discriminate.
Defined.

Section Listings.
Context {W : Type} {HW : World W} {B : Builtins}.

Lemma words_from_words s : forall cur,
  Forall (fun c => isspace c = false) cur ->
  Forall is_word (words_from cur s).
Proof.
  assert (Hrev : forall c cur,
            Forall (fun c => isspace c = false) (c :: cur) ->
            is_word (rev (c :: cur))).
  { intros c cur Hcur. split.
    - cbn. destruct (rev cur); discriminate.
    - apply list.Forall_forall. intros x Hx. rewrite elem_of_rev in Hx.
      rewrite list.Forall_forall in Hcur. apply Hcur, Hx. }
  induction s as [|c s IH]; intros cur Hcur; cbn [words_from].
  - destruct cur as [|x cur]; [constructor|].
    constructor; [apply Hrev, Hcur|constructor].
  - destruct (isspace c) eqn:Hc.
    + destruct cur as [|x cur]; [apply IH; constructor|].
      constructor; [apply Hrev, Hcur|apply IH; constructor].
    + apply IH. constructor; assumption.
Qed.

Lemma last_elem_of {A} (l : list A) d : l <> [] -> List.last l d ∈ l.
Proof.
  induction l as [|x l IH]; [congruence|]. intros _.
  destruct l as [|y l]; [apply elem_of_cons; left; reflexivity|].
  change (List.last (x :: y :: l) d) with (List.last (y :: l) d).
  apply elem_of_cons. right. apply IH. discriminate.
Qed.

(** Leading and trailing white space does not change the fields of a
    line. *)
Lemma words_from_lstrip s : words_from [] (lstrip s) = words_from [] s.
Proof.
  induction s as [|c s IH]; [reflexivity|]. cbn [lstrip words_from].
  destruct (isspace c) eqn:Hc; [exact IH|].
  cbn [words_from]. rewrite Hc. reflexivity.
Qed.

Lemma lstrip_spaces s :
  exists sp, s = sp ++ lstrip s /\ Forall (fun c => isspace c = true) sp.
Proof.
  induction s as [|c s (sp & Hs & Hsp)]; [exists []; split; [reflexivity|constructor]|].
  cbn [lstrip]. destruct (isspace c) eqn:Hc.
  - exists (c :: sp). split; [cbn; f_equal; exact Hs|constructor; assumption].
  - exists []. split; [reflexivity|constructor].
Qed.

Lemma words_from_spaces sp :
  Forall (fun c => isspace c = true) sp ->
  forall cur,
    words_from cur sp = match cur with [] => [] | _ => [rev cur] end.
Proof.
  induction 1 as [|c sp Hc _ IH]; intros cur; [reflexivity|].
  cbn [words_from]. rewrite Hc.
  destruct cur; rewrite (IH []); reflexivity.
Qed.

Lemma words_from_app_spaces sp :
  Forall (fun c => isspace c = true) sp ->
  forall s cur, words_from cur (s ++ sp) = words_from cur s.
Proof.
  intros Hsp. induction s as [|c s IH]; intros cur.
  - cbn [app words_from]. apply words_from_spaces, Hsp.
  - cbn [app words_from]. rewrite !IH. reflexivity.
Qed.

Lemma split_ws_strip s : split_ws (strip s) = split_ws s.
Proof.
  unfold split_ws, strip. rewrite <- (words_from_lstrip s).
  generalize (lstrip s). intros t. unfold rstrip.
  destruct (lstrip_spaces (rev t)) as (sp & Ht & Hsp).
  assert (Ht' : t = rev (lstrip (rev t)) ++ rev sp).
  { rewrite <- rev_app_distr, <- Ht, rev_involutive. reflexivity. }
  rewrite Ht' at 2. symmetry. apply words_from_app_spaces.
  apply list.Forall_forall. intros c Hc. rewrite elem_of_rev in Hc.
  rewrite list.Forall_forall in Hsp. apply Hsp, Hc.
Qed.

(** What the loop of [rclone_list_dirs] keeps of one line. *)
Lemma dir_of_line line :
  match strip line with
  | [] => None
  | stripped =>
      let parts := split_ws stripped in
      if (5 <=? length parts)%nat then Some (List.last parts []) else None
  end
  = if dir_line line then Some (List.last (split_ws line) []) else None.
Proof.
  unfold dir_line. rewrite <- (split_ws_strip line).
  destruct (strip line) as [|c stripped]; reflexivity.
Qed.

Lemma dirs_of_lines lines :
  Forall2 last_field (List.filter dir_line lines)
    (omap (fun line =>
             match strip line with
             | [] => None
             | stripped =>
                 let parts := split_ws stripped in
                 if (5 <=? length parts)%nat
                 then Some (List.last parts [])
                 else None
             end) lines).
Proof.
  induction lines as [|line lines IH]; [constructor|].
  cbn [List.filter omap list_omap]. rewrite dir_of_line.
  destruct (dir_line line) eqn:Hline.
  - constructor; [|exact IH]. exists (removelast (split_ws line)).
    apply app_removelast_last. intros Hnil. unfold dir_line in Hline.
    rewrite Hnil in Hline. discriminate.
  - exact IH.
Qed.

(** X3.  [rclone_list_dirs] never raises and never fails.  It gives the
    empty list when [rclone lsd] cannot be run or exits with a status other
    than 0.  Otherwise it gives, in the order of the listing, one name for
    each line that has at least five fields, and that name is the last
    field of the line: a word, not empty and free of white space. *)
Theorem rclone_list_dirs_names cfg pth (st : state W) :
  let remote_path :=
    rclone_remote cfg ++ py ":" ++ gdrive_root cfg
    ++ (if bool_decide (pth = []) then [] else py "/" ++ pth) in
  let reply :=
    (handle (Subprocess [py "rclone"; py "lsd"; remote_path]) (world st)).1 in
  exists dirs st',
    rclone_list_dirs cfg pth st = (Ok dirs, st')
    /\ Forall is_word dirs
    /\ (succeeded reply = false -> dirs = [])
    /\ (forall stdout err,
          reply = Completed 0 stdout err ->
          Forall2 last_field
            (List.filter dir_line (split_on 10 (strip stdout))) dirs).
Proof.
  cbv zeta. unfold rclone_list_dirs, bind, do_call.
  destruct (handle _ (world st)) as [[e|rc out err] w']; cbn [fst snd].
  - do 2 eexists. split; [reflexivity|]. split; [constructor|].
    split; [reflexivity|]. intros ? ? [=].
  - unfold succeeded. destruct (rc =? 0) eqn:Hrc; cbn [negb].
    + do 2 eexists. split; [reflexivity|]. split; [|split; [discriminate|]].
      * apply list.Forall_forall. intros d Hd.
        apply list_elem_of_omap in Hd as (line & _ & Hline).
        destruct (strip line) as [|c stripped]; [discriminate|].
        destruct (5 <=? length (split_ws (c :: stripped)))%nat eqn:Hlen;
          [|discriminate].
        injection Hline as <-.
        assert (Hw : Forall is_word (split_ws (c :: stripped)))
          by (apply words_from_words; constructor).
        rewrite list.Forall_forall in Hw. apply Hw, last_elem_of.
        intros Hnil. rewrite Hnil in Hlen. discriminate.
      * intros stdout err' [= _ <- _]. apply dirs_of_lines.
    + do 2 eexists. split; [reflexivity|]. split; [constructor|].
      split; [reflexivity|]. intros ? ? [= -> _ _]. discriminate Hrc.
Qed.



End Listings.

(** ** Restore: what becomes of each record *)

Section Accounting.
Context {W : Type} {HW : World W} {B : Builtins}.
Variables (cfg : config) (token collection : pystr) (dry_run : bool).

Lemma restore_record_counts c fields (st : state W) :
  exists c' st',
    restore_record cfg token collection dry_run c (JDict fields) st
    = (Ok c', st')
    /\ tally c' = tally c + 1 /\ counts_le c c'.
Proof.
  unfold restore_record, tally, counts_le.
  destruct (negb (truthy _));
    [do 2 eexists; split; [reflexivity|cbn; lia]|].
  destruct dry_run; [do 2 eexists; split; [reflexivity|cbn; lia]|].
  unfold try_except, bind, do_call, response, log, ret, raise.
  repeat first
    [ match goal with
      | |- context [handle ?r ?w] =>
          destruct (handle r w) as [[|? ?] ?]; cbn [fst snd]
      end
    | match goal with
      | |- context [if ?b then _ else _] => destruct b; cbn [fst snd]
      end ];
    do 2 eexists; (split; [reflexivity|cbn; lia]).
Qed.

Lemma restore_records_counts records : forall c (st : state W),
  forallb is_dict records = true ->
  exists c' st',
    for_each (restore_record cfg token collection dry_run) c records st
    = (Ok c', st')
    /\ tally c' = tally c + Z.of_nat (length records) /\ counts_le c c'.
Proof.
  induction records as [|r records IH]; intros c st Hall.
  - exists c, st. split; [reflexivity|]. unfold counts_le. cbn. lia.
  - cbn [forallb] in Hall. apply andb_true_iff in Hall as [Hr Hall].
    destruct r; try discriminate.
    destruct (restore_record_counts c d st) as (c1 & st1 & H1 & Ht1 & Hle1).
    destruct (IH c1 st1 Hall) as (c2 & st2 & H2 & Ht2 & Hle2).
    exists c2, st2. cbn [for_each]. unfold bind. rewrite H1.
    split; [exact H2|]. unfold counts_le in *.
    cbn [length]. lia.
Qed.

Lemma restore_records_not_dict records : forall c (st : state W),
  forallb is_dict records = false ->
  (for_each (restore_record cfg token collection dry_run) c records st).1
  = Raise AttributeError.
Proof.
  induction records as [|r records IH]; intros c st Hall; [discriminate|].
  cbn [forallb] in Hall. cbn [for_each]. unfold bind.
  destruct r as [| | | | | |d];
    try reflexivity.
  cbn [is_dict andb] in Hall.
  destruct (restore_record_counts c d st) as (c1 & st1 & H1 & _).
  rewrite H1. apply IH, Hall.
Qed.

(** X5.  [restore_collection_data] accounts for every record exactly once.
    When the records are all JSON objects it returns, whatever the store
    answers and whether the run is a dry run or not, and its four counters,
    none of them negative, add up to the number of records: a record is
    created, updated, skipped, or counted as an error.  A record that is no
    object ends the call with [AttributeError]. *)
Theorem restore_accounts_for_every_record records (st : state W) :
  let run := restore_collection_data cfg token collection records dry_run st in
  (forallb is_dict records = true ->
   exists c, run.1 = Ok c
     /\ tally c = Z.of_nat (length records)
     /\ counts_le no_counts c)
  /\ (forallb is_dict records = false -> run.1 = Raise AttributeError).
Proof.
  cbv zeta. unfold restore_collection_data. split.
  - intros Hall.
    destruct (restore_records_counts records no_counts st Hall)
      as (c & st' & Hrun & Ht & Hle).
    exists c. rewrite Hrun. split; [reflexivity|]. split; [|exact Hle].
    rewrite Ht. reflexivity.
  - apply restore_records_not_dict.
Qed.

End Accounting.

(** Three users restored into a store that holds the second one: one
    without identity is skipped, one is updated, one is created. *)
Lemma restore_accounts_for_every_record_witness :
  exists c,
    (restore_collection_data sample_config (py "t0k3n") users
       [JDict [(py "name", JStr (py "x"))]; rec_id "b"; rec_id "c"] false
       (initial (sim_store [(users, [rec_id "b"])]))).1 = Ok c
    /\ tally c = 3 /\ counts_le no_counts c.
Proof.
  apply (proj1 (restore_accounts_for_every_record
                  sample_config (py "t0k3n") users false
                  [JDict [(py "name", JStr (py "x"))]; rec_id "b"; rec_id "c"]
                  (initial (sim_store [(users, [rec_id "b"])])))).
  reflexivity.
Defined.

Lemma dict_lookup_strip_system k fields :
  k ∈ SYSTEM_FIELDS -> dict_lookup k (strip_system_fields fields) = None.
Proof.
  intros Hk. unfold dict_lookup, strip_system_fields.
  induction fields as [|[k' v] fields IH]; [reflexivity|]. cbn [List.filter].
  cbn [fst]. case_bool_decide as Hin; cbn [negb]; [exact IH|].
  cbn [List.find fst]. case_bool_decide as Heq; [|exact IH].
  subst k'. contradiction.
Qed.

Lemma dict_lookup_strip_other k fields :
  k ∉ SYSTEM_FIELDS ->
  dict_lookup k (strip_system_fields fields) = dict_lookup k fields.
Proof.
  intros Hk. unfold dict_lookup, strip_system_fields.
  induction fields as [|[k' v] fields IH]; [reflexivity|]. cbn [List.filter].
  cbn [fst]. case_bool_decide as Hin; cbn [negb List.find fst].
  - case_bool_decide as Heq; [subst k'; contradiction|exact IH].
  - case_bool_decide as Heq; [reflexivity|exact IH].
Qed.

Section OwnFields.
Context {W : Type} {HW : World W}.
Variables (cfg : config) (token collection : pystr).
Variable records : list json.

Lemma emits_restore_record dry_run c r :
  r ∈ records ->
  emits (W:=W) (restore_request collection records) (fun _ => True)
    (fun _ => True) (restore_record cfg token collection dry_run c r).
Proof.
  intros Hr. unfold restore_record.
  destruct r as [| | | | | |fields]; try apply emits_raise.
  destruct (negb _); [apply emits_ret; exact I|].
  destruct dry_run; [apply emits_ret; exact I|].
  assert (Hresp : forall r, emits (W:=W) (restore_request collection records)
                              (fun _ => True) (fun _ => True) (response r)).
  { intros [|s b]; [apply emits_raise|apply emits_ret; exact I]. }
  apply emits_try_except.
  - eapply emits_bind with (Q := fun _ => True).
    { eapply emits_bind with (Q := fun _ => True); [|intros; apply Hresp].
      apply emits_call; [|auto]. intros ?. cbn. split; [reflexivity|].
      exists fields. auto. }
    intros check _. cbv zeta. destruct (check.1 =? 200).
    + eapply emits_bind with (Q := fun _ => True).
      { eapply emits_bind with (Q := fun _ => True); [|intros; apply Hresp].
        apply emits_call; [|auto]. intros ?. cbn. split; [reflexivity|].
        exists fields. auto. }
      intros resp _. destruct (resp.1 =? 200); [apply emits_ret; exact I|].
      eapply emits_bind with (Q := fun _ => True);
        [apply emits_log; exact I|]. intros; apply emits_ret; exact I.
    + eapply emits_bind with (Q := fun _ => True).
      { eapply emits_bind with (Q := fun _ => True); [|intros; apply Hresp].
        apply emits_call; [|auto]. intros ?. cbn. split; [reflexivity|].
        exists fields. auto. }
      intros resp _. destruct (resp.1 =? 200); [apply emits_ret; exact I|].
      eapply emits_bind with (Q := fun _ => True);
        [apply emits_log; exact I|]. intros; apply emits_ret; exact I.
  - intros e. eapply emits_bind with (Q := fun _ => True);
      [apply emits_log; exact I|]. intros; apply emits_ret; exact I.
Qed.

Lemma emits_restore_records dry_run l : forall c,
  (forall r, r ∈ l -> r ∈ records) ->
  emits (W:=W) (restore_request collection records) (fun _ => True)
    (fun _ => True) (for_each (restore_record cfg token collection dry_run) c l).
Proof.
  induction l as [|r l IH]; intros c Hl; cbn [for_each].
  - apply emits_ret. exact I.
  - eapply emits_bind with (Q := fun _ => True).
    + apply emits_restore_record, Hl, list_elem_of_here.
    + intros c' _. apply IH. intros x Hx. apply Hl, list_elem_of_further, Hx.
Qed.

(** X6.  Every request [restore_collection_data] makes is for one of the
    records it was given, in the collection it was given: the look-up of the
    identity of the record, an update of that identity, or a creation.  The
    body of an update is the record without the fields PocketBase manages
    ([id], [created], [updated], [collectionId], [collectionName],
    [expand]); the body of a creation is the same with the identity put
    back.  So the time stamps of a backup are never written back, every
    other field is sent as it is, and nothing else is requested. *)
Theorem restore_sends_own_fields dry_run :
  (forall st : state W,
     exists tr',
       trace (restore_collection_data cfg token collection records dry_run
                st).2 = trace st ++ tr'
       /\ Forall (restore_request collection records) tr')
  /\ (forall fields k,
        (k ∈ SYSTEM_FIELDS ->
         dict_lookup k (strip_system_fields fields) = None)
        /\ (k ∉ SYSTEM_FIELDS ->
            dict_lookup k (strip_system_fields fields) = dict_lookup k fields))
  /\ (forall fields rid k,
        dict_lookup k (dict_set (py "id") rid (strip_system_fields fields))
        = if bool_decide (k = py "id") then Some rid
          else dict_lookup k (strip_system_fields fields)).
Proof.
  split; [|split].
  - intros st. unfold restore_collection_data.
    destruct (emits_restore_records dry_run records no_counts (fun r H => H) st)
      as ((tr' & Htr & HP) & _). exists tr'. auto.
  - intros fields k. split.
    + apply dict_lookup_strip_system.
    + apply dict_lookup_strip_other.
  - intros fields rid k. case_bool_decide as Hk.
    + subst k. apply dict_lookup_set_eq.
    + apply dict_lookup_set_ne. congruence.
Qed.

End OwnFields.

(** ** Restore: attachments, clean-up, confirmation *)

Section Inert.
Context {W : Type} {HW : World W}.

Lemma inert_ret {A} (Q : A -> Prop) a : Q a -> inert (W:=W) Q (ret a).
Proof. intros HQ st. exists a, st. auto. Qed.

Lemma inert_log (Q : unit -> Prop) lvl msg :
  Q tt -> inert (W:=W) Q (log lvl msg).
Proof. intros HQ st. do 2 eexists. split; [reflexivity|]. auto. Qed.

Lemma inert_bind {A C} (Q : A -> Prop) (R : C -> Prop) (m : M W A)
    (k : A -> M W C) :
  inert Q m -> (forall a, Q a -> inert R (k a)) -> inert R (bind m k).
Proof.
  intros Hm Hk st. destruct (Hm st) as (a & st1 & Hrun & Hw & Ht & Ha).
  destruct (Hk a Ha st1) as (b & st2 & Hrun2 & Hw2 & Ht2 & Hb).
  exists b, st2. unfold bind. rewrite Hrun. split; [exact Hrun2|].
  split; [congruence|]. split; [congruence|exact Hb].
Qed.

Lemma inert_for_each {A S} (I : S -> Prop) (f : S -> A -> M W S) l :
  (forall s x, I s -> inert I (f s x)) ->
  forall s, I s -> inert I (for_each f s l).
Proof.
  intros Hf. induction l as [|x l IH]; intros s Hs; cbn [for_each].
  - apply inert_ret, Hs.
  - eapply inert_bind; [apply Hf, Hs|]. intros s' Hs'. apply IH, Hs'.
Qed.

(** X7.  [restore_files] only counts.  Whether the run is a dry run or not,
    it goes through the [_files] folder of an extracted archive without a
    single call, so the attachments of a backup are never sent back to
    PocketBase; it returns their number, and raises only when [_files] is a
    regular file. *)
Theorem restore_files_is_inert cfg token extract_dir dry_run (st : state W) :
  match entry (py "_files") extract_dir with
  | Some (File _) =>
      restore_files cfg token extract_dir dry_run st = (Raise OSError, st)
  | _ =>
      exists n st',
        restore_files cfg token extract_dir dry_run st = (Ok n, st')
        /\ world st' = world st /\ trace st' = trace st /\ 0 <= n
  end.
Proof.
  unfold restore_files.
  destruct (entry _ extract_dir) as [[doc|collections]|].
  - reflexivity.
  - assert (H : inert (W:=W) (fun n => 0 <= n)
                  (count <- for_each (fun count col =>
                     match col.2 with
                     | File _ => ret count
                     | Dir record_dirs =>
                         for_each (fun count rec =>
                           match rec.2 with
                           | File _ => ret count
                           | Dir files =>
                               for_each (fun count (f : pystr * node) =>
                                 if dry_run then
                                   log INFO (MsgWouldUpload col.1 rec.1 f.1) ;;;
                                   ret (count + 1)
                                 else ret (count + 1)) count files
                           end) count record_dirs
                     end) 0 collections ;;
                   (if negb (count =? 0) then log INFO (MsgFilesFound count)
                    else ret tt) ;;;
                   ret count)).
    { eapply inert_bind with (Q := fun n => 0 <= n).
      - apply inert_for_each; [|lia]. intros n col Hn.
        destruct (col.2); [apply inert_ret, Hn|].
        apply inert_for_each; [|exact Hn]. intros n1 rec Hn1.
        destruct (rec.2); [apply inert_ret, Hn1|].
        apply inert_for_each; [|exact Hn1]. intros n2 f Hn2.
        destruct dry_run; [|apply inert_ret; lia].
        eapply inert_bind with (Q := fun _ => True);
          [apply inert_log; exact I|]. intros _ _. apply inert_ret. lia.
      - intros n Hn. eapply inert_bind with (Q := fun _ => True).
        + destruct (negb _); [apply inert_log|apply inert_ret]; exact I.
        + intros _ _. apply inert_ret, Hn. }
    destruct (H st) as (n & st' & Hrun & Hw & Ht & Hn).
    exists n, st'. cbn [listdir]. unfold bind at 1. cbn [ret].
    split; [exact Hrun|]. auto.
  - exists 0, st. split; [reflexivity|]. split; [reflexivity|].
    split; [reflexivity|lia].
Qed.

End Inert.

Section CleanUp.
Context {W : Type} {HW : World W} {B : Builtins}.

Lemma emits_any_restore_record cfg token collection dry_run c r :
  emits (W:=W) (fun _ => True) (fun _ => True) (fun _ => True)
    (restore_record cfg token collection dry_run c r).
Proof. unfold restore_record, response. emits_walk ltac:(exact I). Qed.

Lemma emits_any_restore_extracted cfg zip_path token dry_run extract_dir :
  emits (W:=W) (fun _ => True) (fun _ => True) (fun _ => True)
    (restore_extracted cfg zip_path token dry_run extract_dir).
Proof.
  unfold restore_extracted, restore_file, restore_files, py_sized, listdir,
    restore_collection_data.
  emits_walk ltac:(exact I). all: apply emits_any_restore_record.
Qed.

Lemma restore_from_zip_made cfg zip_path token dry_run (st : state W) now w1 w2 :
  handle (Now (py "%Y%m%d_%H%M%S")) (world st) = (now, w1) ->
  handle (Makedirs [py "/tmp/ifix_restore_" ++ now]) w1 = (FsDone, w2) ->
  restore_from_zip cfg zip_path token dry_run st
  = try_finally
      (restore_extracted cfg zip_path token dry_run
         [py "/tmp/ifix_restore_" ++ now])
      (do_call (RemoveTree [py "/tmp/ifix_restore_" ++ now]))
      (State w2
         (trace st ++ [Event (Now (py "%Y%m%d_%H%M%S")) now;
                       Event (Makedirs [py "/tmp/ifix_restore_" ++ now]) FsDone])
         (output st)).
Proof.
  intros Hnow Hmk. unfold restore_from_zip, bind, do_call.
  rewrite Hnow. cbn [world trace output]. rewrite Hmk.
  rewrite <- app_assoc. reflexivity.
Qed.

(** X8.  [restore_from_zip] always removes the directory it extracted to.
    Once that directory has been made, and whatever comes next (an archive
    that cannot be opened, a file that is not JSON, an answer of the store),
    the last thing the call does is to remove it; and the result of the
    call, the exception included, is that of the work on the extracted
    files. *)
Theorem restore_from_zip_removes_extraction cfg zip_path token dry_run
    (st : state W) :
  let clock := handle (Now (py "%Y%m%d_%H%M%S")) (world st) in
  let extract_dir := [py "/tmp/ifix_restore_" ++ clock.1] in
  let made := handle (Makedirs extract_dir) clock.2 in
  let extracting :=
    State made.2
      (trace st ++ [Event (Now (py "%Y%m%d_%H%M%S")) clock.1;
                    Event (Makedirs extract_dir) FsDone])
      (output st) in
  let run := restore_from_zip cfg zip_path token dry_run st in
  made.1 = FsDone ->
  run.1 <> Stuck ->
  run.1 = (restore_extracted cfg zip_path token dry_run extract_dir
             extracting).1
  /\ exists tr,
       trace run.2 = trace st ++ tr ++ [Event (RemoveTree extract_dir) tt].
Proof.
  cbv zeta.
  destruct (handle (Now _) (world st)) as [now w1] eqn:Hnow.
  cbn [fst snd].
  destruct (handle (Makedirs _) w1) as [made w2] eqn:Hmk.
  cbn [fst snd]. intros ->.
  rewrite (restore_from_zip_made _ _ _ _ _ _ _ _ Hnow Hmk).
  unfold try_finally, do_call.
  pose proof (emits_trace _ _ _ _
                (emits_any_restore_extracted cfg zip_path token dry_run
                   [py "/tmp/ifix_restore_" ++ now])
                (State w2
                   (trace st ++ [Event (Now (py "%Y%m%d_%H%M%S")) now;
                                 Event (Makedirs [py "/tmp/ifix_restore_" ++ now])
                                   FsDone]) (output st)))
    as (tr1 & Htr1 & _).
  destruct (restore_extracted _ _ _ _ _ _) as [[[]|e|] st3];
    cbn [fst snd] in *; [| |intros Hrun; congruence];
    destruct (handle (RemoveTree _) (world st3)) as [[] w4];
    cbn [fst snd trace]; intros _; (split; [reflexivity|]);
    exists ([Event (Now (py "%Y%m%d_%H%M%S")) now;
             Event (Makedirs [py "/tmp/ifix_restore_" ++ now]) FsDone] ++ tr1);
    rewrite Htr1; cbn [trace]; rewrite <- !app_assoc; reflexivity.
Qed.

End CleanUp.

(** An archive whose [users.json] cannot be decoded: the restore raises, and
    the directory is removed all the same. *)
Lemma restore_from_zip_removes_extraction_witness :
  (restore_from_zip sample_config [py "/tmp/broken.zip"]
     (py "t0k3n") false (initial broken_archive)).1 = Raise JSONDecodeError
  /\ exists tr,
       trace (restore_from_zip sample_config
                [py "/tmp/broken.zip"] (py "t0k3n") false
                (initial broken_archive)).2
       = [] ++ tr
         ++ [Event (RemoveTree [py "/tmp/ifix_restore_2024-05-01_0300"]) tt].
Proof.
  destruct (restore_from_zip_removes_extraction
              sample_config [py "/tmp/broken.zip"] (py "t0k3n") false
              (initial broken_archive)) as [Hrun Htr].
  - vm_compute. reflexivity.
  - vm_compute. discriminate.
  - split; [|exact Htr]. rewrite Hrun. vm_compute. reflexivity.
Defined.

Section Confirmation.
Context {W : Type} {HW : World W} {B : Builtins}.

(** X9.  [restore_fulldb] does nothing without the word [RESTORE].  Outside
    a dry run, once the newest full backup of the remote has been found, the
    operator is asked; on any other answer the call logs that it was
    cancelled and returns: nothing is downloaded and nothing is uploaded to
    PocketBase. *)
Theorem restore_fulldb_needs_confirmation cfg token (st st1 : state W)
    files latest others :
  let prompt := py "Ketik 'RESTORE' untuk melanjutkan: " in
  let typed := handle (Input prompt) (world st1) in
  rclone_list_files cfg (py "_fulldb") st = (Ok files, st1) ->
  List.filter is_zip files = latest :: others ->
  typed.1 <> py "RESTORE" ->
  restore_fulldb cfg token false st
  = (Ok tt,
     State typed.2 (trace st1 ++ [Event (Input prompt) typed.1])
       (output st1 ++ [(INFO, MsgCancelled)])).
Proof.
  cbv zeta. intros Hfiles Hzips Htyped.
  unfold restore_fulldb. unfold bind at 1. rewrite Hfiles, Hzips.
  unfold bind at 1, do_call at 1.
  destruct (handle (Input _) (world st1)) as [typed w2]. cbn [fst snd] in *.
  rewrite bool_decide_eq_false_2 by exact Htyped. reflexivity.
Qed.

(** X10.  A tenant filter that no folder of the remote matches (the empty
    listing of a failed [rclone lsd] included) makes [restore_latest] log
    that the tenant was not found and return at once: no folder is listed,
    nothing is downloaded, and the download directory is not touched. *)
Theorem restore_latest_without_match cfg token dry_run tf dirs
    (st st0 : state W) :
  rclone_list_dirs cfg [] st = (Ok dirs, st0) ->
  tf <> [] ->
  Forall (fun d => contains tf d = false) dirs ->
  restore_latest cfg token (Some tf) dry_run st
  = (Ok tt,
     State (world st0) (trace st0)
       (output st0 ++ [(ERROR, MsgTenantNotFound tf)])).
Proof.
  intros Hdirs Htf Hnone. unfold restore_latest. unfold bind at 1.
  rewrite Hdirs. cbv zeta.
  rewrite bool_decide_eq_false_2 by exact Htf.
  cbn [negb default from_option]. unfold id.
  replace (List.filter (fun d => contains tf d) dirs) with (@nil pystr).
  - reflexivity.
  - symmetry. clear Hdirs. induction Hnone as [|d dirs Hd _ IH]; [reflexivity|].
    cbn [List.filter]. rewrite Hd. exact IH.
Qed.

End Confirmation.

(** The operator types [no]: the full backup of the remote is listed, and
    that is all. *)
Lemma restore_fulldb_needs_confirmation_witness :
  restore_fulldb (B:=ascii_builtins) sample_config (py "t0k3n") false
    (initial (Operator (py "no") fulldb_remote))
  = (Ok tt,
     State (Operator (py "no") fulldb_remote)
       [Event (Subprocess [py "rclone"; py "ls";
                           py "gdrive:iFix-Pro-Backups/_fulldb"])
          (Completed 0 (py "  4096 auto_20240502_0300.zip" ++ newline) []);
        Event (Input (py "Ketik 'RESTORE' untuk melanjutkan: ")) (py "no")]
       [(INFO, MsgCancelled)]).
Proof.
  refine (restore_fulldb_needs_confirmation (B:=ascii_builtins) sample_config
            (py "t0k3n") (initial (Operator (py "no") fulldb_remote))
            (State (Operator (py "no") fulldb_remote)
               [Event (Subprocess [py "rclone"; py "ls";
                                   py "gdrive:iFix-Pro-Backups/_fulldb"])
                  (Completed 0 (py "  4096 auto_20240502_0300.zip" ++ newline)
                     [])] [])
            [RemoteFile 4096 (py "auto_20240502_0300.zip")]
            (RemoteFile 4096 (py "auto_20240502_0300.zip")) [] _ _ _).
  - vm_compute. reflexivity.
  - vm_compute. reflexivity.
  - vm_compute. discriminate.
Defined.

(** No folder of the remote has [Zzz] in its name. *)
Lemma restore_latest_without_match_witness :
  exists st0,
    restore_latest (B:=ascii_builtins) sample_config (py "t0k3n")
      (Some (py "Zzz")) false (initial remote_backups)
    = (Ok tt,
       State (world st0) (trace st0)
         (output st0 ++ [(ERROR, MsgTenantNotFound (py "Zzz"))])).
Proof.
  eexists.
  eapply (restore_latest_without_match (B:=ascii_builtins) sample_config
            (py "t0k3n") false (py "Zzz")
            [py "Toko_A_o1abcdef"; py "_global"; py "Toko_B_o2abcdef"]
            (initial remote_backups)).
  - vm_compute. reflexivity.
  - discriminate.
  - repeat constructor.
Defined.

(** ** Backup: uploads and notifications *)

Section UploadBound.
Context {W : Type} {HW : World W}.
Variables (max_retries delay : Z) (local_path dest : pystr).
Let argv := rclone_copy_argv local_path dest.



End UploadBound.



(** A delay of -10 seconds and a copy that fails: the first wait raises. *)
Example upload_gdrive_negative_delay :
  (upload_gdrive negative_delay (py "/tmp/b.zip") (py "root/T_1")
     (initial two_failures)).1 = Raise ValueError.
Proof. vm_compute. reflexivity. Qed.

(** A delay of five thousand million seconds, a clock that takes at most
    9223372036 seconds and a copy that fails twice: the first wait elapses,
    the second, twice as long, is refused. *)
Example upload_gdrive_refused_wait :
  let run :=
    upload_gdrive (with_retry_delay 5000000000) (py "/tmp/b.zip")
      (py "root/T_1") (initial (ShortClock 9223372036 two_failures)) in
  run.1 = Raise OverflowError
  /\ slept (trace run.2) = [5000000000]
  /\ length (processes (trace run.2)) = 2%nat.
Proof. vm_compute. repeat split; reflexivity. Qed.

Section Webhook.
Context {W : Type} {HW : World W} {B : Builtins}.

(** X12.  [send_webhook] never raises and never fails the run.  It posts
    nothing when no URL is configured or when the kind of notification is
    switched off; otherwise it posts the Discord payload, then, if that was
    not accepted, the Slack payload, then the generic one: between one and
    three posts, in that order, and it stops at the first of the Discord
    and Slack posts that is accepted. *)
Theorem send_webhook_policy cfg is_error (st : state W) :
  exists st' tr (n : nat),
    send_webhook cfg is_error st = (Ok tt, st')
    /\ trace st' = trace st ++ tr
    /\ webhook_of <$> tr
       = Some <$> take n [(Discord, is_error); (Slack, is_error);
                          (Generic, is_error)]
    /\ (if muted cfg is_error then n = 0%nat else (1 <= n <= 3)%nat)
    /\ accepted_post <$> take 2 tr
       = take (Nat.min n 2) [bool_decide (n = 1%nat); bool_decide (n = 2%nat)].
Proof.
  unfold send_webhook, muted.
  destruct (bool_decide (strip (webhook_url cfg) = [])); cbn [orb].
  { exists st, [], 0%nat. rewrite app_nil_r. auto. }
  destruct (negb is_error && negb (webhook_on_success cfg)); cbn [orb].
  { exists st, [], 0%nat. rewrite app_nil_r. auto. }
  destruct (is_error && negb (webhook_on_failure cfg)); cbn [orb].
  { exists st, [], 0%nat. rewrite app_nil_r. auto. }
  cbv zeta. unfold bind at 1, do_call at 1.
  destruct (handle (PostWebhook Discord is_error) (world st)) as [r1 w1].
  match goal with |- context [if ?c then _ else _] => destruct c eqn:H1 end.
  { do 2 eexists. exists 1%nat. unfold log. cbn [world trace output].
    split; [reflexivity|]. split; [reflexivity|]. split; [reflexivity|].
    split; [lia|]. cbn. rewrite H1. reflexivity. }
  unfold bind at 1, do_call at 1. cbn [world trace output].
  destruct (handle (PostWebhook Slack is_error) w1) as [r2 w2].
  match goal with |- context [if ?c then _ else _] => destruct c eqn:H2 end.
  { do 2 eexists. exists 2%nat. unfold log. cbn [world trace output].
    split; [reflexivity|]. rewrite <- app_assoc.
    split; [reflexivity|]. split; [reflexivity|].
    split; [lia|]. cbn. rewrite H1, H2. reflexivity. }
  unfold bind at 1, do_call at 1. cbn [world trace output].
  destruct (handle (PostWebhook Generic is_error) w2) as [[|s3 b3] w3];
    do 2 eexists; exists 3%nat; unfold log, ret; cbn [world trace output];
    (split; [reflexivity|]); rewrite <- !app_assoc;
    (split; [reflexivity|]); (split; [reflexivity|]);
    (split; [lia|]); cbn; rewrite H1, H2; reflexivity.
Qed.

End Webhook.

(** ** Computations that never leave the model *)

Section Ends.
Context {W : Type} {HW : World W}.
Variable E : exn -> Prop.
Variable P : event -> Prop.

Lemma ends_ret {A} (Q : A -> Prop) a : Q a -> ends (W:=W) E P Q (ret a).
Proof. intros HQ st. exists []. cbn. rewrite app_nil_r. auto. Qed.

Lemma ends_raise {A} (Q : A -> Prop) e : E e -> ends (W:=W) E P Q (raise e).
Proof. intros HE st. exists []. cbn. rewrite app_nil_r. auto. Qed.

Lemma ends_log (Q : unit -> Prop) lvl msg :
  Q tt -> ends (W:=W) E P Q (log lvl msg).
Proof. intros HQ st. exists []. cbn. rewrite app_nil_r. auto. Qed.

Lemma ends_call {T} (Q : T -> Prop) (c : call T) :
  (forall r, P (Event c r)) -> (forall r, Q r) ->
  ends (W:=W) E P Q (do_call c).
Proof.
  intros Hc HQ st. unfold do_call.
  destruct (handle c (world st)) as [r w']. cbn.
  eexists. split; [reflexivity|]. auto.
Qed.

Lemma ends_bind {A C} (Q : A -> Prop) (R : C -> Prop) (m : M W A)
    (k : A -> M W C) :
  ends E P Q m -> (forall a, Q a -> ends E P R (k a)) ->
  ends E P R (bind m k).
Proof.
  intros Hm Hk st. unfold bind.
  destruct (Hm st) as (tr1 & Htr1 & HP1 & HQ).
  destruct (m st) as [[a|e|] st1]; cbn [fst snd] in *.
  - destruct (Hk a HQ st1) as (tr2 & Htr2 & HP2 & HR).
    exists (tr1 ++ tr2). rewrite Htr2, Htr1, <- app_assoc.
    split; [reflexivity|]. split; [apply Forall_app; auto|exact HR].
  - exists tr1. auto.
  - contradiction.
Qed.

Lemma ends_weaken {A} (E' : exn -> Prop) (Q Q' : A -> Prop) (m : M W A) :
  ends E' P Q m -> (forall e, E' e -> E e) -> (forall a, Q a -> Q' a) ->
  ends E P Q' m.
Proof.
  intros Hm HE HQ st. destruct (Hm st) as (tr & Htr & HP & Hres).
  exists tr. split; [exact Htr|]. split; [exact HP|].
  destruct (m st).1; auto.
Qed.

Lemma ends_try_except {A} (E' : exn -> Prop) (Q : A -> Prop) (m : M W A)
    (handler : exn -> M W A) :
  ends E' P Q m -> (forall e, E' e -> ends E P Q (handler e)) ->
  ends E P Q (try_except m handler).
Proof.
  intros Hm Hh st. unfold try_except.
  destruct (Hm st) as (tr1 & Htr1 & HP1 & HQ).
  destruct (m st) as [[a|e|] st1]; cbn [fst snd] in *.
  - exists tr1. auto.
  - destruct (Hh e HQ st1) as (tr2 & Htr2 & HP2 & HR).
    exists (tr1 ++ tr2). rewrite Htr2, Htr1, <- app_assoc.
    split; [reflexivity|]. split; [apply Forall_app; auto|exact HR].
  - contradiction.
Qed.

Lemma ends_for_each {A S} (I : S -> Prop) (f : S -> A -> M W S) l :
  (forall s x, I s -> ends E P I (f s x)) ->
  forall s, I s -> ends E P I (for_each f s l).
Proof.
  intros Hf. induction l as [|x l IH]; intros s Hs; cbn [for_each].
  - apply ends_ret, Hs.
  - eapply ends_bind; [apply Hf, Hs|]. intros s' Hs'. apply IH, Hs'.
Qed.

End Ends.

(** What a computation that never raises comes to. *)
Lemma ends_returns {W A} (P : event -> Prop) (Q : A -> Prop) (m : M W A) :
  ends (fun _ => False) P Q m ->
  forall st, exists a st' tr,
    m st = (Ok a, st') /\ trace st' = trace st ++ tr /\ Forall P tr /\ Q a.
Proof.
  intros Hm st. destruct (Hm st) as (tr & Htr & HP & Hres).
  destruct (m st) as [[a|e|] st'] eqn:Hrun; cbn [fst snd] in *;
    try contradiction.
  exists a, st', tr. auto.
Qed.

(** A walk through a program, for judgements [ends E P (fun _ => True) m]
    where [E] holds of every exception. *)
Ltac ends_walk leaf :=
  repeat
    lazymatch goal with
    | |- ends _ _ _ (ret _) => apply ends_ret; exact I
    | |- ends _ _ _ (raise _) => apply ends_raise; exact I
    | |- ends _ _ _ (log _ _) => apply ends_log; exact I
    | |- ends _ _ _ (do_call _) =>
        apply ends_call; [intros ?; solve [leaf] | intros ?; exact I]
    | |- ends _ _ _ (bind _ _) =>
        eapply ends_bind with (Q := fun _ => True); [|intros ? _]
    | |- ends _ _ _ (try_except _ _) =>
        eapply ends_try_except with (E' := fun _ => True); [|intros ? _]
    | |- ends _ _ _ (for_each _ _ _) =>
        apply ends_for_each; [intros ? ? _|exact I]
    | |- ends _ _ _ (match ?x with _ => _ end) => destruct x
    | |- ends _ _ _ (if ?x then _ else _) => destruct x
    end.

Section StageOne.
Context {W : Type} {HW : World W}.



(** With a delay of -10 seconds and an upload whose first attempt fails,
    stage 1 raises and [main] with it. *)
Example full_db_stage_negative_delay :
  (full_db_stage negative_delay (py "tok") (initial two_failures)).1
  = Raise ValueError.
Proof. vm_compute. reflexivity. Qed.

End StageOne.

(** ** Backup: what is fetched for a tenant *)

Section TenantScope.
Context {W : Type} {HW : World W} {B : Builtins}.
Variables (fuel : nat) (cfg : config) (token oid : pystr).

Lemma emits_pb_get_all_from (P : event -> Prop) collection filter batch n :
  (forall page r, P (Event (ListRecords collection filter page batch) r)) ->
  forall page acc,
    emits (W:=W) P (fun _ => True) (fun _ => True)
      (pb_get_all_from n collection filter batch page acc).
Proof.
  intros HP. induction n as [|n IH]; intros page acc; cbn [pb_get_all_from].
  - apply emits_stuck.
  - emits_walk ltac:(first [exact I | apply HP]). apply IH.
Qed.

Lemma emits_scoped_files col records dest_dir :
  emits (W:=W) (scoped_to oid) (fun _ => True) (fun _ => True)
    (backup_files_for_records cfg token col records dest_dir).
Proof.
  unfold backup_files_for_records, backup_files_for_record, pb_download_file.
  emits_walk ltac:(exact I).
Qed.

Lemma emits_backup_collection tenant_dir acc col :
  emits (W:=W) (scoped_to oid) (fun _ => True)
    (fun acc' => acc'.1.*1 = acc.1.*1 ++ [col])
    (backup_collection fuel cfg token oid tenant_dir acc col).
Proof.
  unfold backup_collection.
  eapply emits_bind with (Q := fun _ => True).
  { apply emits_pb_get_all_from. intros page r. split; reflexivity. }
  intros records _.
  eapply emits_bind with (Q := fun _ => True);
    [apply emits_call; [intros ?; exact I|auto]|]. intros exported_at _.
  eapply emits_bind with (Q := fun _ => True).
  { unfold fs. emits_walk ltac:(exact I). }
  intros _ _. cbv zeta. destruct (_ && _).
  - eapply emits_bind with (Q := fun _ => True);
      [apply emits_scoped_files|].
    intros fc _. apply emits_ret. cbn [fst]. rewrite fmap_app. reflexivity.
  - apply emits_ret. cbn [fst]. rewrite fmap_app. reflexivity.
Qed.

Lemma emits_backup_collections tenant_dir cols : forall acc,
  emits (W:=W) (scoped_to oid) (fun _ => True)
    (fun acc' => acc'.1.*1 = acc.1.*1 ++ cols)
    (for_each (backup_collection fuel cfg token oid tenant_dir) acc cols).
Proof.
  induction cols as [|col cols IH]; intros acc; cbn [for_each].
  - apply emits_ret. rewrite app_nil_r. reflexivity.
  - eapply emits_bind; [apply emits_backup_collection|].
    intros acc1 Hacc1. eapply emits_weaken; [apply IH|].
    intros acc2 Hacc2. cbn beta in *. rewrite Hacc2, Hacc1, <- app_assoc.
    reflexivity.
Qed.

(** X14.  The backup of a tenant only reads what belongs to the tenant.
    Every listing [backup_tenant] requests carries the filter
    [ownerId = "<id of the owner>"], 200 records to a page; and when the
    call returns, its summary names every collection of
    [TENANT_COLLECTIONS] once, in order, the archive is
    [backup_<date>.zip] in the folder of the tenant, and that folder is the
    folder key of the tenant. *)
Theorem backup_tenant_scope fields date_str (st : state W) :
  dict_lookup (py "id") fields = Some (JStr oid) ->
  let run := backup_tenant fuel cfg token (JDict fields) date_str st in
  (exists tr, trace run.2 = trace st ++ tr /\ Forall (scoped_to oid) tr)
  /\ (forall b, run.1 = Ok b ->
        (collections b.2).*1 = TENANT_COLLECTIONS
        /\ b.1.2 = py "backup_" ++ date_str ++ py ".zip"
        /\ b.1.1.2 = [backup_tmp_dir cfg; b.1.1.1; b.1.2]
        /\ exists oname,
             display_name fields (JStr oid) = JStr oname
             /\ b.1.1.1 = folder_key oname oid).
Proof.
  intros Hid. cbv zeta.
  assert (H : emits (W:=W) (scoped_to oid) (fun _ => True)
                (fun b =>
                   (collections b.2).*1 = TENANT_COLLECTIONS
                   /\ b.1.2 = py "backup_" ++ date_str ++ py ".zip"
                   /\ b.1.1.2 = [backup_tmp_dir cfg; b.1.1.1; b.1.2]
                   /\ exists oname,
                        display_name fields (JStr oid) = JStr oname
                        /\ b.1.1.1 = folder_key oname oid)
                (backup_tenant fuel cfg token (JDict fields) date_str)).
  { cbn [backup_tenant]. rewrite Hid.
    eapply emits_bind with (Q := fun v => v = display_name fields (JStr oid)).
    { intros st0. rewrite (owner_name_ok fields (JStr oid) st0 Hid).
      cbn. repeat split.
      - exists []. rewrite app_nil_r. auto.
      - exists []. rewrite app_nil_r. auto.
      - intros a [= <-]. reflexivity. }
    intros oname ->.
    destruct (display_name fields (JStr oid)) as [| | | |name_str| |];
      try apply emits_raise; try apply emits_stuck.
    eapply emits_bind with (Q := fun _ => True).
    { unfold fs. emits_walk ltac:(exact I). }
    intros _ _.
    eapply emits_bind; [apply emits_backup_collections|]. intros acc Hacc.
    eapply emits_bind with (Q := fun _ => True).
    { unfold fs. emits_walk ltac:(exact I). }
    intros _ _.
    eapply emits_bind with (Q := fun _ => True).
    { unfold fs. emits_walk ltac:(exact I). }
    intros _ _. apply emits_ret. cbn [fst snd collections].
    split; [exact Hacc|]. split; [reflexivity|]. split; [reflexivity|].
    eexists. split; reflexivity. }
  destruct (H st) as ((tr & Htr & HP) & _ & HQ).
  split; [exists tr; auto|exact HQ].
Qed.

End TenantScope.

(** The tenant [Toko A] of an empty store: 25 listings, each with the
    filter of the owner. *)
Lemma backup_tenant_scope_witness :
  (exists tr,
     trace (backup_tenant (B:=ascii_builtins) 1 sample_config (py "t0k3n")
              (owner "o1abcdefgh" "Toko A") (py "2024-05-01_0300")
              (initial (sim_store []))).2 = [] ++ tr
     /\ Forall (scoped_to (py "o1abcdefgh")) tr)
  /\ exists b,
       (backup_tenant (B:=ascii_builtins) 1 sample_config (py "t0k3n")
          (owner "o1abcdefgh" "Toko A") (py "2024-05-01_0300")
          (initial (sim_store []))).1 = Ok b
       /\ (collections b.2).*1 = TENANT_COLLECTIONS
       /\ b.1.1.1 = py "Toko_A_o1abcdef".
Proof.
  destruct (backup_tenant_scope (B:=ascii_builtins) 1 sample_config
              (py "t0k3n") (py "o1abcdefgh")
              [(py "id", JStr (py "o1abcdefgh"));
               (py "name", JStr (py "Toko A"))]
              (py "2024-05-01_0300") (initial (sim_store [])) eq_refl)
    as [Htr Hres].
  split; [exact Htr|].
  eexists. split; [vm_compute; reflexivity|].
  match goal with
  | |- (collections ?b.2).*1 = _ /\ _ =>
      destruct (Hres b ltac:(vm_compute; reflexivity))
        as (Hcols & _ & _ & oname & _ & _)
  end.
  split; [exact Hcols|]. vm_compute. reflexivity.
Defined.

(** ** Backup: the checks of [main] and the stages *)

Section Checks.
Context {W : Type} {HW : World W} {B : Builtins}.
Variables (fuel : nat) (cfg : config).

Lemma send_webhook_posts is_error (st : state W) :
  exists st' tr,
    send_webhook cfg is_error st = (Ok tt, st')
    /\ trace st' = trace st ++ tr /\ only_webhooks tr.
Proof.
  assert (H : ends (W:=W) (fun _ => False)
                (fun e => is_Some (webhook_of e)) (fun _ => True)
                (send_webhook cfg is_error)).
  { unfold send_webhook. cbv zeta.
    ends_walk ltac:(eexists; reflexivity). }
  destruct (ends_returns _ _ _ H st) as ([] & st' & tr & Hrun & Htr & HP & _).
  exists st', tr. auto.
Qed.

Lemma check_rclone_trace (st st1 : state W) ok :
  check_rclone cfg st = (Ok ok, st1) ->
  exists r,
    trace st1 = trace st ++ [Event (Subprocess [py "rclone"; py "listremotes"]) r].
Proof.
  unfold check_rclone, bind, do_call, log, ret, raise.
  destruct (handle _ (world st)) as [[e|rc out err] w1].
  - destruct e; intros [= <- <-]; eexists; reflexivity.
  - destruct (contains _ out); intros [= <- <-]; eexists; reflexivity.
Qed.

Lemma pb_admin_login_trace (st st1 : state W) res :
  pb_admin_login cfg st = (res, st1) ->
  exists r,
    trace st1
    = trace st ++ [Event (AdminLogin (pb_admin_email cfg) (pb_admin_pass cfg)) r]
    /\ output st1 = output st.
Proof.
  unfold pb_admin_login, bind, do_call, ret, raise, stuck.
  destruct (handle _ (world st)) as [[|s b] w1].
  - intros [= <- <-]. eexists. split; reflexivity.
  - destruct (raises_for_status s); [intros [= <- <-]; eexists; split; reflexivity|].
    destruct b as [[| | | | | |d]|];
      try (intros [= <- <-]; eexists; split; reflexivity).
    destruct (dict_lookup _ d) as [[| | | | | |]|];
      intros [= <- <-]; eexists; split; reflexivity.
Qed.

(** X15.  [main] does no work before its checks have passed.  Without
    credentials in the configuration it exits with status 1 without a
    single call.  When [rclone] is missing or its remote is not configured,
    it exits with status 1 after [rclone listremotes] and the failure
    notification; when the login is refused, after those two checks and the
    notification.  In neither case is a record fetched, a file written or
    an upload started. *)
Theorem main_stops_before_any_work (st : state W) :
  let no_credentials :=
    bool_decide (pb_admin_email cfg = [])
    || bool_decide (pb_admin_pass cfg = []) in
  let listremotes := Subprocess [py "rclone"; py "listremotes"] in
  let login := AdminLogin (pb_admin_email cfg) (pb_admin_pass cfg) in
  (no_credentials = true -> main fuel (Some cfg) st = (Ok 1, st))
  /\ (no_credentials = false ->
      forall st1, check_rclone cfg st = (Ok false, st1) ->
      exists st' r tr,
        main fuel (Some cfg) st = (Ok 1, st')
        /\ trace st' = trace st ++ Event listremotes r :: tr
        /\ only_webhooks tr)
  /\ (no_credentials = false ->
      forall st1 st2 e,
        check_rclone cfg st = (Ok true, st1) ->
        pb_admin_login cfg st1 = (Raise e, st2) ->
        exists st' r1 r2 tr,
          main fuel (Some cfg) st = (Ok 1, st')
          /\ trace st' = trace st ++ Event listremotes r1 :: Event login r2 :: tr
          /\ only_webhooks tr).
Proof.
  cbv zeta. split; [|split].
  - intros Hcred. cbn [main]. rewrite Hcred. reflexivity.
  - intros Hcred st1 Hcheck. cbn [main]. rewrite Hcred.
    unfold bind at 1. rewrite Hcheck. cbn [negb].
    destruct (check_rclone_trace _ _ _ Hcheck) as [r Hr].
    destruct (send_webhook_posts true st1) as (st' & tr & Hw & Htr & HP).
    unfold bind. rewrite Hw. exists st', r, tr.
    split; [reflexivity|]. split; [|exact HP].
    rewrite Htr, Hr, <- app_assoc. reflexivity.
  - intros Hcred st1 st2 e Hcheck Hlogin. cbn [main]. rewrite Hcred.
    unfold bind at 1. rewrite Hcheck. cbn [negb].
    unfold bind at 1. unfold try_except, bind at 1. rewrite Hlogin.
    destruct (check_rclone_trace _ _ _ Hcheck) as [r1 Hr1].
    destruct (pb_admin_login_trace _ _ _ Hlogin) as (r2 & Hr2 & _).
    destruct (send_webhook_posts true
                (State (world st2) (trace st2)
                   (output st2 ++ [(ERROR, MsgLoginFailed)])))
      as (st' & tr & Hw & Htr & HP).
    unfold bind, log. cbn [world trace output]. rewrite Hw.
    exists st', r1, r2, tr. split; [reflexivity|]. split; [|exact HP].
    rewrite Htr. cbn [trace]. rewrite Hr2, Hr1, <- !app_assoc. reflexivity.
Qed.

End Checks.

(** A machine without [rclone], and a PocketBase that refuses the login:
    one call, respectively two, and status 1 (no webhook is configured). *)
Lemma main_stops_before_any_work_witness :
  (exists st' r tr,
     main (B:=ascii_builtins) 1 (Some sample_config) (initial no_rclone)
     = (Ok 1, st')
     /\ trace st'
        = [] ++ Event (Subprocess [py "rclone"; py "listremotes"]) r :: tr
     /\ only_webhooks tr)
  /\ (exists st' r1 r2 tr,
        main (B:=ascii_builtins) 1 (Some sample_config)
          (initial login_refusing) = (Ok 1, st')
        /\ trace st'
           = [] ++ Event (Subprocess [py "rclone"; py "listremotes"]) r1
                :: Event (AdminLogin (py "admin@ifix.test") (py "s3cret")) r2
                :: tr
        /\ only_webhooks tr).
Proof.
  split.
  - destruct (main_stops_before_any_work (B:=ascii_builtins) 1 sample_config
                (initial no_rclone)) as (_ & Hrclone & _).
    eapply Hrclone; [reflexivity|]. vm_compute. reflexivity.
  - destruct (main_stops_before_any_work (B:=ascii_builtins) 1 sample_config
                (initial login_refusing)) as (_ & _ & Hlogin).
    eapply Hlogin; [reflexivity| |]; vm_compute; reflexivity.
Defined.

Section Stages.
Context {W : Type} {HW : World W} {B : Builtins}.
Variables (fuel : nat) (cfg : config).

(** X16.  A failure to list the owners is not an error of the run.  When the
    first page of [owners] does not come (the collection is reported
    missing, the request fails, the answer is an error or cannot be read),
    stage 3 of [main] backs up no tenant and leaves [errors] as it found
    them, so the exit status of the run is that of stages 1 and 2 alone. *)
Theorem owners_fetch_failure_is_silent token date_str errors (st : state W) :
  let r := (handle (ListRecords (py "owners") None 1 200) (world st)).1 in
  (0 < fuel)%nat ->
  (exists body, r = Response 404 body) \/ fetch_error r ->
  exists st',
    tenant_stage fuel cfg token date_str errors st = (Ok (errors, []), st').
Proof.
  cbv zeta. intros Hfuel Hr. unfold tenant_stage, pb_get_all.
  destruct st as [w tr out].
  destruct (pb_get_all_from_full_pages (py "owners") (filter_param []) 200
              w 1 [] w (full_pages_nil _ _ _ w 1) fuel [] tr out Hfuel)
    as [H404 Herr].
  cbn [world] in *. unfold bind.
  destruct Hr as [Hr|Hr].
  - destruct (H404 Hr) as (st' & -> & _). exists st'. reflexivity.
  - destruct (Herr Hr) as (st' & -> & _). exists st'. reflexivity.
Qed.

(** X17.  The stages of [main] before the tenant loop are not protected.
    An exception that escapes stages 1 to 3 ends [main] with that
    exception, in the state the stage left: no clean-up, no summary, no
    notification, and no exit status set by [main].  Such is the case when
    the folder
    of the global collections cannot be made: stage 2 raises [OSError]
    before anything is fetched. *)
Theorem stage_exception_escapes_main :
  (bool_decide (pb_admin_email cfg = []) || bool_decide (pb_admin_pass cfg = [])
   = false ->
   forall (st st1 st2 st3 : state W) token e,
     check_rclone cfg st = (Ok true, st1) ->
     pb_admin_login cfg st1 = (Ok token, st2) ->
     stages fuel cfg token st2 = (Raise e, st3) ->
     main fuel (Some cfg) st = (Raise e, st3))
  /\ (forall token date_str errors (st : state W),
        let global_dir := [backup_tmp_dir cfg; py "_global"; date_str] in
        (handle (Makedirs global_dir) (world st)).1 = FsError ->
        global_stage fuel cfg token date_str errors st
        = (Raise OSError,
           State (handle (Makedirs global_dir) (world st)).2
             (trace st ++ [Event (Makedirs global_dir) FsError])
             (output st))).
Proof.
  split.
  - intros Hcred st st1 st2 st3 token e Hcheck Hlogin Hstages.
    rewrite (main_after_checks fuel cfg Hcred st st1 st2 token Hcheck Hlogin).
    unfold bind at 1. rewrite Hstages. reflexivity.
  - intros token date_str errors st. cbv zeta. intros Hfail.
    unfold global_stage, fs. unfold bind at 1. unfold bind at 1, do_call at 1.
    destruct (handle (Makedirs _) (world st)) as [r w1]. cbn [fst snd] in *.
    subst r. reflexivity.
Qed.

End Stages.

(** Every first page times out: no tenant is backed up, and the run still
    ends with status 0. *)
Lemma owners_fetch_failure_is_silent_witness :
  (exists st',
     tenant_stage (B:=ascii_builtins) 1 sample_config (py "t0k3n")
       (py "2024-05-01_0300") [] (initial owners_unreachable)
     = (Ok ([], []), st'))
  /\ (main (B:=ascii_builtins) 1 (Some sample_config)
        (initial owners_unreachable)).1 = Ok 0.
Proof.
  split.
  - apply (owners_fetch_failure_is_silent (B:=ascii_builtins) 1 sample_config
             (py "t0k3n") (py "2024-05-01_0300") [] (initial owners_unreachable)).
    + repeat constructor.
    + right. vm_compute. constructor.
  - vm_compute. reflexivity.
Defined.

(** The folder [_global] cannot be written: [main] ends with [OSError]. *)
Lemma stage_exception_escapes_main_witness :
  exists st3,
    main (B:=ascii_builtins) 1 (Some sample_config) (initial global_read_only)
    = (Raise OSError, st3).
Proof.
  eexists.
  eapply (proj1 (stage_exception_escapes_main (B:=ascii_builtins) 1
                   sample_config) eq_refl (initial global_read_only)).
  - vm_compute. reflexivity.
  - vm_compute. reflexivity.
  - vm_compute. reflexivity.
Defined.

(** ** Restore: the command line *)

Section RestoreCommand.
Context {W : Type} {HW : World W} {B : Builtins}.




End RestoreCommand.


Section RestoreExit.
Context {W : Type} {HW : World W} {B : Builtins}.

(** X19.  The exit status of [restore_ifix.py] tells whether the restore
    could start, not how it went.  Without [--list], [main] ends with status
    1 when the configuration file is missing, when it has no credentials,
    when the login fails, and when the file given with [--restore-file] does
    not exist; in every other case a run that comes to its end has status
    0, whatever the number of records that could not be restored.  A file
    given with [--restore-file] is restored whatever the other options. *)
Theorem restore_exit_status a cfg (st : state W) :
  arg_list a = false ->
  let no_credentials :=
    bool_decide (pb_admin_email cfg = [])
    || bool_decide (pb_admin_pass cfg = []) in
  restore_main a None st = (Ok 1, st)
  /\ (no_credentials = true -> restore_main a (Some cfg) st = (Ok 1, st))
  /\ (no_credentials = false ->
      forall st1 e,
        pb_admin_login cfg st = (Raise e, st1) ->
        restore_main a (Some cfg) st
        = (Ok 1, State (world st1) (trace st1)
                   (output st1 ++ [(ERROR, MsgLoginFailed)])))
  /\ (no_credentials = false ->
      forall st1 token,
        pb_admin_login cfg st = (Ok token, st1) ->
        (forall f, restore_file_of a = Some f ->
           let found := handle (PathExists [f]) (world st1) in
           restore_main a (Some cfg) st
           = (if found.1
              then restore_from_zip cfg [f] token (arg_dry_run a) ;;; ret 0
              else ret 1)
               (State found.2 (trace st1 ++ [Event (PathExists [f]) found.1])
                  (output st1)))
        /\ (forall code st',
              restore_main a (Some cfg) st = (Ok code, st') ->
              (code = 0 \/ code = 1)
              /\ (code = 1 <->
                  exists f, restore_file_of a = Some f
                    /\ (handle (PathExists [f]) (world st1)).1 = false))).
Proof.
  intros Hlist. cbv zeta. split; [reflexivity|].
  split; [|split].
  - intros Hcred. cbn [restore_main]. rewrite Hlist, Hcred. reflexivity.
  - intros Hcred st1 e Hlogin. cbn [restore_main]. rewrite Hlist, Hcred.
    unfold bind at 1. unfold try_except, bind at 1. rewrite Hlogin.
    reflexivity.
  - intros Hcred st1 token Hlogin.
    assert (Hmain : restore_main a (Some cfg) st
              = match arg_restore_file a with
                | Some (c :: f) =>
                    present <- do_call (PathExists [c :: f]) ;;
                    if present : bool
                    then restore_from_zip cfg [c :: f] token (arg_dry_run a) ;;;
                         ret 0
                    else ret 1
                | _ =>
                    if arg_restore_db a
                    then restore_fulldb cfg token (arg_dry_run a) ;;; ret 0
                    else
                      match arg_restore_tenant a with
                      | Some (c :: t) =>
                          restore_latest cfg token (Some (c :: t))
                            (arg_dry_run a) ;;; ret 0
                      | _ =>
                          if arg_restore_latest a
                          then restore_latest cfg token None (arg_dry_run a) ;;;
                               ret 0
                          else ret 0
                      end
                end st1).
    { cbn [restore_main]. rewrite Hlist, Hcred.
      unfold bind at 1. unfold try_except, bind at 1. rewrite Hlogin.
      reflexivity. }
    assert (Hzero : forall (m : M W unit) code st',
              (m ;;; ret 0) st1 = (Ok code, st') -> code = 0).
    { intros m code st'. unfold bind, ret. cbn beta.
      destruct (m st1) as [[[]|?|] ?]; intros Heq; congruence. }
    unfold restore_file_of. split.
    + intros f Hf. rewrite Hmain.
      destruct (arg_restore_file a) as [[|c f']|]; try discriminate.
      injection Hf as <-. cbv zeta. unfold bind at 1, do_call at 1.
      destruct (handle (PathExists _) (world st1)) as [present w2].
      reflexivity.
    + intros code st'. rewrite Hmain.
      destruct (arg_restore_file a) as [[|c f]|].
      * assert (Hcode : code = 0 -> (code = 0 \/ code = 1)
                        /\ (code = 1 <-> exists f0 : pystr,
                              None = Some f0
                              /\ (handle (PathExists [f0]) (world st1)).1
                                 = false)).
        { intros ->. split; [auto|]. split; [discriminate|].
          intros (f0 & Hf0 & _). discriminate. }
        destruct (arg_restore_db a); [intros H; apply Hcode, (Hzero _ _ _ H)|].
        destruct (arg_restore_tenant a) as [[|c t]|];
          try (intros H; apply Hcode, (Hzero _ _ _ H)).
        all: destruct (arg_restore_latest a);
          [intros H; apply Hcode, (Hzero _ _ _ H)
          |intros [= <- _]; apply Hcode; reflexivity].
      * unfold bind at 1, do_call at 1.
        destruct (handle (PathExists [c :: f]) (world st1))
          as [present w2] eqn:Hfound.
        cbn [fst]. destruct present.
        -- intros H.
           assert (code = 0).
           { revert H. unfold bind, ret. cbn beta.
             destruct (restore_from_zip _ _ _ _ _) as [[[]|?|] ?];
               intros Heq; congruence. }
           subst code. split; [auto|]. split; [discriminate|].
           intros (f0 & [= <-] & Hf0). rewrite Hfound in Hf0. discriminate.
        -- intros [= <- _]. split; [auto|]. split; [|reflexivity].
           intros _. exists (c :: f). rewrite Hfound. split; reflexivity.
      * assert (Hcode : code = 0 -> (code = 0 \/ code = 1)
                        /\ (code = 1 <-> exists f0 : pystr,
                              None = Some f0
                              /\ (handle (PathExists [f0]) (world st1)).1
                                 = false)).
        { intros ->. split; [auto|]. split; [discriminate|].
          intros (f0 & Hf0 & _). discriminate. }
        destruct (arg_restore_db a); [intros H; apply Hcode, (Hzero _ _ _ H)|].
        destruct (arg_restore_tenant a) as [[|c t]|];
          try (intros H; apply Hcode, (Hzero _ _ _ H)).
        all: destruct (arg_restore_latest a);
          [intros H; apply Hcode, (Hzero _ _ _ H)
          |intros [= <- _]; apply Hcode; reflexivity].
Qed.

End RestoreExit.

(** [--restore-file] with a path that does not exist, next to
    [--restore-latest]: status 1, and nothing is restored. *)
Lemma restore_exit_status_witness :
  exists st',
    restore_main (B:=ascii_builtins)
      (Args false true None (Some (py "/tmp/nowhere.zip")) false false)
      (Some sample_config) (initial two_archives) = (Ok 1, st').
Proof.
  destruct (restore_exit_status (B:=ascii_builtins)
              (Args false true None (Some (py "/tmp/nowhere.zip")) false false)
              sample_config (initial two_archives) eq_refl)
    as (_ & _ & _ & Hlogged).
  destruct (Hlogged eq_refl
              (pb_admin_login sample_config (initial two_archives)).2
              (py "t0k3n")) as [Hfile _].
  - vm_compute. reflexivity.
  - rewrite (Hfile (py "/tmp/nowhere.zip") eq_refl).
    eexists. vm_compute. reflexivity.
Defined.

(** ** Backup: the clean-up of the working directory *)

Lemma disk_induction (P : disk -> Prop) :
  (forall mtime removable, P (OnDisk mtime removable)) ->
  (forall removable entries,
     Forall (fun e => P e.2) entries -> P (Folder removable entries)) ->
  forall t, P t.
Proof.
  intros Hfile Hdir. fix IH 1. intros [mtime removable|removable entries].
  - apply Hfile.
  - apply Hdir. induction entries as [|e entries IHentries].
    + constructor.
    + constructor; [apply IH|exact IHentries].
Qed.

Section CleanUpOld.
Variable cutoff : Z.

Lemma cleanup_old_folder removable entries :
  cleanup_old cutoff (Folder removable entries)
  = (Folder removable (List.filter (kept cutoff) (List.map (cleaned cutoff) entries)),
     foldr Z.add 0 (List.map (fun e => (cleanup_old cutoff e.2).2) entries)
     + Z.of_nat (length (List.filter (fun e => expired cutoff e.2)
                           (List.map (cleaned cutoff) entries)))).
Proof. cbn [cleanup_old]. cbv zeta. rewrite !map_map. reflexivity. Qed.

Lemma cleanup_old_file t mtime removable :
  (cleanup_old cutoff t).1 = OnDisk mtime removable ->
  t = OnDisk mtime removable.
Proof. destruct t; [cbn; auto|]. rewrite cleanup_old_folder. discriminate. Qed.

Lemma cleanup_old_folder_file mtime removable :
  (cleanup_old cutoff (OnDisk mtime removable)).1 = OnDisk mtime removable.
Proof. reflexivity. Qed.

Lemma files_of_folder removable entries :
  files_of (Folder removable entries) = flat_map under entries.
Proof. reflexivity. Qed.

Lemma entry_count e :
  retention cutoff e.2 ->
  (cleanup_old cutoff e.2).2
  + (if expired cutoff (cleanup_old cutoff e.2).1 then 1 else 0)
  = Z.of_nat (length (under e))
    - Z.of_nat (if kept cutoff (cleaned cutoff e)
                then length (under (cleaned cutoff e)) else 0)
  /\ ((if kept cutoff (cleaned cutoff e)
       then length (under (cleaned cutoff e)) else 0)
      <= length (under e))%nat.
Proof.
  intros (_ & _ & Hn & Hle). unfold under, kept, cleaned. cbn [fst snd].
  rewrite !length_map.
  destruct (cleanup_old cutoff e.2).1 as [m r|r [|x es]] eqn:Hc.
  - pose proof (cleanup_old_file _ _ _ Hc) as He2. rewrite He2 in *.
    cbn in Hn, Hle |- *. destruct ((m <? cutoff) && r); cbn; split; lia.
  - cbn in Hn, Hle |- *. destruct r; cbn; split; lia.
  - cbn [expired deserted negb andb]. split; lia.
Qed.

Lemma cleanup_old_retention t : retention cutoff t.
Proof.
  induction t as [mtime removable|removable entries IH] using disk_induction.
  - unfold retention. cbn. repeat split; auto; lia.
  - unfold retention. rewrite cleanup_old_folder. cbn [fst snd].
    rewrite !files_of_folder. split; [|split].
    + intros pm Hpm. apply in_flat_map in Hpm as (e' & He' & Hpm).
      apply filter_In in He' as [He' _].
      apply in_map_iff in He' as (e & <- & He).
      rewrite List.Forall_forall in IH. destruct (IH e He) as (Hsub & _).
      unfold under, cleaned in Hpm. cbn [fst snd] in Hpm.
      apply in_map_iff in Hpm as (qm & <- & Hqm).
      apply in_flat_map. exists e. split; [exact He|].
      unfold under. apply in_map_iff. exists qm. split; [reflexivity|].
      apply Hsub, Hqm.
    + intros pm Hpm Hrecent. apply in_flat_map in Hpm as (e & He & Hpm).
      rewrite List.Forall_forall in IH. destruct (IH e He) as (_ & Hkeep & _).
      unfold under in Hpm. apply in_map_iff in Hpm as (qm & <- & Hqm).
      cbn [snd] in Hrecent. specialize (Hkeep qm Hqm Hrecent).
      apply in_flat_map. exists (cleaned cutoff e). split.
      * apply filter_In. split; [apply in_map, He|].
        unfold kept, cleaned. cbn [snd].
        destruct (cleanup_old cutoff e.2).1 as [m r|r [|x es]] eqn:Hc.
        -- apply cleanup_old_file in Hc. rewrite Hc in Hqm. cbn in Hqm.
           destruct Hqm as [<-|[]]. cbn [snd] in Hrecent. cbn.
           rewrite (proj2 (Z.ltb_ge _ _) Hrecent). reflexivity.
        -- cbn in Hkeep. contradiction.
        -- reflexivity.
      * unfold under, cleaned. cbn [fst snd]. apply in_map_iff.
        exists qm. auto.
    + induction IH as [|e entries He _ IHentries].
      * cbn. split; lia.
      * destruct IHentries as [Hn Hle].
        destruct (entry_count e He) as [Hne Hlee].
        cbn [List.map flat_map foldr List.filter].
        change (expired cutoff (cleaned cutoff e).2)
          with (expired cutoff (cleanup_old cutoff e.2).1) in *.
        destruct (kept cutoff (cleaned cutoff e));
          destruct (expired cutoff (cleanup_old cutoff e.2).1);
          cbn [flat_map length]; rewrite ?length_app; split; lia.
Qed.

Lemma cleanup_old_swept t : swept cutoff t.
Proof.
  induction t as [mtime removable|removable entries IH] using disk_induction.
  - intros Hall. cbn. auto.
  - intros Hall. cbn [all_removable] in Hall.
    apply andb_true_iff in Hall as [Hr Hall].
    rewrite cleanup_old_folder. cbn [fst]. rewrite files_of_folder.
    cbn [tidy all_removable]. rewrite Hr. cbn [andb].
    rewrite forallb_forall in Hall. rewrite List.Forall_forall in IH.
    assert (Hentry : forall e',
              In e' (List.filter (kept cutoff)
                       (List.map (cleaned cutoff) entries)) ->
              (negb (empty_folder e'.2) && tidy e'.2 = true)
              /\ all_removable e'.2 = true
              /\ Forall (fun pm => cutoff <= pm.2) (under e')).
    { intros e' He'. apply filter_In in He' as [He' Hkept].
      apply in_map_iff in He' as (e & <- & He).
      destruct (IH e He (Hall e He)) as (Htidy & Hrem & Hrecent).
      unfold kept, cleaned, under in *. cbn [fst snd] in *.
      rewrite Htidy, Hrem.
      destruct (cleanup_old cutoff e.2).1 as [m r|r [|x es]] eqn:Hc.
      - apply cleanup_old_file in Hc. cbn in Hrem. subst r.
        cbn in Hkept. rewrite ?andb_true_r in Hkept.
        apply negb_true_iff, Z.ltb_ge in Hkept.
        split; [reflexivity|]. split; [reflexivity|].
        cbn. repeat constructor. exact Hkept.
      - cbn in Hrem. rewrite andb_true_r in Hrem. subst r.
        cbn in Hkept. discriminate.
      - split; [reflexivity|]. split; [reflexivity|].
        destruct e.2 as [|r0 es0] eqn:He2;
          [rewrite cleanup_old_folder_file in Hc; discriminate|].
        apply List.Forall_forall. intros pm Hpm.
        apply in_map_iff in Hpm as (qm & <- & Hqm). cbn [snd].
        rewrite List.Forall_forall in Hrecent. apply Hrecent, Hqm. }
    split; [|split].
    + apply forallb_forall. intros e' He'. apply (Hentry e' He').
    + apply forallb_forall. intros e' He'. apply (Hentry e' He').
    + apply List.Forall_forall. intros pm Hpm.
      apply in_flat_map in Hpm as (e' & He' & Hpm).
      destruct (Hentry e' He') as (_ & _ & Hrecent).
      rewrite List.Forall_forall in Hrecent. apply Hrecent, Hpm.
Qed.
End CleanUpOld.

(** X20.  [cleanup_old] never touches a recent file.  Whatever the tree
    under the working directory and whatever the operating system refuses,
    every file whose modification time is not before the cut-off is still
    there afterwards, at its path; no file appears or moves; and the number
    the function counts is exactly the number of files that are gone. *)
Theorem cleanup_old_keeps_recent cutoff tmp_dir :
  let after := (cleanup_old cutoff tmp_dir).1 in
  let n := (cleanup_old cutoff tmp_dir).2 in
  (forall pm, pm ∈ files_of after -> pm ∈ files_of tmp_dir)
  /\ (forall pm, pm ∈ files_of tmp_dir -> cutoff <= pm.2 ->
        pm ∈ files_of after)
  /\ n = Z.of_nat (length (files_of tmp_dir))
         - Z.of_nat (length (files_of after))
  /\ 0 <= n.
Proof.
  cbv zeta.
  destruct (cleanup_old_retention cutoff tmp_dir) as (Hsub & Hkeep & Hn & Hle).
  split; [|split; [|split]].
  - intros pm. rewrite !list_elem_of_In. apply Hsub.
  - intros pm. rewrite !list_elem_of_In. apply Hkeep.
  - exact Hn.
  - lia.
Qed.

(** X21.  When the operating system refuses nothing, [cleanup_old] leaves
    no file older than the cut-off under the working directory and no empty
    directory below it: a directory emptied by the removal of its files is
    removed in the same run, and so is the directory above it if that leaves
    it empty. *)
Theorem cleanup_old_sweeps cutoff removable entries :
  all_removable (Folder removable entries) = true ->
  let after := (cleanup_old cutoff (Folder removable entries)).1 in
  Forall (fun pm => cutoff <= pm.2) (files_of after) /\ tidy after = true.
Proof.
  intros Hall. cbv zeta.
  destruct (cleanup_old_swept cutoff (Folder removable entries) Hall)
    as (Htidy & _ & Hrecent).
  split; assumption.
Qed.

(** With the cut-off at 500, only the recent archive of the first tenant
    stays; the folder of the second tenant goes with its three old files. *)
Lemma cleanup_old_sweeps_witness :
  Forall (fun pm => 500 <= pm.2) (files_of (cleanup_old 500 working_dir).1)
  /\ tidy (cleanup_old 500 working_dir).1 = true.
Proof.
  apply (cleanup_old_sweeps 500 true
           [(py "Toko_A_o1abcdef",
             Folder true [(py "backup_2024-04-01_0300.zip", OnDisk 100 true);
                          (py "backup_2024-05-01_0300.zip", OnDisk 900 true)]);
            (py "Toko_B_o2abcdef",
             Folder true [(py "2024-04-01_0300",
                           Folder true [(py "users.json", OnDisk 100 true)]);
                          (py "backup_2024-04-01_0300.zip", OnDisk 100 true)])]).
  reflexivity.
Defined.

Example cleanup_old_working_dir :
  cleanup_old 500 working_dir
  = (Folder true
       [(py "Toko_A_o1abcdef",
         Folder true [(py "backup_2024-05-01_0300.zip", OnDisk 900 true)])],
     3).
Proof. vm_compute. reflexivity. Qed.

(** ** Backup: the pages of a listing, and a failed upload *)

Section Pages.
Context {W : Type} {HW : World W}.
Variables (collection : pystr) (filter : option pystr) (batch : Z).

Lemma pb_get_all_from_pages fuel : forall page acc (st : state W),
  exists tr (k : nat),
    trace (pb_get_all_from fuel collection filter batch page acc st).2
    = trace st ++ tr
    /\ Forall (lists collection filter batch) tr
    /\ page_of <$> tr = Some <$> py_range page (page + Z.of_nat k)
    /\ (k <= fuel)%nat
    /\ ((pb_get_all_from fuel collection filter batch page acc st).1 = Stuck ->
        k = fuel).
Proof.
  induction fuel as [|fuel IH]; intros page acc st.
  - exists [], 0%nat. cbn. rewrite app_nil_r, Z.add_0_r.
    unfold py_range. rewrite Z.sub_diag. cbn. auto.
  - destruct (handle (ListRecords collection filter page batch) (world st))
      as [r w1] eqn:Hh.
    assert (Hstep :
      pb_get_all_from (S fuel) collection filter batch page acc st
      = match r with
        | TransportError =>
            log ERROR (MsgFetchError collection page) ;;; ret acc
        | Response status body =>
            if status =? 404 then
              log WARN (MsgCollectionMissing collection) ;;; ret []
            else if raises_for_status status then
              log ERROR (MsgFetchError collection page) ;;; ret acc
            else
              match body with
              | Some (JDict d) =>
                  match py_iter (dict_get (py "items") (JList []) d) with
                  | Some items =>
                      if Z.of_nat (length items) <? batch
                      then ret (acc ++ items)
                      else pb_get_all_from fuel collection filter batch
                             (page + 1) (acc ++ items)
                  | None =>
                      log ERROR (MsgFetchError collection page) ;;; ret acc
                  end
              | _ => log ERROR (MsgFetchError collection page) ;;; ret acc
              end
        end (State w1
               (trace st ++ [Event (ListRecords collection filter page batch) r])
               (output st))).
    { cbn [pb_get_all_from]. unfold bind at 1, do_call at 1. rewrite Hh.
      reflexivity. }
    rewrite Hstep. clear Hstep Hh.
    assert (Hone : forall res : outcome (list json) * state W,
              trace res.2
              = trace st ++ [Event (ListRecords collection filter page batch) r] ->
              res.1 <> Stuck ->
              exists tr (k : nat),
                trace res.2 = trace st ++ tr
                /\ Forall (lists collection filter batch) tr
                /\ page_of <$> tr = Some <$> py_range page (page + Z.of_nat k)
                /\ (k <= S fuel)%nat
                /\ (res.1 = Stuck -> k = S fuel)).
    { intros res Htr Hres.
      exists [Event (ListRecords collection filter page batch) r], 1%nat.
      split; [exact Htr|]. split; [repeat constructor|].
      split; [|split; [lia|contradiction]].
      rewrite py_range_cons by lia. unfold py_range.
      replace (Z.to_nat _) with O by lia. reflexivity. }
    destruct r as [|status body]; [apply Hone; [reflexivity|discriminate]|].
    destruct (status =? 404); [apply Hone; [reflexivity|discriminate]|].
    destruct (raises_for_status status);
      [apply Hone; [reflexivity|discriminate]|].
    destruct body as [[| | | | | |d]|];
      try (apply Hone; [reflexivity|discriminate]).
    destruct (py_iter _) as [items|];
      [|apply Hone; [reflexivity|discriminate]].
    destruct (_ <? batch); [apply Hone; [reflexivity|discriminate]|].
    match goal with
    | |- context [pb_get_all_from fuel _ _ _ ?p ?a ?s] =>
        destruct (IH p a s) as (tr & k & Htr & HP & Hpages & Hk & Hstuck)
    end.
    cbn [trace] in Htr.
    exists (Event (ListRecords collection filter page batch)
              (Response status (Some (JDict d))) :: tr), (S k).
    split; [rewrite Htr, <- app_assoc; reflexivity|].
    split; [constructor; [repeat split|exact HP]|].
    split; [|split; [lia|intros H; rewrite (Hstuck H); reflexivity]].
    rewrite (py_range_cons page) by lia. rewrite !fmap_cons, Hpages.
    do 3 f_equal. lia.
Qed.

End Pages.

(** X22.  [pb_get_all] asks for the pages of one listing in order.  All it
    requests are pages 1, 2, ..., [k] of the collection, none twice and none
    skipped, each with the page size and with the filter it was given, the
    filter being left out when it is the empty string; [k] is at most the
    fuel of the model, and the loop is cut short by the model only when
    every one of these pages was full. *)
Theorem pb_get_all_pages_in_order {W : Type} {HW : World W}
    fuel cfg token collection filter_str batch (st : state W) :
  let run := pb_get_all fuel cfg token collection filter_str batch st in
  exists tr (k : nat),
    trace run.2 = trace st ++ tr
    /\ Forall (lists collection (filter_param filter_str) batch) tr
    /\ page_of <$> tr = Some <$> py_range 1 (1 + Z.of_nat k)
    /\ (k <= fuel)%nat
    /\ (run.1 = Stuck -> k = fuel)
    /\ filter_param [] = None.
Proof.
  cbv zeta. unfold pb_get_all.
  destruct (pb_get_all_from_pages collection (filter_param filter_str) batch
              fuel 1 [] st) as (tr & k & H1 & H2 & H3 & H4 & H5).
  exists tr, k. auto 10.
Qed.

Section FailedUpload.
Context {W : Type} {HW : World W} {B : Builtins}.

(** X23.  A tenant whose archive was built but could not be uploaded is
    recorded as [FAILED], with its summary, and an error is added to the
    run; the upload is not verified, and the turn of the loop ends there.
    With the tenants whose backup raises ([ERROR]) and those whose upload
    succeeds ([OK]), these are the three outcomes of a tenant. *)
Theorem backup_owner_upload_failed fuel cfg token date_str fields oid acc
    (st st1 st2 : state W) b :
  dict_lookup (py "id") fields = Some oid ->
  backup_tenant fuel cfg token (JDict fields) date_str st = (Ok b, st1) ->
  upload_gdrive cfg (path_str b.1.1.2) (gdrive_root cfg ++ py "/" ++ b.1.1.1)
    st1 = (Ok false, st2) ->
  backup_owner fuel cfg token date_str acc (JDict fields) st
  = (Ok (acc.1 ++ [ErrTenantUpload (display_name fields oid)],
         acc.2 ++ [summary_result b.2 false]), st2)
  /\ upload (summary_result b.2 false) = UploadFAILED.
Proof.
  intros Hid Hbackup Hupload. split; [|reflexivity].
  cbn [backup_owner]. unfold bind at 1.
  rewrite (owner_name_ok fields oid st Hid).
  unfold try_except, backup_and_upload. unfold bind at 1. rewrite Hbackup.
  cbv zeta. unfold bind at 1. rewrite Hupload.
  unfold bind, ret. reflexivity.
Qed.

End FailedUpload.

(** Every copy fails: the tenant is recorded as [FAILED]. *)
Lemma backup_owner_upload_failed_witness :
  exists (b : pystr * path * pystr * summary) st2,
    backup_owner (B:=ascii_builtins) 1 sample_config (py "t0k3n")
      (py "2024-05-01_0300") ([], []) (owner "o1abcdefgh" "Toko A")
      (initial no_quota)
    = (Ok ([ErrTenantUpload (JStr (py "Toko A"))],
           [summary_result b.2 false]), st2)
    /\ upload (summary_result b.2 false) = UploadFAILED.
Proof.
  do 2 eexists.
  eapply (backup_owner_upload_failed (B:=ascii_builtins) 1 sample_config
            (py "t0k3n") (py "2024-05-01_0300")
            [(py "id", JStr (py "o1abcdefgh")); (py "name", JStr (py "Toko A"))]
            (JStr (py "o1abcdefgh")) ([], []) (initial no_quota)).
  - reflexivity.
  - vm_compute. reflexivity.
  - vm_compute. reflexivity.
Defined.

(** ** Restore: the totals of the report *)

Section Totals.
Context {W : Type} {HW : World W}.
Variables (cfg : config) (token : pystr).

Lemma omap_none {A C} (f : A -> option C) l :
  Forall (fun x => f x = None) l -> omap f l = [].
Proof.
  induction 1 as [|x l Hx _ IH]; [reflexivity|]. cbn. rewrite Hx. exact IH.
Qed.

Lemma no_totals_omap out :
  Forall no_totals out ->
  omap collection_totals out = [] /\ omap final_totals out = [].
Proof.
  intros H. split; apply omap_none; eapply List.Forall_impl; try exact H;
    intros line [H1 H2]; assumption.
Qed.

Lemma emits_quiet_restore_record collection dry_run c r :
  emits (W:=W) (fun _ => True) no_totals (fun _ => True)
    (restore_record cfg token collection dry_run c r).
Proof.
  unfold restore_record, response.
  emits_walk ltac:(first [exact I | split; reflexivity]).
Qed.

Lemma emits_quiet_restore_files extract_dir dry_run :
  emits (W:=W) (fun _ => True) no_totals (fun _ => True)
    (restore_files cfg token extract_dir dry_run).
Proof.
  unfold restore_files, listdir.
  emits_walk ltac:(first [exact I | split; reflexivity]).
Qed.

Lemma counts_eta c :
  Counts (created c) (updated c) (skipped c) (errors_count c) = c.
Proof. destruct c. reflexivity. Qed.

Lemma restore_file_totals dry_run total f (st st' : state W) total' :
  restore_file cfg token dry_run total f st = (Ok total', st') ->
  exists out',
    output st' = output st ++ out'
    /\ omap final_totals out' = []
    /\ total' = fold_left add_counts (omap collection_totals out') total.
Proof.
  unfold restore_file. destruct f as [fname content].
  destruct (_ || _).
  { intros [= <- <-]. exists []. rewrite app_nil_r. auto. }
  destruct content as [[[| | | | | |data]|]|]; try discriminate.
  destruct (negb _).
  { intros [= <- <-]. exists []. rewrite app_nil_r. auto. }
  unfold bind at 1. unfold py_sized.
  destruct (py_iter _) as [records|]; [|discriminate]. cbn [ret].
  unfold bind at 1.
  pose proof (emits_for_each (fun _ => True) no_totals (fun _ => True)
                (restore_record cfg token (remove_all (py ".json") fname)
                   dry_run) records
                (fun s x _ => emits_quiet_restore_record _ dry_run s x)
                no_counts I st) as (_ & (out1 & Hout1 & Hquiet) & _).
  unfold restore_collection_data.
  destruct (for_each _ no_counts records st) as [[c|e|] st1];
    try discriminate.
  cbn [fst snd] in *. unfold bind, log, ret. cbn [world trace output].
  intros [= <- <-]. cbn [output].
  exists (out1 ++ [(INFO, MsgCollectionTotals (created c) (updated c)
                            (skipped c) (errors_count c))]).
  destruct (no_totals_omap out1 Hquiet) as [Hc Hf].
  rewrite Hout1, <- app_assoc. split; [reflexivity|].
  rewrite !omap_app, Hc, Hf. cbn. rewrite counts_eta. auto.
Qed.

Lemma restore_files_totals dry_run files : forall total (st st' : state W) total',
  for_each (restore_file cfg token dry_run) total files st = (Ok total', st') ->
  exists out',
    output st' = output st ++ out'
    /\ omap final_totals out' = []
    /\ total' = fold_left add_counts (omap collection_totals out') total.
Proof.
  induction files as [|f files IH]; intros total st st' total'; cbn [for_each].
  - intros [= <- <-]. exists []. rewrite app_nil_r. auto.
  - unfold bind.
    destruct (restore_file cfg token dry_run total f st) as [[t1|e|] st1] eqn:Hf;
      try discriminate.
    intros Hrest.
    apply restore_file_totals in Hf as (out1 & Hout1 & Hf1 & Ht1).
    apply IH in Hrest as (out2 & Hout2 & Hf2 & Ht2).
    exists (out1 ++ out2). rewrite Hout2, Hout1, <- app_assoc.
    split; [reflexivity|]. rewrite !omap_app, Hf1, Hf2.
    split; [reflexivity|]. rewrite fold_left_app, <- Ht1. exact Ht2.
Qed.

(** X24.  The totals [restore_from_zip] reports are the sums of what it
    reported for the collections.  When the call returns, it has logged one
    closing block, at the very end, and the four counters of that block are
    the sums of the counters of the lines logged for the collections,
    starting from zero. *)
Theorem restore_from_zip_totals zip_path dry_run (st st' : state W) :
  restore_from_zip cfg zip_path token dry_run st = (Ok tt, st') ->
  exists out' total,
    output st' = output st ++ out'
         ++ [(INFO, MsgRestoreDone (created total) (updated total)
                      (skipped total) (errors_count total))]
    /\ omap final_totals out' = []
    /\ total = fold_left add_counts (omap collection_totals out') no_counts.
Proof.
  unfold restore_from_zip. unfold bind at 1, do_call at 1.
  destruct (handle (Now _) (world st)) as [now w1]. cbn [world trace output].
  unfold bind at 1, do_call at 1. cbn [world trace output].
  destruct (handle (Makedirs _) w1) as [[|] w2]; [|discriminate].
  unfold try_finally.
  match goal with
  | |- context [restore_extracted _ _ _ _ _ ?s] => set (st2 := s)
  end.
  assert (Hbody : forall st3,
            restore_extracted cfg zip_path token dry_run
              [py "/tmp/ifix_restore_" ++ now] st2 = (Ok tt, st3) ->
            exists out' total,
              output st3 = output st ++ out'
                   ++ [(INFO, MsgRestoreDone (created total) (updated total)
                                (skipped total) (errors_count total))]
              /\ omap final_totals out' = []
              /\ total
                 = fold_left add_counts (omap collection_totals out') no_counts).
  { intros st3. unfold restore_extracted. unfold bind at 1, do_call at 1.
    destruct (handle (ExtractZip _ _) (world st2)) as [[[doc|top]|] w3];
      try discriminate.
    cbn [world trace output]. unfold bind at 1.
    match goal with
    | |- context [match ?m ?s with _ => _ end] =>
        assert (Hdir : exists out0,
                  Forall no_totals out0
                  /\ forall data_dir s', m s = (Ok data_dir, s') ->
                       output s' = output st ++ out0);
          [|destruct (m s) as [[data_dir|e|] st4] eqn:Hm; try discriminate]
    end.
    { destruct (find_summary (Dir top)) as [[p found]|].
      - exists []. split; [constructor|]. intros data_dir s'.
        rewrite app_nil_r.
        destruct (entry _ found) as [[[[| | | | | |]|]|]|];
          try discriminate; intros [= _ <-]; reflexivity.
      - exists [(WARN, MsgNoSummary)]. split; [repeat constructor|].
        intros data_dir s'. unfold bind, log, ret. cbn [world trace output].
        intros [= _ <-]. reflexivity. }
    destruct Hdir as (out0 & Hq0 & Hout0).
    specialize (Hout0 data_dir st4 eq_refl).
    unfold bind at 1.
    destruct (for_each _ no_counts data_dir st4) as [[total|e|] st5] eqn:Hloop;
      try discriminate.
    apply restore_files_totals in Hloop as (out1 & Hout1 & Hf1 & Ht1).
    unfold bind at 1.
    pose proof (emits_quiet_restore_files data_dir dry_run st5)
      as (_ & (out2 & Hout2 & Hq2) & _).
    destruct (restore_files cfg token data_dir dry_run st5) as [[n|e|] st6];
      try discriminate.
    cbn [snd] in Hout2. unfold log. intros [= <-]. cbn [output].
    exists (out0 ++ out1 ++ out2), total.
    destruct (no_totals_omap out0 Hq0) as [Hc0 Hf0].
    destruct (no_totals_omap out2 Hq2) as [Hc2 Hf2].
    rewrite Hout2, Hout1, Hout0, <- !app_assoc. split; [reflexivity|].
    rewrite !omap_app, Hc0, Hc2, Hf0, Hf1, Hf2, !app_nil_r.
    split; [reflexivity|exact Ht1]. }
  destruct (restore_extracted _ _ _ _ _ st2) as [[[]|e|] st3] eqn:Hrun.
  - destruct (Hbody st3 eq_refl) as (out' & total & Hout & Hrest).
    unfold do_call. destruct (handle (RemoveTree _) (world st3)) as [[] w4].
    intros [= <-]. cbn [output]. exists out', total. auto.
  - unfold do_call. destruct (handle (RemoveTree _) (world st3)) as [[] w4].
    discriminate.
  - discriminate.
Qed.

End Totals.

(** The archive of a tenant with one user, restored into an empty store. *)
Lemma restore_from_zip_totals_witness :
  exists out' total,
    output (restore_from_zip sample_config [py "/tmp/with.zip"] (py "t0k3n")
              false (initial two_archives)).2
    = [] ++ out'
      ++ [(INFO, MsgRestoreDone (created total) (updated total)
                   (skipped total) (errors_count total))]
    /\ omap final_totals out' = []
    /\ total = fold_left add_counts (omap collection_totals out') no_counts.
Proof.
  apply (restore_from_zip_totals sample_config (py "t0k3n")
           [py "/tmp/with.zip"] false (initial two_archives)).
  vm_compute. reflexivity.
Defined.

(** ** The layout of the archives *)

Section Layout.
Context {W : Type} {HW : World W} {B : Builtins}.
Variables (fuel : nat) (cfg : config) (token date_str : pystr).

Lemma emits_any_pb_get_all (P : event -> Prop) collection filter_str batch :
  (forall page r,
     P (Event (ListRecords collection (filter_param filter_str) page batch) r)) ->
  emits (W:=W) P (fun _ => True) (fun _ => True)
    (pb_get_all fuel cfg token collection filter_str batch).
Proof. intros HP. unfold pb_get_all. apply emits_pb_get_all_from, HP. Qed.

Lemma emits_layout_files (P : event -> Prop) col records dest_dir :
  (forall cid rid fname r, P (Event (GetFile cid rid fname) r)) ->
  (forall p r, P (Event (WriteFile p) r)) ->
  emits (W:=W) P (fun _ => True) (fun _ => True)
    (backup_files_for_records cfg token col records dest_dir).
Proof.
  intros Hget Hwrite.
  unfold backup_files_for_records, backup_files_for_record, pb_download_file.
  emits_walk ltac:(first [exact I | apply Hget | apply Hwrite]).
Qed.

Lemma emits_for_each_in {A S} (P : event -> Prop) Pl (I : S -> Prop)
    (R : A -> Prop) (f : S -> A -> M W S) l :
  Forall R l ->
  (forall s x, R x -> I s -> emits P Pl I (f s x)) ->
  forall s, I s -> emits P Pl I (for_each f s l).
Proof.
  intros Hl Hf. induction Hl as [|x l Hx _ IH]; intros s Hs; cbn [for_each].
  - apply emits_ret. exact Hs.
  - eapply emits_bind; [apply Hf; assumption|]. intros s' Hs'. apply IH, Hs'.
Qed.

Lemma emits_time_sleep (P : event -> Prop) secs :
  (forall r, P (Event (Sleep secs) r)) ->
  emits (W:=W) P (fun _ => True) (fun _ => True) (time_sleep secs).
Proof.
  intros Hsleep. unfold time_sleep.
  emits_walk ltac:(first [exact I | apply Hsleep]).
Qed.

Lemma emits_upload_gdrive (P : event -> Prop) local_path gdrive_folder :
  (forall argv r, P (Event (Subprocess argv) r)) ->
  (forall secs r, P (Event (Sleep secs) r)) ->
  emits (W:=W) P (fun _ => True) (fun _ => True)
    (upload_gdrive cfg local_path gdrive_folder).
Proof.
  intros Hrun Hsleep. unfold upload_gdrive. cbv zeta.
  generalize (py_range 1 (max_retries cfg + 1)). intros attempts.
  induction attempts as [|a rest IH]; cbn [upload_attempts].
  - emits_walk ltac:(first [exact I | apply Hrun | apply Hsleep]).
  - emits_walk ltac:(first [exact I | apply Hrun | apply Hsleep]);
      first [exact IH | apply emits_time_sleep; intros; apply Hsleep].
Qed.

Lemma emits_global_stage errors :
  emits (W:=W)
    (fun e => nests_under date_str e /\ writes_no_summary e)
    (fun _ => True) (fun _ => True)
    (global_stage fuel cfg token date_str errors).
Proof.
  unfold global_stage. cbv zeta.
  eapply emits_bind with (Q := fun _ => True).
  { unfold fs. emits_walk ltac:(first [exact I | split; exact I]). }
  intros _ _.
  eapply emits_bind with (Q := fun _ => True).
  { unfold fs. emits_walk ltac:(first [exact I | split; exact I]). }
  intros _ _.
  eapply emits_bind with (Q := fun _ => True).
  { apply emits_for_each_in
      with (R := fun col => col ++ py ".json" <> py "summary.json");
      [|intros [] col Hcol _|exact I].
    { unfold GLOBAL_COLLECTIONS. repeat constructor;
        intros H; vm_compute in H; discriminate. }
    unfold fs.
    emits_walk ltac:(first
      [ exact I
      | split; exact I
      | split; [reflexivity|exact I]
      | split; [exact I|exact Hcol] ]).
    - apply emits_any_pb_get_all. intros; split; exact I.
    - apply emits_layout_files; intros; split; exact I. }
  intros _ _.
  eapply emits_bind with (Q := fun _ => True);
    [|intros; apply emits_ret; exact I].
  apply emits_upload_gdrive; intros; split; exact I.
Qed.

Lemma emits_tenant_layout owner :
  emits (W:=W) (nests_under date_str) (fun _ => True) (fun _ => True)
    (backup_tenant fuel cfg token owner date_str).
Proof.
  unfold backup_tenant, owner_name, fs.
  emits_walk ltac:(first [exact I | reflexivity]).
  unfold backup_collection, fs.
  emits_walk ltac:(first [exact I | reflexivity]).
  - apply emits_any_pb_get_all. intros; exact I.
  - apply emits_layout_files; intros; exact I.
Qed.

(** X25.  Every archive the backup builds keeps its members under one
    folder, named after the date of the run: the archive of a tenant is the
    tree of its working folder, stored under that name, and every member
    stage 2 adds to the archive of the global collections goes under it as
    well.  Stage 2 writes no [summary.json]: the archive of the global
    collections has none. *)
Theorem archives_nest_under_date (st : state W) :
  (forall owner,
     exists tr,
       trace (backup_tenant fuel cfg token owner date_str st).2
       = trace st ++ tr
       /\ Forall (nests_under date_str) tr)
  /\ (forall errors,
        exists tr,
          trace (global_stage fuel cfg token date_str errors st).2
          = trace st ++ tr
          /\ Forall (nests_under date_str) tr
          /\ Forall writes_no_summary tr).
Proof.
  split.
  - intros owner. apply (emits_trace _ _ _ _ (emits_tenant_layout owner)).
  - intros errors.
    destruct (emits_trace _ _ _ _ (emits_global_stage errors) st)
      as (tr & Htr & HP).
    exists tr. split; [exact Htr|].
    split; eapply List.Forall_impl; try exact HP; intros e [H1 H2]; assumption.
Qed.

End Layout.

Section WithoutSummary.
Context {W : Type} {HW : World W}.
Variables (cfg : config) (token : pystr) (dry_run : bool).

Lemma restore_file_skips top : forall total (st : state W),
  no_json_at_root top ->
  for_each (restore_file cfg token dry_run) total top st = (Ok total, st).
Proof.
  induction top as [|[fname content] top IH]; intros total st Htop;
    [reflexivity|].
  inversion Htop as [|? ? [Hjson _] Hrest]; subst. cbn [fst] in Hjson.
  cbn [for_each]. unfold bind, restore_file. rewrite Hjson. cbn [negb orb].
  cbn [ret]. apply IH, Hrest.
Qed.

Lemma no_files_at_root top :
  no_json_at_root top -> entry (py "_files") top = None.
Proof.
  unfold entry. induction 1 as [|[fname content] top [_ Hname] _ IH];
    [reflexivity|].
  cbn [List.find fst]. cbn [fst] in Hname.
  rewrite bool_decide_eq_false_2 by exact Hname. exact IH.
Qed.

(** X26.  Without a [summary.json], [restore_from_zip] only looks at the
    root of the archive.  For an archive whose JSON files are all in
    sub-folders, as in the archives the backup builds, it warns that the
    summary is missing, sends no request to PocketBase and reports totals of
    zero, whatever the folders hold. *)
Theorem restore_without_summary_reads_root zip_path top (st : state W) :
  let now := Now (py "%Y%m%d_%H%M%S") in
  let clock := handle now (world st) in
  let extract_dir := [py "/tmp/ifix_restore_" ++ clock.1] in
  let made := handle (Makedirs extract_dir) clock.2 in
  let extracted := handle (ExtractZip zip_path extract_dir) made.2 in
  let removed := handle (RemoveTree extract_dir) extracted.2 in
  made.1 = FsDone ->
  extracted.1 = Some (Dir top) ->
  find_summary (Dir top) = None ->
  no_json_at_root top ->
  restore_from_zip cfg zip_path token dry_run st
  = (Ok tt,
     State removed.2
       (trace st ++ [Event now clock.1;
                     Event (Makedirs extract_dir) FsDone;
                     Event (ExtractZip zip_path extract_dir) (Some (Dir top));
                     Event (RemoveTree extract_dir) tt])
       (output st ++ [(WARN, MsgNoSummary);
                      (INFO, MsgRestoreDone 0 0 0 0)])).
Proof.
  cbv zeta.
  destruct (handle (Now _) (world st)) as [now w1] eqn:Hnow. cbn [fst snd].
  destruct (handle (Makedirs _) w1) as [made w2] eqn:Hmk. cbn [fst snd].
  destruct (handle (ExtractZip _ _) w2) as [extracted w3] eqn:Hex.
  cbn [fst snd].
  destruct (handle (RemoveTree _) w3) as [[] w4] eqn:Hrm. cbn [fst snd].
  intros -> -> Hsum Htop.
  rewrite (restore_from_zip_made _ _ _ _ _ _ _ _ Hnow Hmk).
  unfold try_finally, restore_extracted. unfold bind at 1, do_call at 1.
  cbn [world trace output]. rewrite Hex, Hsum.
  unfold bind at 1. unfold bind at 1, log at 1, ret at 1.
  cbn [world trace output]. unfold bind at 1.
  rewrite (restore_file_skips top no_counts _ Htop).
  unfold bind at 1, restore_files. rewrite (no_files_at_root top Htop).
  cbn [ret]. unfold log, do_call. cbn [world trace output created updated
                                         skipped errors_count no_counts].
  rewrite Hrm. rewrite <- !app_assoc. reflexivity.
Qed.

End WithoutSummary.

(** The archive of a tenant, without its [summary.json]: the user it holds
    is not restored. *)
Lemma restore_without_summary_reads_root_witness :
  exists st',
    restore_from_zip sample_config [py "/tmp/without.zip"] (py "t0k3n") false
      (initial two_archives) = (Ok tt, st')
    /\ output st' = [(WARN, MsgNoSummary); (INFO, MsgRestoreDone 0 0 0 0)].
Proof.
  eexists. split.
  - apply (restore_without_summary_reads_root sample_config (py "t0k3n") false
             [py "/tmp/without.zip"]
             [(py "2024-05-02_0300",
               Dir [(py "users.json", File (Some users_doc))])]
             (initial two_archives)).
    + vm_compute. reflexivity.
    + vm_compute. reflexivity.
    + reflexivity.
    + repeat constructor. discriminate.
  - reflexivity.
Defined.

(** ** Backup: the attachments *)

Section Attachments.
Context {W : Type} {HW : World W}.
Variables (cfg : config) (token : pystr).

Lemma files_written_app tr1 tr2 :
  files_written (tr1 ++ tr2) = files_written tr1 + files_written tr2.
Proof.
  unfold files_written. rewrite filter_app, length_app. lia.
Qed.

Lemma for_each_counts_files {A} (f : Z -> A -> M W Z) l :
  counts_files f -> counts_files (fun count (_ : unit) => for_each f count l).
Proof.
  intros Hf. induction l as [|x l IH]; intros count [] st st' n;
    cbn [for_each].
  - intros [= <- <-]. exists []. rewrite app_nil_r.
    split; [reflexivity|]. split; [constructor|]. unfold files_written. cbn. lia.
  - unfold bind. destruct (f count x st) as [[c1|e|] st1] eqn:H1;
      try discriminate.
    intros Hrest. apply Hf in H1 as (tr1 & Htr1 & HP1 & Hc1).
    apply (IH c1 tt) in Hrest as (tr2 & Htr2 & HP2 & Hc2).
    exists (tr1 ++ tr2). rewrite Htr2, Htr1, <- app_assoc.
    split; [reflexivity|]. split; [apply Forall_app; auto|].
    rewrite files_written_app. lia.
Qed.

Lemma pb_download_file_written coll_id rid fname dest (st st' : state W) ok :
  pb_download_file cfg token coll_id rid fname dest st = (Ok ok, st') ->
  exists tr,
    trace st' = trace st ++ tr /\ Forall is_download tr
    /\ files_written tr = if ok then 1 else 0.
Proof.
  unfold pb_download_file, bind, do_call, log, ret.
  destruct (handle (GetFile _ _ _) (world st)) as [[|status body] w1].
  - intros [= <- <-]. eexists. split; [reflexivity|].
    split; [repeat constructor|reflexivity].
  - destruct (negb _).
    + intros [= <- <-]. eexists. split; [reflexivity|].
      split; [repeat constructor|reflexivity].
    + cbn [world trace output].
      destruct (handle (WriteFile _) w1) as [[|] w2]; intros [= <- <-];
        cbn [trace]; rewrite <- app_assoc; eexists;
        (split; [reflexivity|]); (split; [repeat constructor|reflexivity]).
Qed.

Lemma backup_files_for_record_counts collection fields files_dir :
  counts_files (backup_files_for_record (W:=W) cfg token collection fields
                  files_dir).
Proof.
  intros count record. unfold backup_files_for_record.
  destruct record as [| | | | | |d]; try discriminate.
  intros st st' n.
  apply (for_each_counts_files
           (fun count field =>
              if negb (truthy (dict_get field JNull d)) then ret count
              else
                for_each (fun count fname =>
                  match dict_get (py "id") (JStr []) d with
                  | JStr rid =>
                      ok <- pb_download_file cfg token
                              (dict_get (py "collectionId") (JStr collection) d)
                              rid fname (files_dir ++ [rid; fname]) ;;
                      ret (if ok : bool then count + 1 else count)
                  | _ => raise TypeError
                  end) count (file_names (dict_get field JNull d)))
           fields) with (x := tt).
  clear. intros count field st st' n. destruct (negb _).
  { intros [= <- <-]. exists []. rewrite app_nil_r.
    split; [reflexivity|]. split; [constructor|]. unfold files_written. cbn. lia. }
  apply (for_each_counts_files _ (file_names (dict_get field JNull d)))
    with (x := tt).
  clear. intros count fname st st' n.
  destruct (dict_get (py "id") (JStr []) d) as [| | | |rid| |];
    try discriminate.
  unfold bind.
  destruct (pb_download_file _ _ _ _ _ _ st) as [[ok|e|] st1] eqn:Hd;
    try discriminate.
  intros [= <- <-].
  apply pb_download_file_written in Hd as (tr & Htr & HP & Hw).
  exists tr. split; [exact Htr|]. split; [exact HP|].
  rewrite Hw. destruct ok; lia.
Qed.

(** X27.  The number of attachments [backup_files_for_records] returns is
    the number of files it has written.  Only the collection [users] has
    attachments to fetch: for any other collection the function returns 0
    without a call.  When it returns, all it has done is to request files
    and to write them, and its result counts the writes that succeeded
    (a file that could not be fetched or written is not counted, and is
    not an error). *)
Theorem backup_files_counts_writes collection records dest_dir
    (st : state W) :
  (collection <> py "users" ->
   backup_files_for_records cfg token collection records dest_dir st
   = (Ok 0, st))
  /\ (forall n st',
        backup_files_for_records cfg token collection records dest_dir st
        = (Ok n, st') ->
        exists tr,
          trace st' = trace st ++ tr /\ Forall is_download tr
          /\ n = files_written tr).
Proof.
  unfold backup_files_for_records, FILE_FIELDS. split.
  - intros Hcol. rewrite bool_decide_eq_false_2 by exact Hcol. reflexivity.
  - intros n st'. case_bool_decide as Hcol.
    + intros Hrun.
      apply (for_each_counts_files _ records
               (backup_files_for_record_counts collection [py "avatar"]
                  (dest_dir ++ [py "_files"; collection])) 0 tt)
        in Hrun as (tr & Htr & HP & Hn).
      exists tr. split; [exact Htr|]. split; [exact HP|]. lia.
    + intros [= <- <-]. exists []. rewrite app_nil_r.
      split; [reflexivity|]. split; [constructor|reflexivity].
Qed.

End Attachments.

(** Two users, one with an avatar: one file is fetched and written. *)
Lemma backup_files_counts_writes_witness :
  exists tr,
    trace (backup_files_for_records sample_config (py "t0k3n") users
             [JDict [(py "id", JStr (py "u1"));
                     (py "avatar", JStr (py "me.png"))];
              rec_id "u2"]
             [py "/tmp/ifix_backup"] (initial (sim_store []))).2
    = [] ++ tr
    /\ Forall is_download tr
    /\ 1 = files_written tr.
Proof.
  apply (proj2 (backup_files_counts_writes sample_config (py "t0k3n") users
                  [JDict [(py "id", JStr (py "u1"));
                          (py "avatar", JStr (py "me.png"))];
                   rec_id "u2"]
                  [py "/tmp/ifix_backup"] (initial (sim_store [])))).
  vm_compute. reflexivity.
Defined.
